(** * collections-pnz: billing and balance summaries over an invoicing table

    A shallow embedding of [balance_sum_report.py],
    [generate_billing_report.py] and [generate_reports.py].

    - A pandas [DataFrame] is a table: an ordered list of column names and
      a list of rows, each row a finite map from column name to cell.
    - A number in a cell is the value the column holds, as a rational
      ([Qc]); [int(x)] truncates toward zero.  Sums of columns are not
      exact in pandas (float64 rounding, int64 wrap-around): what [sum]
      returns is a parameter of the development (class [Sums]).
    - Frames are Python objects: they live in a heap and are passed by
      reference, so that [df.copy()] and item assignment can be told apart.
    - [pd.to_datetime(..., errors="coerce")] is taken as a parameter too
      (section variable [to_datetime]). *)

From Stdlib Require Import ZArith QArith Qcanon String Ascii DecimalString.
From stdpp Require Import gmap strings list fin_maps numbers sorting.

Local Open Scope string_scope.
Local Open Scope Z_scope.

(** ** Exceptions and results *)

Inductive exn :=
  | KeyError (key : string)
  | TypeError
  | ValueError (msg : string)
  | InvalidName (name : string)   (* ValueError("Invalid name <repr(name)>") *)
  | EmptyName                     (* ValueError("<repr(path)> has an empty name") *)
  | InvalidReference.

Inductive result (A : Type) :=
  | Ok (a : A)
  | Raise (e : exn).
Arguments Ok {A} a.
Arguments Raise {A} e.

Global Instance result_ret : MRet result := λ A a, Ok a.
Global Instance result_bind : MBind result := λ A B f r,
  match r with Ok a => f a | Raise e => Raise e end.
Global Instance result_fmap : FMap result := λ A B f r,
  match r with Ok a => Ok (f a) | Raise e => Raise e end.

(** ** Text: [str(int)], format specs, [join], [strip] *)

Module Text.

Definition chars (s : string) : list ascii := list_ascii_of_string s.
Definition text (l : list ascii) : string := string_of_list_ascii l.

(** [str(z)] for a Python int. *)
Definition py_str (z : Z) : string := NilZero.string_of_int (Z.to_int z).

Definition zero_pad (w : nat) (s : string) : string :=
  text (replicate (w - String.length s) "0"%char) +:+ s.

(** Format spec [0wd]: sign-aware zero padding to width [w]. *)
Definition fmt_0d (w : nat) (z : Z) : string :=
  if z <? 0 then "-" +:+ zero_pad (w - 1) (py_str (- z))
  else zero_pad w (py_str z).

(** Digits, least significant first, with a comma after every third. *)
Fixpoint group3 (k : nat) (ds : list ascii) : list ascii :=
  match ds with
  | [] => []
  | d :: rest =>
      match rest with
      | [] => [d]
      | _ :: _ =>
          match k with
          | 2%nat => d :: ","%char :: group3 0 rest
          | _ => d :: group3 (S k) rest
          end
      end
  end.

(** Format spec [,]: thousands separators, as in [f"{n:,}"]. *)
Definition fmt_comma (z : Z) : string :=
  let body := text (reverse (group3 0 (reverse (chars (py_str (Z.abs z)))))) in
  if z <? 0 then "-" +:+ body else body.

(** [sep.join(parts)]. *)
Fixpoint join (sep : string) (parts : list string) : string :=
  match parts with
  | [] => ""
  | [p] => p
  | p :: rest => p +:+ sep +:+ join sep rest
  end.

(** [str.isspace] on the ASCII range. *)
Definition is_space (c : ascii) : bool :=
  let n := nat_of_ascii c in
  ((9 <=? n) && (n <=? 13) || (28 <=? n) && (n <=? 32))%nat.

Fixpoint lstrip (l : list ascii) : list ascii :=
  match l with
  | [] => []
  | c :: rest => if is_space c then lstrip rest else l
  end.

(** [s.strip()]. *)
Definition strip (s : string) : string :=
  text (reverse (lstrip (reverse (lstrip (chars s))))).

Definition is_digit (c : ascii) : bool :=
  let n := nat_of_ascii c in ((48 <=? n) && (n <=? 57))%nat.

(** [int(s)] for a string of decimal digits. *)
Definition int_of_digits (ds : list ascii) : Z :=
  foldl (λ acc c, 10 * acc + (Z.of_nat (nat_of_ascii c) - 48)) 0 ds.

Definition newline : string := String (ascii_of_nat 10) "".

(** [needle in hay]. *)
Fixpoint is_prefix (p l : list ascii) : bool :=
  match p, l with
  | [], _ => true
  | a :: p', b :: l' => bool_decide (a = b) && is_prefix p' l'
  | _ :: _, [] => false
  end.

Fixpoint occurs (p l : list ascii) : bool :=
  is_prefix p l || match l with [] => false | _ :: l' => occurs p l' end.

Definition contains (hay needle : string) : bool :=
  occurs (chars needle) (chars hay).

(** No character of [s] is a slash. *)
Definition slash_free (s : string) : Prop :=
  Forall (λ c, c ≠ "/"%char) (chars s).

Definition slash_freeb (s : string) : bool :=
  forallb (λ c, negb (Ascii.eqb c "/"%char)) (chars s).

(** Code-point order on strings, and [sorted(xs)]. *)
Definition str_le (a b : string) : Prop := String.leb a b = true.

Global Instance str_le_dec : RelDecision str_le.
Proof. intros a b. unfold str_le. apply _. Defined.

Definition sorted (l : list string) : list string := merge_sort str_le l.

End Text.

(** ** Timestamps *)

Record Timestamp := mkTimestamp {
  year : Z;
  month : Z;
  day : Z;
  time_ns : Z  (* nanoseconds since midnight *)
}.

Global Instance Timestamp_eq_dec : EqDecision Timestamp.
Proof. solve_decision. Defined.

Module Time.

Definition month_abbr (m : Z) : string :=
  match m with
  | 1 => "Jan" | 2 => "Feb" | 3 => "Mar" | 4 => "Apr"
  | 5 => "May" | 6 => "Jun" | 7 => "Jul" | 8 => "Aug"
  | 9 => "Sep" | 10 => "Oct" | 11 => "Nov" | 12 => "Dec"
  | _ => ""
  end.

(** [strftime("%d-%b-%Y")] (C locale). *)
Definition strftime_dbY (t : Timestamp) : string :=
  Text.fmt_0d 2 (day t) +:+ "-" +:+ month_abbr (month t) +:+ "-"
    +:+ Text.fmt_0d 4 (year t).

(** Chronological order: lexicographic on (year, month, day, time). *)
Definition leb (a b : Timestamp) : bool :=
  if year a =? year b then
    if month a =? month b then
      if day a =? day b then time_ns a <=? time_ns b
      else day a <? day b
    else month a <? month b
  else year a <? year b.

Definition earlier (a b : Timestamp) : Timestamp := if leb a b then a else b.
Definition later (a b : Timestamp) : Timestamp := if leb a b then b else a.

(** Bounds of [pd.Timestamp] (nanosecond resolution): years 1677..2262. *)
Definition in_bounds (t : Timestamp) : Prop :=
  1677 <= year t <= 2262 ∧ 1 <= month t <= 12 ∧ 1 <= day t <= 31.

Global Instance in_bounds_dec t : Decision (in_bounds t).
Proof. unfold in_bounds. apply _. Defined.

End Time.

(** ** [fy_label] (generate_billing_report.py) *)

Definition fy_start (date : Timestamp) : Z :=
  if 4 <=? month date then year date else year date - 1.

Definition fy_label (date : option Timestamp) : option string :=
  match date with
  | None => None
  | Some d =>
      let start := fy_start d in
      Some ("FY" +:+ Text.py_str start +:+ "-" +:+ Text.fmt_0d 2 ((start + 1) mod 100))
  end.


(** ** Cells, series and frames *)

Inductive cell :=
  | NA                    (* NaN / None / NaT *)
  | Num (q : Qc)
  | Str (s : string)
  | TS (t : Timestamp).

Global Instance cell_eq_dec : EqDecision cell.
Proof. solve_decision. Defined.

Record DataFrame := mkFrame {
  columns : list string;
  rows : list (gmap string cell)
}.

(** ** Column sums

    pandas adds up a float64 column in floating point and an int64 column
    in machine integers, in an order of its own; the result is in general
    not the exact sum of the numbers (in floating point 0.1 + 0.2 is not
    0.3).  What [Series.sum] and the [sum] of
    [groupby(...).agg] return is therefore taken as given, as a function of
    the non-missing numbers of the column in row order.  Of the arithmetic
    only this is used: an empty column sums to 0.  A sum is a float64 or
    an int64 of magnitude below 2^53, so that [float(x)] leaves it as it
    is. *)
Class Sums := {
  series_sum : list Qc → Qc;   (* [s.sum()] *)
  group_sum : list Qc → Qc;    (* [sum] of one group of [groupby(...).agg] *)
  series_sum_nil : series_sum [] = 0%Qc
}.

(** Whole numbers of magnitude below 2^53 add up without rounding or
    overflow, in whatever order: there the sums are the exact ones.  This
    instantiates [Sums] when the builders are run on the sample tables,
    which hold whole numbers. *)
Definition exact_sum (l : list Qc) : Qc := foldr Qcplus 0%Qc l.

Definition whole_sums : Sums :=
  {| series_sum := exact_sum; group_sum := exact_sum;
     series_sum_nil := eq_refl |}.

Module Series.

(** [int(x)]: truncation toward zero. *)
Definition py_int (q : Qc) : Z := Z.quot (Qnum q) (Zpos (Qden q)).

Definition date_cell (o : option Timestamp) : cell := from_option TS NA o.

Definition cell_date (c : cell) : option Timestamp :=
  match c with TS t => Some t | _ => None end.

Definition cell_text (c : cell) : option string :=
  match c with Str s => Some s | _ => None end.

Definition notna (c : cell) : bool :=
  match c with NA => false | _ => true end.

(** [s.dropna()]. *)
Definition dropna (s : list cell) : list cell := filter (λ c, c ≠ NA) s.

(** [s.unique()]: distinct values in order of first appearance. *)
Definition unique {A} `{EqDecision A} (l : list A) : list A :=
  reverse (remove_dups (reverse l)).

(** [s.nunique()]: number of distinct non-missing values. *)
Definition nunique (s : list cell) : nat := length (unique (dropna s)).

(** [s > k]: missing compares false, text and dates raise. *)
Definition cell_gt (k : Qc) (c : cell) : result bool :=
  match c with
  | NA => Ok false
  | Num q => Ok (bool_decide (k < q)%Qc)
  | Str _ | TS _ => Raise TypeError
  end.

Definition gt (s : list cell) (k : Qc) : result (list bool) := mapM (cell_gt k) s.

(** The numbers of a column, missing values skipped; text and dates do
    not add up. *)
Fixpoint numbers (s : list cell) : result (list Qc) :=
  match s with
  | [] => Ok []
  | NA :: rest => numbers rest
  | Num q :: rest => cons q <$> numbers rest
  | (Str _ | TS _) :: _ => Raise TypeError
  end.

(** [s.sum()]. *)
Definition sum `{!Sums} (s : list cell) : result Qc :=
  series_sum <$> numbers s.

(** [s.min()] and [s.max()] of a datetime column; [None] is NaT / nan. *)
Definition extreme (pick : Timestamp → Timestamp → Timestamp) (s : list cell)
  : option Timestamp :=
  match omap cell_date s with
  | [] => None
  | t :: ts => Some (foldl pick t ts)
  end.

Definition min (s : list cell) : option Timestamp := extreme Time.earlier s.
Definition max (s : list cell) : option Timestamp := extreme Time.later s.

(** [s.isna()]. *)
Definition isna (s : list cell) : list bool := (λ c, negb (notna c)) <$> s.

(** [s == k] for an integer [k]. *)
Definition eq_int (s : list cell) (k : Z) : list bool :=
  (λ c, match c with Num q => bool_decide (q = Qc_of_Z k) | _ => false end) <$> s.

(** [s.dt.year]. *)
Definition dt_year (s : list cell) : list cell :=
  (λ c, match c with TS t => Num (Qc_of_Z (year t)) | _ => NA end) <$> s.

(** [s.apply(fy_label)]. *)
Definition apply_fy_label (s : list cell) : list cell :=
  (λ c, from_option Str NA (fy_label (cell_date c))) <$> s.

(** [is_string_dtype(s)]: every element is a [str]. *)
Definition is_string_dtype (s : list cell) : bool :=
  forallb (λ c, match c with Str _ => true | _ => false end) s.

(** [s.astype(str)] on a series of [str]. *)
Definition astype_str (s : list cell) : list string := omap cell_text s.

End Series.

Module Frame.

Definition column (name : string) (df : DataFrame) : list cell :=
  (λ r : gmap string cell, default NA (r !! name)) <$> rows df.

(** [df[name]]. *)
Definition getitem (df : DataFrame) (name : string) : result (list cell) :=
  if bool_decide (name ∈ columns df) then Ok (column name df)
  else Raise (KeyError name).

(** [df.get(name)]. *)
Definition get (df : DataFrame) (name : string) : option (list cell) :=
  if bool_decide (name ∈ columns df) then Some (column name df) else None.

(** Row-aligned assignment: a row without a value receives NaN. *)
Fixpoint assign (name : string) (rs : list (gmap string cell)) (s : list cell)
  : list (gmap string cell) :=
  match rs with
  | [] => []
  | r :: rs' => <[name := default NA (head s)]> r :: assign name rs' (tail s)
  end.

Definition add_column (name : string) (cols : list string) : list string :=
  if bool_decide (name ∈ cols) then cols else cols ++ [name].

(** [df[name] = s]. *)
Definition setitem (name : string) (s : list cell) (df : DataFrame) : DataFrame :=
  {| columns := add_column name (columns df);
     rows := assign name (rows df) s |}.

(** [df[name] = None]: the scalar is broadcast. *)
Definition setitem_scalar (name : string) (c : cell) (df : DataFrame) : DataFrame :=
  {| columns := add_column name (columns df);
     rows := (λ r : gmap string cell, <[name := c]> r) <$> rows df |}.

Fixpoint mask_select {A} (xs : list A) (mask : list bool) : list A :=
  match xs, mask with
  | x :: xs', b :: mask' =>
      if b then x :: mask_select xs' mask' else mask_select xs' mask'
  | _, _ => []
  end.

(** [df[mask]]. *)
Definition select (mask : list bool) (df : DataFrame) : DataFrame :=
  {| columns := columns df; rows := mask_select (rows df) mask |}.

(** [df.shape[0]] and [df.empty]. *)
Definition shape0 (df : DataFrame) : nat := length (rows df).
Definition empty (df : DataFrame) : bool :=
  bool_decide (rows df = []) || bool_decide (columns df = []).

End Frame.

(** ** The heap of frames and the program monad *)

Record World := mkWorld {
  heap : gmap positive DataFrame;
  files : list (string * string);   (* (path, text) written, oldest first *)
  console : list string             (* lines printed, oldest first *)
}.

Definition M (A : Type) : Type := World → result A * World.

Global Instance M_ret : MRet M := λ A a w, (Ok a, w).
Global Instance M_bind : MBind M := λ A B f m w,
  match m w with
  | (Ok a, w') => f a w'
  | (Raise e, w') => (Raise e, w')
  end.
Global Instance M_fmap : FMap M := λ A B f m w,
  match m w with
  | (Ok a, w') => (Ok (f a), w')
  | (Raise e, w') => (Raise e, w')
  end.

Definition raise {A} (e : exn) : M A := λ w, (Raise e, w).
Definition lift {A} (r : result A) : M A := λ w, (r, w).

Definition set_heap (h : gmap positive DataFrame) (w : World) : World :=
  {| heap := h; files := files w; console := console w |}.

Module Df.

(** A new frame object. *)
Definition new (df : DataFrame) : M positive := λ w,
  let l := fresh (dom (heap w)) in
  (Ok l, set_heap (<[l := df]> (heap w)) w).

Definition read (l : positive) : M DataFrame := λ w,
  match heap w !! l with
  | Some df => (Ok df, w)
  | None => (Raise InvalidReference, w)
  end.

Definition write (l : positive) (df : DataFrame) : M unit := λ w,
  (Ok (), set_heap (<[l := df]> (heap w)) w).

(** [df.copy()]. *)
Definition copy (l : positive) : M positive := df ← read l; new df.

Definition getitem (l : positive) (name : string) : M (list cell) :=
  df ← read l; lift (Frame.getitem df name).

Definition get (l : positive) (name : string) : M (option (list cell)) :=
  df ← read l; mret (Frame.get df name).

Definition setitem (l : positive) (name : string) (s : list cell) : M unit :=
  df ← read l; write l (Frame.setitem name s df).

Definition setitem_scalar (l : positive) (name : string) (c : cell) : M unit :=
  df ← read l; write l (Frame.setitem_scalar name c df).

Definition select (l : positive) (mask : list bool) : M positive :=
  df ← read l; new (Frame.select mask df).

Definition columns (l : positive) : M (list string) := columns <$> read l.
Definition shape0 (l : positive) : M nat := Frame.shape0 <$> read l.
Definition empty (l : positive) : M bool := Frame.empty <$> read l.

End Df.

(** ** [infer_customer_name] (the same function in both report modules) *)

Definition candidate_columns : list string :=
  ["Billing Name"; "Customer Name"; "Customer"].

Fixpoint infer_from (df : DataFrame) (candidates : list string) : option string :=
  match candidates with
  | [] => None
  | col :: rest =>
      if negb (bool_decide (col ∈ columns df)) then infer_from df rest
      else
        let series := Series.dropna (Frame.column col df) in
        if bool_decide (series = []) then infer_from df rest
        else if negb (Series.is_string_dtype series) then infer_from df rest
        else
          let values := Text.strip <$> Series.astype_str series in
          let values := filter (λ v, v ≠ "") values in
          match Series.unique values with
          | [u] => Some u
          | _ => infer_from df rest
          end
  end.

Definition infer_customer_name (df : DataFrame) : option string :=
  infer_from df candidate_columns.

(** ** The fiscal-year table of [build_report] *)

Record FYGroup := mkFYGroup {
  FY : string;
  total_value : Qc;
  invoice_count : nat
}.

Record FYRow := mkFYRow {
  fy_group : FYGroup;
  start_year : Z
}.

Module Groupby.

(** [df.dropna(subset=[name])]. *)
Definition dropna_subset (name : string) (df : DataFrame) : result DataFrame :=
  s ← Frame.getitem df name;
  Ok (Frame.select (Series.notna <$> s) df).

(** [.groupby("FY").agg(total_value=("Inv Value", "sum"),
    invoice_count=("Inv No", "size")).reset_index()]: one row per label,
    labels in sorted order. *)
Definition agg `{!Sums} (df : DataFrame) : result (list FYGroup) :=
  keys ← Frame.getitem df "FY";
  _ ← Frame.getitem df "Inv Value";
  _ ← Frame.getitem df "Inv No";
  mapM (λ k,
          let grp := Frame.select ((λ c, bool_decide (c = Str k)) <$> keys) df in
          total ← group_sum <$> Series.numbers (Frame.column "Inv Value" grp);
          Ok {| FY := k; total_value := total; invoice_count := Frame.shape0 grp |})
       (Text.sorted (Series.unique (Series.astype_str keys))).

(** The pattern [FY(\d{4})] at the head of [l]. *)
Definition matches_fy (l : list ascii) : bool :=
  match l with
  | f :: y :: a :: b :: c :: d :: _ =>
      bool_decide (f = "F"%char) && bool_decide (y = "Y"%char)
      && Text.is_digit a && Text.is_digit b && Text.is_digit c && Text.is_digit d
  | _ => false
  end.

(** [re.search(r"FY(\d{4})", s)]: group 1 of the leftmost match. *)
Fixpoint re_search_fy (l : list ascii) : option (list ascii) :=
  match l with
  | [] => None
  | _ :: rest =>
      if matches_fy l then Some (take 4 (drop 2 l)) else re_search_fy rest
  end.

(** [.str.extract(r"FY(\d{4})")[0].astype(int)], one label. *)
Definition extract_start_year (label : string) : result Z :=
  match re_search_fy (Text.chars label) with
  | Some ds => Ok (Text.int_of_digits ds)
  | None => Raise (ValueError "cannot convert float NaN to integer")
  end.

Definition with_start_year (g : FYGroup) : result FYRow :=
  y ← extract_start_year (FY g); Ok {| fy_group := g; start_year := y |}.

Definition year_le (a b : FYRow) : Prop := start_year a <= start_year b.

Global Instance year_le_dec : RelDecision year_le.
Proof. intros a b. unfold year_le. apply _. Defined.

(** [.sort_values("start_year")]. *)
Definition sort_values (l : list FYRow) : list FYRow := merge_sort year_le l.

End Groupby.

(** A reader for ISO dates ([YYYY-MM-DD]); datetime cells pass through,
    everything else is coerced to NaT.  It instantiates [to_datetime]
    when the builders are run on concrete tables. *)
Definition iso_date (c : cell) : option Timestamp :=
  match c with
  | TS t => Some t
  | Str s =>
      match Text.chars s with
      | [y1; y2; y3; y4; d1; m1; m2; d2; a1; a2] =>
          if forallb Text.is_digit [y1; y2; y3; y4; m1; m2; a1; a2]
             && bool_decide (d1 = "-"%char) && bool_decide (d2 = "-"%char)
          then
            let t := mkTimestamp (Text.int_of_digits [y1; y2; y3; y4])
                       (Text.int_of_digits [m1; m2]) (Text.int_of_digits [a1; a2]) 0 in
            if bool_decide (1677 < year t < 2262) && bool_decide (1 <= month t <= 12)
               && bool_decide (1 <= day t <= 31)
            then Some t else None
          else None
      | _ => None
      end
  | _ => None
  end.

Definition iso_to_datetime (s : list cell) : list (option Timestamp) :=
  iso_date <$> s.

(** ** [build_balance_report] (balance_sum_report.py) *)

Module Balance.

Record Stats := mkStats {
  balance_total : Qc;
  order_count : nat;
  min_date : option Timestamp;
  max_date : option Timestamp
}.

Definition date_range_lines (min_date max_date : option Timestamp) : list string :=
  if Series.notna (Series.date_cell min_date) || Series.notna (Series.date_cell max_date) then
    let min_str := from_option Time.strftime_dbY "N/A" min_date in
    let max_str := from_option Time.strftime_dbY "N/A" max_date in
    ["3) Unpaid invoice date range";
     "   From " +:+ min_str +:+ " to " +:+ max_str]
  else
    ["3) Unpaid invoice date range";
     "   No unpaid invoices found."].

Definition render (customer : string) (as_of : Timestamp) (st : Stats) : list string :=
  ["Balance Summary — " +:+ customer +:+ " (as of " +:+ Time.strftime_dbY as_of +:+ ")";
   "";
   "1) Total balance payable as of today: Rs "
     +:+ Text.fmt_comma (Series.py_int (balance_total st));
   "";
   "2) Total number of orders with balance payable: "
     +:+ Text.py_str (Z.of_nat (order_count st));
   ""]
  ++ date_range_lines (min_date st) (max_date st)
  ++ [""; "Notes"; " - Only invoices with Balance > 0 are counted."].

Section WithParser.

Context {sums : Sums}.
Variable to_datetime : list cell → list (option Timestamp).

(** [pd.to_datetime(x, errors="coerce")] for [x] a column or [None]. *)
Definition assign_dates (df : positive) (x : option (list cell)) : M unit :=
  match x with
  | Some s => Df.setitem df "Inv Date" (Series.date_cell <$> to_datetime s)
  | None => Df.setitem_scalar df "Inv Date" NA
  end.

(** Lines 80-88: the statistics of the report. *)
Definition stats (df : positive) : M Stats :=
  df ← Df.copy df;
  inv ← Df.get df "Inv Date";
  assign_dates df inv;;
  bal ← Df.getitem df "Balance";
  mask ← lift (Series.gt bal 0%Qc);
  selected ← Df.select df mask;
  payable ← Df.copy selected;
  balance_total ← (Df.getitem payable "Balance" ≫= λ s, lift (Series.sum s));
  cols ← Df.columns payable;
  order_count ← (if bool_decide ("Order No" ∈ cols)
                 then Series.nunique <$> Df.getitem payable "Order No"
                 else Df.shape0 payable);
  cols ← Df.columns payable;
  min_date ← (if bool_decide ("Inv Date" ∈ cols)
              then Series.min <$> Df.getitem payable "Inv Date"
              else mret None);
  cols ← Df.columns payable;
  max_date ← (if bool_decide ("Inv Date" ∈ cols)
              then Series.max <$> Df.getitem payable "Inv Date"
              else mret None);
  mret {| balance_total := balance_total; order_count := order_count;
          min_date := min_date; max_date := max_date |}.

Definition build_balance_report (df : positive) (customer : string)
    (as_of : Timestamp) : M string :=
  st ← stats df;
  mret (Text.join Text.newline (render customer as_of st)).

(** The value of [stats] as a function of the frame its argument refers
    to (see [Balance_stats_run]). *)
Definition working_copy (df : DataFrame) : DataFrame :=
  match Frame.get df "Inv Date" with
  | Some s => Frame.setitem "Inv Date" (Series.date_cell <$> to_datetime s) df
  | None => Frame.setitem_scalar "Inv Date" NA df
  end.

Definition stats_of (df : DataFrame) : result Stats :=
  let df := working_copy df in
  bal ← Frame.getitem df "Balance";
  mask ← Series.gt bal 0%Qc;
  let payable := Frame.select mask df in
  balance_total ← (Frame.getitem payable "Balance" ≫= Series.sum);
  order_count ← (if bool_decide ("Order No" ∈ columns payable)
                 then Series.nunique <$> Frame.getitem payable "Order No"
                 else Ok (Frame.shape0 payable));
  min_date ← (if bool_decide ("Inv Date" ∈ columns payable)
              then Series.min <$> Frame.getitem payable "Inv Date"
              else Ok None);
  max_date ← (if bool_decide ("Inv Date" ∈ columns payable)
              then Series.max <$> Frame.getitem payable "Inv Date"
              else Ok None);
  Ok {| balance_total := balance_total; order_count := order_count;
        min_date := min_date; max_date := max_date |}.

Definition report_of (df : DataFrame) (customer : string) (as_of : Timestamp)
  : result string :=
  (λ st, Text.join Text.newline (render customer as_of st)) <$> stats_of df.

End WithParser.

End Balance.

(** ** [build_report] (generate_billing_report.py) *)

Module Billing.

Record Stats := mkStats {
  first_invoice : option Timestamp;
  lifetime_billing : Z;
  outstanding_balance : Z;
  order_count : nat;
  fy_breakdown : list FYRow;
  current_year : Z;
  cy_value : Z;
  cy_count : nat;
  undated_value : Z;
  undated_count : nat
}.

Definition fy_line (row : FYRow) : string :=
  "   " +:+ FY (fy_group row) +:+ ": Rs "
    +:+ Text.fmt_comma (Series.py_int (total_value (fy_group row)))
    +:+ " across " +:+ Text.py_str (Z.of_nat (invoice_count (fy_group row)))
    +:+ " invoice(s)".

Definition first_invoice_lines (first_invoice : option Timestamp) : list string :=
  match first_invoice with
  | Some d => ["   First invoice date: " +:+ Time.strftime_dbY d]
  | None => []
  end.

Definition undated_lines (undated_value : Z) (undated_count : nat) : list string :=
  if bool_decide (undated_count ≠ 0%nat) then
    ["   Not dated: Rs " +:+ Text.fmt_comma undated_value +:+ " across "
       +:+ Text.py_str (Z.of_nat undated_count) +:+ " entry"]
  else [].

Definition render (customer : string) (as_of : Timestamp) (st : Stats) : list string :=
  ["Customer Billing Summary — " +:+ customer
     +:+ " (as of " +:+ Time.strftime_dbY as_of +:+ ")";
   "";
   "1) Lifetime billing";
   "   Total invoiced: Rs " +:+ Text.fmt_comma (lifetime_billing st)]
  ++ first_invoice_lines (first_invoice st)
  ++ [""; "2) Billing by financial year (April–March)"]
  ++ (fy_line <$> fy_breakdown st)
  ++ undated_lines (undated_value st) (undated_count st)
  ++ ["";
      "3) Billing for current calendar year (Jan–Dec "
        +:+ Text.py_str (current_year st) +:+ ")";
      "   " +:+ Text.py_str (current_year st) +:+ ": Rs "
        +:+ Text.fmt_comma (cy_value st) +:+ " across "
        +:+ Text.py_str (Z.of_nat (cy_count st)) +:+ " invoice(s)";
      "";
      "4) Current outstanding balance";
      "   Rs " +:+ Text.fmt_comma (outstanding_balance st);
      "";
      "5) Total number of rented orders";
      "   " +:+ Text.py_str (Z.of_nat (order_count st))].

(** [int(df[name].sum())]. *)
Definition int_sum `{!Sums} (df : positive) (name : string) : M Z :=
  s ← Df.getitem df name;
  Series.py_int <$> lift (Series.sum s).

Section WithParser.

Context {sums : Sums}.
Variable to_datetime : list cell → list (option Timestamp).

(** Lines 40-66: the statistics of the report. *)
Definition stats (df : positive) (as_of : Timestamp) : M Stats :=
  df ← Df.copy df;
  inv ← Df.getitem df "Inv Date";
  Df.setitem df "Inv Date" (Series.date_cell <$> to_datetime inv);;
  inv ← Df.getitem df "Inv Date";
  Df.setitem df "FY" (Series.apply_fy_label inv);;
  inv ← Df.getitem df "Inv Date";
  Df.setitem df "CY" (Series.dt_year inv);;

  first_invoice ← Series.min <$> Df.getitem df "Inv Date";
  lifetime_billing ← int_sum df "Inv Value";
  outstanding_balance ← int_sum df "Balance";
  order_count ← Series.nunique <$> Df.getitem df "Order No";

  dated ← (Df.read df ≫= λ d, lift (Groupby.dropna_subset "FY" d) ≫= Df.new);
  groups ← (Df.read dated ≫= λ d, lift (Groupby.agg d));
  fy_rows ← lift (mapM Groupby.with_start_year groups);
  let fy_breakdown := Groupby.sort_values fy_rows in

  let current_year := year as_of in
  cy ← Df.getitem df "CY";
  cy_current ← Df.select df (Series.eq_int cy current_year);
  is_empty ← Df.empty cy_current;
  cy_value ← (if negb is_empty then int_sum cy_current "Inv Value" else mret 0);
  is_empty ← Df.empty cy_current;
  cy_count ← (if negb is_empty then Df.shape0 cy_current else mret 0%nat);

  fy ← Df.getitem df "FY";
  undated ← Df.select df (Series.isna fy);
  undated_value ← int_sum undated "Inv Value";
  undated_count ← Df.shape0 undated;

  mret {| first_invoice := first_invoice;
          lifetime_billing := lifetime_billing;
          outstanding_balance := outstanding_balance;
          order_count := order_count;
          fy_breakdown := fy_breakdown;
          current_year := current_year;
          cy_value := cy_value;
          cy_count := cy_count;
          undated_value := undated_value;
          undated_count := undated_count |}.

Definition build_report (df : positive) (customer : string) (as_of : Timestamp)
  : M string :=
  st ← stats df as_of;
  mret (Text.join Text.newline (render customer as_of st)).

(** The value of [stats] as a function of the frame its argument refers
    to (see [Billing_stats_run]). *)
Definition working_copy (df : DataFrame) : result DataFrame :=
  inv ← Frame.getitem df "Inv Date";
  let df := Frame.setitem "Inv Date" (Series.date_cell <$> to_datetime inv) df in
  inv ← Frame.getitem df "Inv Date";
  let df := Frame.setitem "FY" (Series.apply_fy_label inv) df in
  inv ← Frame.getitem df "Inv Date";
  Ok (Frame.setitem "CY" (Series.dt_year inv) df).

Definition int_sum_of (df : DataFrame) (name : string) : result Z :=
  s ← Frame.getitem df name;
  Series.py_int <$> Series.sum s.

Definition stats_of (df : DataFrame) (as_of : Timestamp) : result Stats :=
  df ← working_copy df;
  first_invoice ← Series.min <$> Frame.getitem df "Inv Date";
  lifetime_billing ← int_sum_of df "Inv Value";
  outstanding_balance ← int_sum_of df "Balance";
  order_count ← Series.nunique <$> Frame.getitem df "Order No";
  dated ← Groupby.dropna_subset "FY" df;
  groups ← Groupby.agg dated;
  fy_rows ← mapM Groupby.with_start_year groups;
  let current_year := year as_of in
  cy ← Frame.getitem df "CY";
  let cy_current := Frame.select (Series.eq_int cy current_year) df in
  cy_value ← (if negb (Frame.empty cy_current)
              then int_sum_of cy_current "Inv Value" else Ok 0);
  let cy_count := if negb (Frame.empty cy_current)
                  then Frame.shape0 cy_current else 0%nat in
  fy ← Frame.getitem df "FY";
  let undated := Frame.select (Series.isna fy) df in
  undated_value ← int_sum_of undated "Inv Value";
  Ok {| first_invoice := first_invoice;
        lifetime_billing := lifetime_billing;
        outstanding_balance := outstanding_balance;
        order_count := order_count;
        fy_breakdown := Groupby.sort_values fy_rows;
        current_year := current_year;
        cy_value := cy_value;
        cy_count := cy_count;
        undated_value := undated_value;
        undated_count := Frame.shape0 undated |}.

Definition report_of (df : DataFrame) (customer : string) (as_of : Timestamp)
  : result string :=
  (λ st, Text.join Text.newline (render customer as_of st)) <$> stats_of df as_of.

End WithParser.

End Billing.

(** ** The billing flows: [run_billing_summary] (generate_reports.py) and
    [main] (generate_billing_report.py) *)

Module Flow.

(** A [pathlib.Path] on POSIX as parsed: the root ("" for a relative
    path, "/" for an absolute one) and the components. *)
Record Path := mkPath { root : string; parts : list string }.

(** [p.name]: the last component, "" when there is none. *)
Definition name (p : Path) : string := default "" (last (parts p)).

(** [str(p)]. *)
Definition path_str (p : Path) : string :=
  match parts p with
  | [] => if bool_decide (root p = "") then "." else root p
  | _ :: _ => root p +:+ Text.join "/" (parts p)
  end.

(** [p] with its last component replaced by [n]. *)
Definition sibling (p : Path) (n : string) : Path :=
  {| root := root p; parts := take (length (parts p) - 1) (parts p) ++ [n] |}.

(** [p.with_name(n)]: ValueError when [p] has no name, and when [n] is
    empty, is "." or contains a separator. *)
Definition with_name (p : Path) (n : string) : result Path :=
  if bool_decide (name p = "") then Raise EmptyName
  else if bool_decide (n = "") || bool_decide (n = ".") || Text.contains n "/"
       then Raise (InvalidName n)
       else Ok (sibling p n).

(** [path.write_text(text)]. *)
Definition write_text (p : Path) (text : string) : M unit := λ w,
  (Ok (), {| heap := heap w; files := files w ++ [(path_str p, text)];
             console := console w |}).

(** [print(line)]. *)
Definition print (line : string) : M unit := λ w,
  (Ok (), {| heap := heap w; files := files w; console := console w ++ [line] |}).

Definition required_columns : gset string :=
  {[ "Inv Date"; "Inv Value"; "Balance"; "Order No"; "Inv No" ]}.

(** [a or b] for an optional string [a]: [None] and [""] are falsy. *)
Definition str_or (a : option string) (b : string) : string :=
  match a with
  | Some s => if bool_decide (s = "") then b else s
  | None => b
  end.

(** [prompt_customer]: [entered] is the stripped line typed by the user. *)
Definition prompt_customer (inferred : option string) (entered : string) : string :=
  let default_label := str_or inferred "Customer" in
  str_or (Some entered) default_label.

(** The required-column check shared by both flows. *)
Definition check_columns (df : positive) : M unit :=
  cols ← Df.columns df;
  let missing := required_columns ∖ list_to_set cols in
  if bool_decide (missing ≠ ∅) then
    raise (ValueError ("Input missing required columns: "
                         +:+ Text.join ", " (Text.sorted (elements missing))))
  else mret ().

Definition summary_name (customer : string) (as_of : Timestamp) : string :=
  "Customer Billing Summary - " +:+ customer +:+ " (as of "
    +:+ Time.strftime_dbY as_of +:+ ").txt".

Section WithParser.

Context {sums : Sums}.
Variable to_datetime : list cell → list (option Timestamp).

(** [table] is what [load_table(input_path)] returns; [entered] and [as_of]
    are what the two prompts return. *)
Definition run_billing_summary (input_path : Path) (table : DataFrame)
    (entered : string) (as_of : Timestamp) : M unit :=
  df ← Df.new table;
  check_columns df;;
  inferred ← infer_customer_name <$> Df.read df;
  let customer := prompt_customer inferred entered in
  report_text ← Billing.build_report to_datetime df customer as_of;
  output_path ← lift (with_name input_path (summary_name customer as_of));
  write_text output_path report_text;;
  print ("Wrote billing summary: " +:+ path_str output_path).

(** [main] after argument parsing: [table] is what [pd.read_csv(input_path)]
    returns, [args_customer], [as_of] and [args_output] are the parsed
    options. *)
Definition main (input_path : Path) (table : DataFrame) (args_customer : string)
    (as_of : Timestamp) (args_output : option Path) : M unit :=
  df ← Df.new table;
  check_columns df;;
  customer ← (if bool_decide (args_customer = "Customer")
              then (λ inferred, str_or inferred args_customer)
                     <$> (infer_customer_name <$> Df.read df)
              else mret args_customer);
  report_text ← Billing.build_report to_datetime df customer as_of;
  output_path ←
    match args_output with
    | Some p => mret p
    | None => lift (with_name input_path (summary_name customer as_of))
    end;
  write_text output_path report_text;;
  print ("Wrote report: " +:+ path_str output_path).

End WithParser.

End Flow.

(** ** The reports, row by row

    The statistics of the two reports stated over the rows of the table,
    each row taken with its parsed invoice date. *)

Module Spec.

Definition field (name : string) (r : gmap string cell) : cell :=
  default NA (r !! name).

(** What a row carries in column [name]; a missing value carries nothing. *)
Definition amount (name : string) (r : gmap string cell) : option Qc :=
  match field name r with Num q => Some q | _ => None end.

(** The numbers rows [rs] carry in column [name], in row order. *)
Definition amounts (name : string) (rs : list (gmap string cell)) : list Qc :=
  omap (amount name) rs.

(** What [sum] makes of them: over a column, and over one group. *)
Definition total `{!Sums} (name : string) (rs : list (gmap string cell)) : Qc :=
  series_sum (amounts name rs).

Definition group_total `{!Sums} (name : string) (rs : list (gmap string cell))
  : Qc :=
  group_sum (amounts name rs).

Definition numeric_cell (c : cell) : Prop :=
  match c with NA | Num _ => True | Str _ | TS _ => False end.

Global Instance numeric_cell_dec c : Decision (numeric_cell c).
Proof. destruct c; simpl; apply _. Defined.

(** Column [name] is numeric: numbers and missing values only. *)
Definition numeric (name : string) (df : DataFrame) : Prop :=
  Forall (λ r, numeric_cell (field name r)) (rows df).

Global Instance numeric_dec name df : Decision (numeric name df).
Proof. unfold numeric. apply _. Defined.

(** A payable row: [Balance > 0]. *)
Definition payable (r : gmap string cell) : bool :=
  match field "Balance" r with
  | Num q => bool_decide (0 < q)%Qc
  | _ => false
  end.

Definition earliest (ds : list (option Timestamp)) : option Timestamp :=
  Series.min (Series.date_cell <$> ds).
Definition latest (ds : list (option Timestamp)) : option Timestamp :=
  Series.max (Series.date_cell <$> ds).

(** [str(start)] is four digits that read back as [start]. *)
Definition four_digit_check (start : Z) : bool :=
  match Text.chars (Text.py_str start) with
  | [a; b; c; d] =>
      Text.is_digit a && Text.is_digit b && Text.is_digit c && Text.is_digit d
      && (Text.int_of_digits [a; b; c; d] =? start)
  | _ => false
  end.

(** The start year written in a label. *)
Definition label_year (k : string) : Z :=
  match Groupby.extract_start_year k with Ok y => y | Raise _ => 0 end.

Section WithParser.

Context {sums : Sums}.
Variable to_datetime : list cell → list (option Timestamp).

(** The parsed invoice date of each row ([None]: missing or unparseable). *)
Definition row_dates (df : DataFrame) : list (option Timestamp) :=
  match Frame.get df "Inv Date" with
  | Some s => resize (length (rows df)) None (to_datetime s)
  | None => replicate (length (rows df)) None
  end.

Definition dated (df : DataFrame) : list (gmap string cell * option Timestamp) :=
  zip (rows df) (row_dates df).

Definition with_date (df : DataFrame) : list (gmap string cell * Timestamp) :=
  omap (λ p, pair p.1 <$> p.2) (dated df).

Definition without_date (df : DataFrame) : list (gmap string cell) :=
  (filter (λ p, p.2 = None) (dated df)).*1.

Definition payable_rows (df : DataFrame)
  : list (gmap string cell * option Timestamp) :=
  filter (λ p, payable p.1 = true) (dated df).

Definition balance (df : DataFrame) : Balance.Stats :=
  let pay := payable_rows df in
  {| Balance.balance_total := total "Balance" pay.*1;
     Balance.order_count :=
       if bool_decide ("Order No" ∈ columns df)
       then Series.nunique (field "Order No" <$> pay.*1)
       else length pay;
     Balance.min_date := earliest pay.*2;
     Balance.max_date := latest pay.*2 |}.

(** The dated rows of fiscal year [k], and of calendar year [y]. *)
Definition labelled (df : DataFrame) (k : string)
  : list (gmap string cell * Timestamp) :=
  filter (λ p, fy_label (Some p.2) = Some k) (with_date df).

Definition in_year (df : DataFrame) (y : Z)
  : list (gmap string cell * Timestamp) :=
  filter (λ p, year p.2 = y) (with_date df).

Definition labels (df : DataFrame) : list string :=
  omap (λ p, fy_label (Some p.2)) (with_date df).

Definition fy_row (df : DataFrame) (k : string) : FYRow :=
  {| fy_group := {| FY := k;
                    total_value := group_total "Inv Value" (labelled df k).*1;
                    invoice_count := length (labelled df k) |};
     start_year := label_year k |}.

Definition billing (df : DataFrame) (as_of : Timestamp) : Billing.Stats :=
  {| Billing.first_invoice := earliest (row_dates df);
     Billing.lifetime_billing := Series.py_int (total "Inv Value" (rows df));
     Billing.outstanding_balance := Series.py_int (total "Balance" (rows df));
     Billing.order_count := Series.nunique (field "Order No" <$> rows df);
     Billing.fy_breakdown :=
       Groupby.sort_values
         (fy_row df <$> Text.sorted (Series.unique (labels df)));
     Billing.current_year := year as_of;
     Billing.cy_value :=
       Series.py_int (total "Inv Value" (in_year df (year as_of)).*1);
     Billing.cy_count := length (in_year df (year as_of));
     Billing.undated_value := Series.py_int (total "Inv Value" (without_date df));
     Billing.undated_count := length (without_date df) |}.

(** The five required columns are there, the two money columns are
    numeric, and every parsed date is a [pd.Timestamp]. *)
Definition billing_table (df : DataFrame) : Prop :=
  Forall (λ c, c ∈ columns df)
    ["Inv Date"; "Inv Value"; "Balance"; "Order No"; "Inv No"]
  ∧ numeric "Inv Value" df ∧ numeric "Balance" df
  ∧ Forall (λ p, Time.in_bounds p.2) (with_date df).

Global Instance billing_table_dec df : Decision (billing_table df).
Proof. unfold billing_table. apply _. Defined.

Definition balance_table (df : DataFrame) : Prop :=
  "Balance" ∈ columns df ∧ numeric "Balance" df.

Global Instance balance_table_dec df : Decision (balance_table df).
Proof. unfold balance_table. apply _. Defined.

(** Column [col] names exactly one customer, [v]: the column is there, its
    values are missing or text, and the trimmed non-empty ones are all [v],
    at least once. *)
Definition sole_name (df : DataFrame) (col v : string) : Prop :=
  col ∈ columns df
  ∧ (∀ c, c ∈ Frame.column col df → c = NA ∨ ∃ s, c = Str s)
  ∧ (∃ s, Str s ∈ Frame.column col df ∧ Text.strip s = v)
  ∧ v ≠ ""
  ∧ (∀ s, Str s ∈ Frame.column col df → Text.strip s = "" ∨ Text.strip s = v).

(** The required columns in alphabetical order, and those a table lacks. *)
Definition required_sorted : list string :=
  ["Balance"; "Inv Date"; "Inv No"; "Inv Value"; "Order No"].

Definition missing_columns (df : DataFrame) : list string :=
  filter (λ c, c ∉ columns df) required_sorted.

End WithParser.

End Spec.

(** ** Sample tables *)

Module Example.

Definition as_of : Timestamp := mkTimestamp 2025 11 28 0.

Definition input_path : Flow.Path := Flow.mkPath "" ["exports"; "invoices.csv"].

Definition money (z : Z) : cell := Num (Qc_of_Z z).

Definition balance_row (balance : Z) (order date : string) : gmap string cell :=
  <["Balance" := money balance]>
    (<["Order No" := Str order]> (<["Inv Date" := Str date]> ∅)).

(** Three invoices, one of them payable. *)
Definition balances : DataFrame :=
  mkFrame ["Balance"; "Order No"; "Inv Date"]
    [balance_row 500 "A1" "2025-01-10";
     balance_row (-20) "A2" "2025-02-01";
     balance_row 0 "A3" "2025-03-01"].

Definition invoice_row (date : string) (value balance : Z) (order inv : string)
  : gmap string cell :=
  <["Inv Date" := Str date]>
    (<["Inv Value" := money value]>
       (<["Balance" := money balance]>
          (<["Order No" := Str order]> (<["Inv No" := Str inv]> ∅)))).

Definition billing_columns : list string :=
  ["Inv Date"; "Inv Value"; "Balance"; "Order No"; "Inv No"].

(** Four invoices over three fiscal years, one with an unreadable date. *)
Definition invoices : DataFrame :=
  mkFrame billing_columns
    [invoice_row "2025-05-01" 1000 100 "A1" "I1";
     invoice_row "2010-01-05" 2500 (-40) "A2" "I2";
     invoice_row "not a date" 70000 0 "A2" "I3";
     invoice_row "2025-03-31" 1 0 "A3" "I4"].

(** A debit of 100 and a credit of 40. *)
Definition credit : DataFrame :=
  mkFrame billing_columns
    [invoice_row "2025-05-01" 1000 100 "A1" "I1";
     invoice_row "2025-06-01" 500 (-40) "A2" "I2"].

(** A single invoice without a readable date. *)
Definition undated : DataFrame :=
  mkFrame billing_columns [invoice_row "n/a" 250 250 "A1" "I1"].

(** A table without the columns [Inv Value] and [Order No]. *)
Definition incomplete : DataFrame :=
  mkFrame ["Inv Date"; "Balance"; "Inv No"]
    [<["Inv Date" := Str "2025-05-01"]>
       (<["Balance" := money 10]> (<["Inv No" := Str "I1"]> ∅))].

(** Two billing names, one customer name (padded, once missing). *)
Definition named : DataFrame :=
  mkFrame ["Billing Name"; "Customer Name"; "Balance"]
    [<["Billing Name" := Str "Acme North"]>
       (<["Customer Name" := Str " Acme "]> (<["Balance" := money 10]> ∅));
     <["Billing Name" := Str "Acme South"]>
       (<["Customer Name" := NA]> (<["Balance" := money 20]> ∅));
     <["Billing Name" := Str "Acme South"]>
       (<["Customer Name" := Str "Acme"]> (<["Balance" := money 30]> ∅))].

(** The caller's heap: one frame at address 1. *)
Definition world (df : DataFrame) : World := mkWorld {[ 1%positive := df ]} [] [].

(** Every number in the table is a whole number of magnitude below 2^53. *)
Definition whole_numbers (df : DataFrame) : bool :=
  forallb
    (λ r : gmap string cell,
       forallb (λ c, match c with
                     | Num q => (Qden q =? 1)%positive
                                && (Z.abs (Qnum q) <? 2 ^ 53)
                     | _ => true
                     end)
         (map_to_list r).*2)
    (rows df).

End Example.

(** ** The balance flows, the dispatcher and the file menu

    [run_balance_summary] and [main] of generate_reports.py, [main] of
    balance_sum_report.py, [list_candidate_files] and the choice made in
    [prompt_file]. *)

Module Cli.

Definition balance_name (customer : string) (as_of : Timestamp) : string :=
  "Balance Summary - " +:+ customer +:+ " (as of "
    +:+ Time.strftime_dbY as_of +:+ ").txt".

(** The [Balance] check shared by both balance flows. *)
Definition check_balance (df : positive) : M unit :=
  cols ← Df.columns df;
  if negb (bool_decide ("Balance" ∈ cols)) then
    raise (ValueError "Input missing required column: Balance")
  else mret ().

(** What [main] of generate_reports.py does after the menu: it returns,
    returns after a complaint on stderr, or prints "Error: <exc>" on stderr
    and exits with status 1. *)
Inductive outcome :=
  | Returned
  | Complained (line : string)
  | Exited (exc : exn).

(** [try: m except Exception as exc: print(f"Error: {exc}"); sys.exit(1)]. *)
Definition guarded (m : M unit) : M outcome := λ w,
  match m w with
  | (Ok _, w') => (Ok Returned, w')
  | (Raise e, w') => (Ok (Exited e), w')
  end.

Section WithParser.

Context {sums : Sums}.
Variable to_datetime : list cell → list (option Timestamp).

(** [run_balance_summary]: [table] is what [load_table(input_path)] returns;
    [entered] and [as_of] are what the two prompts return. *)
Definition run_balance_summary (input_path : Flow.Path) (table : DataFrame)
    (entered : string) (as_of : Timestamp) : M unit :=
  df ← Df.new table;
  check_balance df;;
  inferred ← infer_customer_name <$> Df.read df;
  let customer := Flow.prompt_customer inferred entered in
  report_text ← Balance.build_balance_report to_datetime df customer as_of;
  output_path ← lift (Flow.with_name input_path (balance_name customer as_of));
  Flow.write_text output_path report_text;;
  Flow.print ("Wrote balance summary: " +:+ Flow.path_str output_path).

(** [main] of balance_sum_report.py after argument parsing. *)
Definition balance_main (input_path : Flow.Path) (table : DataFrame)
    (args_customer : string) (as_of : Timestamp) (args_output : option Flow.Path)
  : M unit :=
  df ← Df.new table;
  check_balance df;;
  customer ← (if bool_decide (args_customer = "Customer")
              then (λ inferred, Flow.str_or inferred args_customer)
                     <$> (infer_customer_name <$> Df.read df)
              else mret args_customer);
  report_text ← Balance.build_balance_report to_datetime df customer as_of;
  output_path ←
    match args_output with
    | Some p => mret p
    | None => lift (Flow.with_name input_path (balance_name customer as_of))
    end;
  Flow.write_text output_path report_text;;
  Flow.print ("Wrote balance report: " +:+ Flow.path_str output_path).

(** [main] of generate_reports.py from the check of the menu choice on
    (lines 135-154): [choice_raw] is the stripped line typed at the menu,
    [input_path] what [prompt_file] returned and [found] what
    [input_path.exists()] returns. *)
Definition dispatch (choice_raw : string) (input_path : option Flow.Path)
    (found : bool) (table : DataFrame) (entered : string) (as_of : Timestamp)
  : M outcome :=
  if negb (bool_decide (choice_raw ∈ ["1"; "2"])) then
    mret (Complained "Invalid choice. Exiting.")
  else
    match input_path with
    | None => mret (Complained "No input file selected. Exiting.")
    | Some p =>
        if negb found then
          mret (Complained ("Input file not found: " +:+ Flow.path_str p))
        else
          guarded (if bool_decide (choice_raw = "1")
                   then Flow.run_billing_summary to_datetime p table entered as_of
                   else run_balance_summary p table entered as_of)
    end.

End WithParser.

(** *** [list_candidate_files] *)

(** A directory entry with what the code asks of it. *)
Record Entry := mkEntry {
  entry_path : Flow.Path;
  suffix : string;     (* [p.suffix] *)
  is_file : bool;      (* [p.is_file()] *)
  mtime : Qc           (* [p.stat().st_mtime] *)
}.

Definition SUPPORTED_SUFFIXES : list string := [".csv"; ".xls"; ".xlsx"; ".ods"].

(** [s.lower()] on the ASCII range. *)
Definition lower_char (c : ascii) : ascii :=
  let n := nat_of_ascii c in
  if ((65 <=? n) && (n <=? 90))%nat then ascii_of_nat (n + 32) else c.

Definition lower (s : string) : string :=
  Text.text (lower_char <$> Text.chars s).

Definition candidate (p : Entry) : bool :=
  bool_decide (lower (suffix p) ∈ SUPPORTED_SUFFIXES) && is_file p.

(** [sorted(xs, key=mtime, reverse=True)]: newest first, ties in the
    order of [xs]. *)
Fixpoint insert_newest (x : Entry) (l : list Entry) : list Entry :=
  match l with
  | [] => [x]
  | y :: rest =>
      if bool_decide (mtime y ≤ mtime x)%Qc then x :: l
      else y :: insert_newest x rest
  end.

Definition newest_first (l : list Entry) : list Entry :=
  foldr insert_newest [] l.

Definition list_candidate_files (entries : list Entry) : list Entry :=
  newest_first (filter (λ p, candidate p = true) entries).

(** *** The choice made in [prompt_file] *)

Inductive selection (P : Type) :=
  | Picked (p : P)
  | Nothing (complaint : option string).
Arguments Picked {P} p.
Arguments Nothing {P} complaint.

(** [typed] is the line read at "Enter choice: " ([None]: end of input)
    with [int(...)] applied to it ([None]: not an integer); [custom] is
    the stripped line read at "Enter path: "; [of_string] is [Path]. *)
Definition prompt_file {P} (of_string : string → P) (files : list P)
    (typed : option (option Z)) (custom : string) : selection P :=
  match files with
  | [] => Nothing (Some "No CSV/Excel/ODS files found in the current directory.")
  | _ :: _ =>
      match typed with
      | None => Nothing None
      | Some None => Nothing (Some "Invalid selection.")
      | Some (Some choice) =>
          if choice =? 0 then
            if bool_decide (custom = "") then Nothing None
            else Picked (of_string custom)
          else if (1 <=? choice) && (choice <=? Z.of_nat (length files)) then
            match files !! Z.to_nat (choice - 1) with
            | Some p => Picked p
            | None => Nothing None
            end
          else Nothing (Some "Selection out of range.")
      end
  end.

End Cli.

(** A table without a [Balance] column. *)
Definition unbalanced : DataFrame :=
  mkFrame ["Inv Date"; "Order No"]
    [<["Inv Date" := Str "2025-05-01"]> (<["Order No" := Str "A1"]> ∅)].

(** ** Running programs on the heap *)

Definition wp {A} (m : M A) (w : World) (Q : result A → World → Prop) : Prop :=
  Q (m w).1 (m w).2.

(** [w'] keeps every object of [w] as it is, and its files and console. *)
Definition extends (w w' : World) : Prop :=
  heap w ⊆ heap w' ∧ files w' = files w ∧ console w' = console w.

(** [w] is [w0] plus the objects [P] allocated since. *)
Definition owns (w0 : World) (P : gmap positive DataFrame) (w : World) : Prop :=
  heap w = P ∪ heap w0 ∧ P ##ₘ heap w0
  ∧ files w = files w0 ∧ console w = console w0.

(** * Properties *)

Section Wp.

Context {A B : Type}.
Implicit Types (w : World) (P : gmap positive DataFrame).

Lemma wp_bind (m : M A) (f : A → M B) w Q :
  wp m w (λ r w', match r with
                  | Ok a => wp (f a) w' Q
                  | Raise e => Q (Raise e) w'
                  end) →
  wp (m ≫= f) w Q.
Proof.
  unfold wp, mbind, M_bind. destruct (m w) as [[a|e] w']; simpl; auto.
Qed.

Lemma wp_fmap (f : A → B) (m : M A) w Q :
  wp m w (λ r w', Q (f <$> r) w') → wp (f <$> m) w Q.
Proof.
  unfold wp, fmap, M_fmap. destruct (m w) as [[a|e] w']; simpl; auto.
Qed.

Lemma wp_ret (a : A) w Q : Q (Ok a) w → wp (mret a) w Q.
Proof. done. Qed.

Lemma wp_lift (r : result A) w Q : Q r w → wp (lift r) w Q.
Proof. done. Qed.

Lemma wp_raise (e : exn) w (Q : result A → World → Prop) :
  Q (Raise e) w → wp (raise e) w Q.
Proof. done. Qed.

End Wp.

Section WpHeap.

Implicit Types (w : World) (P : gmap positive DataFrame).

Lemma owns_refl w : owns w ∅ w.
Proof.
  unfold owns. rewrite (left_id_L ∅ (∪)). split_and!; try done.
  apply map_disjoint_empty_l.
Qed.

Lemma owns_extends w0 P w : owns w0 P w → extends w0 w.
Proof.
  intros (Hh & Hd & Hf & Hc). unfold extends. rewrite Hh.
  split_and!; try done. by apply map_union_subseteq_r.
Qed.

Lemma owns_lookup_private w0 P w l d :
  owns w0 P w → P !! l = Some d → heap w !! l = Some d.
Proof. intros (Hh & _) Hl. rewrite Hh. by apply lookup_union_Some_l. Qed.

Lemma owns_lookup_caller w0 P w l d :
  owns w0 P w → heap w0 !! l = Some d → heap w !! l = Some d.
Proof.
  intros (Hh & Hd & _) Hl. rewrite Hh. by apply lookup_union_Some_r.
Qed.

Lemma wp_read w l d Q :
  heap w !! l = Some d → Q (Ok d) w → wp (Df.read l) w Q.
Proof. intros Hl HQ. unfold wp, Df.read. by rewrite Hl. Qed.

Lemma wp_new w0 P w df Q :
  owns w0 P w →
  (∀ l w', P !! l = None → heap w0 !! l = None →
           owns w0 (<[l := df]> P) w' → Q (Ok l) w') →
  wp (Df.new df) w Q.
Proof.
  intros (Hh & Hd & Hf & Hc) HQ. unfold wp, Df.new; simpl.
  pose proof (is_fresh (dom (heap w))) as Hfresh.
  apply not_elem_of_dom in Hfresh.
  generalize dependent (fresh (dom (heap w))). intros l Hfresh.
  rewrite Hh in Hfresh. apply lookup_union_None in Hfresh as [HP H0].
  apply HQ; try done.
  unfold owns, set_heap; simpl. rewrite Hh, insert_union_l.
  split_and!; try done.
  by apply map_disjoint_insert_l_2.
Qed.

Lemma wp_write w0 P w l d df Q :
  owns w0 P w → P !! l = Some d →
  (∀ w', owns w0 (<[l := df]> P) w' → Q (Ok ()) w') →
  wp (Df.write l df) w Q.
Proof.
  intros (Hh & Hd & Hf & Hc) Hl HQ. unfold wp, Df.write; simpl.
  apply HQ. unfold owns, set_heap; simpl. rewrite Hh, insert_union_l.
  split_and!; try done.
  apply map_disjoint_insert_l_2; [|done].
  by eapply map_disjoint_Some_l.
Qed.

End WpHeap.

(** ** The builders run as their heap-free values *)

Ltac map_lookup :=
  repeat (rewrite lookup_insert_ne by (done || congruence));
  apply lookup_insert_eq.

Ltac heap_lookup :=
  first [ eapply owns_lookup_caller; [eassumption | eassumption]
        | eapply owns_lookup_private; [eassumption | map_lookup] ].

Ltac wp_pure :=
  cbn [mbind result_bind fmap result_fmap mret result_ret].

Ltac wp_step :=
  lazymatch goal with
  | |- wp (_ ≫= _) _ _ => apply wp_bind
  | |- wp (_ <$> _) _ _ => apply wp_fmap
  | |- wp (mret _) _ _ => apply wp_ret
  | |- wp (lift _) _ _ => apply wp_lift
  | |- wp (Df.read _) _ _ => eapply wp_read; [heap_lookup|]
  | H : owns _ _ ?w |- wp (Df.new _) ?w _ =>
      eapply wp_new; [exact H|]; clear H;
      let l := fresh "l" in let w' := fresh "w" in
      let HP := fresh "HP" in let H0 := fresh "H0" in
      intros l w' HP H0 H;
      repeat (apply lookup_insert_None in HP as [HP ?])
  | H : owns _ _ ?w |- wp (Df.write _ _) ?w _ =>
      eapply wp_write; [exact H | map_lookup |]; clear H;
      let w' := fresh "w" in intros w' H
  | |- wp (Df.copy _) _ _ => unfold Df.copy
  | |- wp (Df.getitem _ _) _ _ => unfold Df.getitem
  | |- wp (Df.get _ _) _ _ => unfold Df.get
  | |- wp (Df.setitem _ _ _) _ _ => unfold Df.setitem
  | |- wp (Df.setitem_scalar _ _ _) _ _ => unfold Df.setitem_scalar
  | |- wp (Df.select _ _) _ _ => unfold Df.select
  | |- wp (Df.columns _) _ _ => unfold Df.columns
  | |- wp (Df.shape0 _) _ _ => unfold Df.shape0
  | |- wp (Df.empty _) _ _ => unfold Df.empty
  | H : ?b = _ |- wp (if ?b then _ else _) _ _ => rewrite H
  | |- wp (if ?b then _ else _) _ _ => destruct b eqn:?
  | |- wp (match ?o with Some _ => _ | None => _ end) _ _ => destruct o eqn:?
  | |- match ?r with Ok _ => _ | Raise _ => _ end => destruct r eqn:?
  end; wp_pure.

Section BalanceRun.

Context {sums : Sums}.
Variable to_datetime : list cell → list (option Timestamp).

Lemma Balance_stats_run l df w :
  heap w !! l = Some df →
  ∃ w', Balance.stats to_datetime l w = (Balance.stats_of to_datetime df, w')
        ∧ extends w w'.
Proof.
  intros Hl.
  cut (wp (Balance.stats to_datetime l) w
          (λ r w', r = Balance.stats_of to_datetime df ∧ extends w w')).
  { unfold wp. destruct (Balance.stats to_datetime l w) as [r w']; simpl.
    intros [-> ?]. eauto. }
  pose proof (owns_refl w) as Hown.
  unfold Balance.stats, Balance.stats_of, Balance.working_copy, Balance.assign_dates.
  repeat wp_step; (split; [done | by eapply owns_extends]).
Qed.

Lemma Balance_report_run l df customer as_of w :
  heap w !! l = Some df →
  ∃ w', Balance.build_balance_report to_datetime l customer as_of w
          = (Balance.report_of to_datetime df customer as_of, w')
        ∧ extends w w'.
Proof.
  intros Hl. destruct (Balance_stats_run l df w Hl) as (w' & Hrun & Hext).
  exists w'. split; [|done].
  unfold Balance.build_balance_report, Balance.report_of, mbind, M_bind.
  rewrite Hrun. by destruct (Balance.stats_of to_datetime df).
Qed.

End BalanceRun.

Section BillingRun.

Context {sums : Sums}.
Variable to_datetime : list cell → list (option Timestamp).

Lemma Billing_stats_run l df as_of w :
  heap w !! l = Some df →
  ∃ w', Billing.stats to_datetime l as_of w
          = (Billing.stats_of to_datetime df as_of, w')
        ∧ extends w w'.
Proof.
  intros Hl.
  cut (wp (Billing.stats to_datetime l as_of) w
          (λ r w', r = Billing.stats_of to_datetime df as_of ∧ extends w w')).
  { unfold wp. destruct (Billing.stats to_datetime l as_of w) as [r w']; simpl.
    intros [-> ?]. eauto. }
  pose proof (owns_refl w) as Hown.
  unfold Billing.stats, Billing.stats_of, Billing.working_copy,
    Billing.int_sum, Billing.int_sum_of.
  repeat wp_step; (split; [done | by eapply owns_extends]).
Qed.

Lemma Billing_report_run l df customer as_of w :
  heap w !! l = Some df →
  ∃ w', Billing.build_report to_datetime l customer as_of w
          = (Billing.report_of to_datetime df customer as_of, w')
        ∧ extends w w'.
Proof.
  intros Hl. destruct (Billing_stats_run l df as_of w Hl) as (w' & Hrun & Hext).
  exists w'. split; [|done].
  unfold Billing.build_report, Billing.report_of, mbind, M_bind.
  rewrite Hrun. by destruct (Billing.stats_of to_datetime df as_of).
Qed.

End BillingRun.

(** ** Lists, masks and columns *)

Section ListFacts.

Context {A B : Type}.

Lemma mask_select_fmap (f : A → bool) (xs : list A) :
  Frame.mask_select xs (f <$> xs) = filter (λ x, f x = true) xs.
Proof.
  induction xs as [|x xs IH]; [done|].
  rewrite filter_cons, <- IH. cbn. destruct (f x); by case_decide.
Qed.

Lemma filter_fmap_pre (f : A → B) (P : B → Prop) `{!∀ y, Decision (P y)}
    (l : list A) :
  filter P (f <$> l) = f <$> filter (λ x, P (f x)) l.
Proof.
  induction l as [|x l IH]; [done|].
  rewrite fmap_cons, !filter_cons, IH. by case_decide.
Qed.

Lemma mapM_Ok (f : A → result B) (g : A → B) (l : list A) :
  (∀ x, x ∈ l → f x = Ok (g x)) → mapM f l = Ok (g <$> l).
Proof.
  induction l as [|x l IH]; intros Hf; [done|]. cbn.
  rewrite (Hf x) by left. cbn.
  rewrite IH; [done|]. intros y Hy. apply Hf. by right.
Qed.

End ListFacts.

Section FrameFacts.

Context {sums : Sums}.
Implicit Types (rs : list (gmap string cell)) (s : list cell) (r : gmap string cell).

Lemma column_field name df : Frame.column name df = Spec.field name <$> rows df.
Proof. done. Qed.

Lemma field_insert_eq name c r : Spec.field name (<[name := c]> r) = c.
Proof. unfold Spec.field. by rewrite lookup_insert_eq. Qed.

Lemma field_insert_ne name name' c r :
  name ≠ name' → Spec.field name' (<[name := c]> r) = Spec.field name' r.
Proof. intros. unfold Spec.field. by rewrite lookup_insert_ne. Qed.

Lemma amount_insert_ne name name' c r :
  name ≠ name' → Spec.amount name' (<[name := c]> r) = Spec.amount name' r.
Proof. intros. unfold Spec.amount. by rewrite field_insert_ne. Qed.

Lemma elem_of_add_column name name' cols :
  name' ∈ Frame.add_column name cols ↔ name' = name ∨ name' ∈ cols.
Proof.
  unfold Frame.add_column. case_bool_decide as Hin.
  - split; [by right|]. by intros [->|].
  - rewrite elem_of_app, list_elem_of_singleton. tauto.
Qed.

Lemma assign_zip name rs s :
  Frame.assign name rs s
  = (λ p, <[name := p.2]> p.1) <$> zip rs (resize (length rs) NA s).
Proof.
  revert s. induction rs as [|r rs IH]; intros s; [done|].
  destruct s as [|c s]; simpl; rewrite IH; try done.
  by rewrite resize_nil.
Qed.

Lemma broadcast_zip name c rs :
  (λ r, <[name := c]> r) <$> rs
  = (λ p, <[name := p.2]> p.1) <$> zip rs (replicate (length rs) c).
Proof. induction rs as [|r rs IH]; [done|]. simpl. f_equal. apply IH. Qed.

Lemma numbers_amounts name rs :
  Forall (λ r, Spec.numeric_cell (Spec.field name r)) rs →
  Series.numbers (Spec.field name <$> rs) = Ok (Spec.amounts name rs).
Proof.
  induction 1 as [|r rs Hr _ IH]; [done|].
  unfold Spec.amounts in *. simpl. unfold Spec.amount at 1.
  destruct (Spec.field name r) as [|q| |]; try done.
  change (cons q <$> Series.numbers (Spec.field name <$> rs)
          = Ok (q :: omap (Spec.amount name) rs)).
  by rewrite IH.
Qed.

Lemma sum_total name rs :
  Forall (λ r, Spec.numeric_cell (Spec.field name r)) rs →
  Series.sum (Spec.field name <$> rs) = Ok (Spec.total name rs).
Proof. intros Hnum. unfold Series.sum. by rewrite numbers_amounts. Qed.

Lemma length_zip_resize {X Y} (l : list X) (y : Y) (k : list Y) :
  (zip l (resize (length l) y k)).*1 = l.
Proof. apply fst_zip. by rewrite length_resize. Qed.

End FrameFacts.

(** ** The balance report, row by row *)

Section RowFacts.

Context {sums : Sums} {X : Type}.
Implicit Types (rs : list (gmap string cell)) (D : list (gmap string cell * X)).

Lemma zip_insert_fmap {Y} name (g : Y → cell) rs (k : list Y) :
  (λ p, <[name := p.2]> p.1) <$> zip rs (g <$> k)
  = (λ p, <[name := g p.2]> p.1) <$> zip rs k.
Proof.
  revert k. induction rs as [|r rs IH]; intros [|y k]; try done.
  simpl. f_equal. apply IH.
Qed.

Lemma amounts_fmap_ext name (f g : X → gmap string cell) (l : list X) :
  (∀ x, Spec.amount name (f x) = Spec.amount name (g x)) →
  Spec.amounts name (f <$> l) = Spec.amounts name (g <$> l).
Proof.
  intros Hfg. unfold Spec.amounts.
  induction l as [|x l IH]; [done|].
  rewrite !fmap_cons.
  change (match Spec.amount name (f x) with
          | Some q => q :: omap (Spec.amount name) (f <$> l)
          | None => omap (Spec.amount name) (f <$> l)
          end
          = match Spec.amount name (g x) with
            | Some q => q :: omap (Spec.amount name) (g <$> l)
            | None => omap (Spec.amount name) (g <$> l)
            end).
  by rewrite Hfg, IH.
Qed.

Lemma total_fmap_ext name (f g : X → gmap string cell) (l : list X) :
  (∀ x, Spec.amount name (f x) = Spec.amount name (g x)) →
  Spec.total name (f <$> l) = Spec.total name (g <$> l).
Proof. intros Hfg. unfold Spec.total. by rewrite (amounts_fmap_ext _ f g). Qed.

Lemma getitem_present name cols rs :
  name ∈ cols → Frame.getitem (mkFrame cols rs) name = Ok (Spec.field name <$> rs).
Proof. intros Hin. unfold Frame.getitem; simpl. by rewrite bool_decide_eq_true_2. Qed.

Lemma gt_payable rs :
  Forall (λ r, Spec.numeric_cell (Spec.field "Balance" r)) rs →
  Series.gt (Spec.field "Balance" <$> rs) 0%Qc = Ok (Spec.payable <$> rs).
Proof.
  intros Hnum. unfold Series.gt.
  induction Hnum as [|r rs Hr _ IH]; [done|]. cbn.
  change (mapM (Series.cell_gt (Q2Qc 0)) (Spec.field "Balance" <$> rs)) with
    (mapM (Series.cell_gt (Q2Qc 0)) (Spec.field "Balance" <$> rs)) in IH.
  unfold Spec.payable at 1. destruct (Spec.field "Balance" r); try done; cbn.
  all: fold (@fmap list _ _ _ (Spec.field "Balance") rs).
  all: rewrite IH; done.
Qed.

End RowFacts.

Section BalanceSpec.

Context {sums : Sums}.
Variable to_datetime : list cell → list (option Timestamp).

Local Abbreviation W := (λ p : gmap string cell * option Timestamp,
                       <["Inv Date" := Series.date_cell p.2]> p.1).

Lemma length_row_dates df :
  length (Spec.row_dates to_datetime df) = length (rows df).
Proof.
  unfold Spec.row_dates. destruct (Frame.get df "Inv Date").
  - apply length_resize.
  - apply length_replicate.
Qed.

Lemma dated_fst df : (Spec.dated to_datetime df).*1 = rows df.
Proof. apply fst_zip. by rewrite length_row_dates. Qed.

Lemma dated_snd df :
  (Spec.dated to_datetime df).*2 = Spec.row_dates to_datetime df.
Proof. apply snd_zip. by rewrite length_row_dates. Qed.

Lemma dated_numeric name df :
  Spec.numeric name df →
  Forall (λ p, Spec.numeric_cell (Spec.field name p.1)) (Spec.dated to_datetime df).
Proof.
  unfold Spec.numeric. rewrite <- (dated_fst df) at 1.
  by rewrite Forall_fmap.
Qed.

Lemma Balance_working_copy df :
  Balance.working_copy to_datetime df
  = {| columns := Frame.add_column "Inv Date" (columns df);
       rows := W <$> Spec.dated to_datetime df |}.
Proof.
  unfold Balance.working_copy, Spec.dated, Spec.row_dates.
  destruct (Frame.get df "Inv Date") as [s|];
    unfold Frame.setitem, Frame.setitem_scalar; f_equal.
  - rewrite assign_zip.
    change NA with (Series.date_cell None).
    by rewrite <- fmap_resize, zip_insert_fmap.
  - rewrite broadcast_zip.
    change NA with (Series.date_cell None).
    by rewrite <- fmap_replicate, zip_insert_fmap.
Qed.

Lemma payable_working p : Spec.payable (W p) = Spec.payable p.1.
Proof. unfold Spec.payable. by rewrite field_insert_ne. Qed.

Lemma Balance_stats_of_spec df :
  Spec.balance_table df →
  Balance.stats_of to_datetime df = Ok (Spec.balance to_datetime df).
Proof.
  intros [Hcol Hnum]. apply (dated_numeric _ _) in Hnum.
  unfold Balance.stats_of, Spec.balance, Spec.payable_rows. cbv zeta.
  rewrite Balance_working_copy.
  set (D := Spec.dated to_datetime df) in *.
  rewrite (getitem_present "Balance") by (apply elem_of_add_column; by right).
  cbn [mbind result_bind].
  rewrite gt_payable by (rewrite Forall_fmap; eapply Forall_impl; [exact Hnum|];
                         intros p Hp; simpl; by rewrite field_insert_ne).
  cbn [mbind result_bind].
  unfold Frame.select; simpl rows; simpl columns.
  rewrite mask_select_fmap, filter_fmap_pre.
  rewrite (list_filter_iff _ (λ p, Spec.payable p.1 = true))
    by (intros p; by rewrite payable_working).
  set (pay := filter (λ p, Spec.payable p.1 = true) D).
  assert (Forall (λ p, Spec.numeric_cell (Spec.field "Balance" p.1)) pay) as Hpay.
  { subst pay. rewrite Forall_forall in Hnum |- *. intros p Hp.
    apply Hnum. by apply list_elem_of_filter in Hp as [_ ?]. }
  rewrite (getitem_present "Balance") by (apply elem_of_add_column; by right).
  rewrite !(getitem_present "Inv Date") by (apply elem_of_add_column; by left).
  rewrite !bool_decide_eq_true_2 by (apply elem_of_add_column; by left).
  cbn [mbind result_bind].
  rewrite sum_total by (rewrite Forall_fmap; eapply Forall_impl; [exact Hpay|];
                        intros p Hp; simpl; by rewrite field_insert_ne).
  cbn [mbind result_bind fmap result_fmap].
  rewrite (total_fmap_ext "Balance" W fst)
    by (intros p; by apply amount_insert_ne).
  assert (Spec.field "Inv Date" <$> (W <$> pay) = Series.date_cell <$> pay.*2) as ->.
  { rewrite <- !list_fmap_compose. apply list_fmap_ext. intros _ p _. simpl.
    by rewrite field_insert_eq. }
  assert (bool_decide ("Order No" ∈ Frame.add_column "Inv Date" (columns df))
          = bool_decide ("Order No" ∈ columns df)) as ->.
  { apply bool_decide_ext. rewrite elem_of_add_column.
    split; [by intros [?|?] | by right]. }
  unfold Frame.shape0; simpl rows. rewrite length_fmap.
  case_bool_decide as Hord; cbn [mbind result_bind fmap result_fmap]; [|done].
  rewrite (getitem_present "Order No") by (apply elem_of_add_column; by right).
  cbn [mbind result_bind fmap result_fmap].
  assert (Spec.field "Order No" <$> (W <$> pay) = Spec.field "Order No" <$> pay.*1) as ->.
  { rewrite <- !list_fmap_compose. apply list_fmap_ext. intros _ p _. simpl.
    by rewrite field_insert_ne. }
  done.
Qed.

End BalanceSpec.

(** ** The billing report, row by row *)

Section SelectFacts.

Context {sums : Sums} {X : Type}.
Implicit Types (f g : X → gmap string cell) (D : list X).

Lemma assign_fmap name f (c : X → cell) D :
  Frame.assign name (f <$> D) (c <$> D) = (λ x, <[name := c x]> (f x)) <$> D.
Proof. induction D as [|x D IH]; [done|]. simpl. f_equal. apply IH. Qed.

Lemma select_by (test : cell → bool) name cols f D :
  Frame.select (test <$> (Spec.field name <$> (f <$> D))) (mkFrame cols (f <$> D))
  = mkFrame cols (f <$> filter (λ x, test (Spec.field name (f x)) = true) D).
Proof.
  unfold Frame.select; simpl. f_equal.
  rewrite <- (list_fmap_compose (Spec.field name) test).
  by rewrite mask_select_fmap, filter_fmap_pre.
Qed.

Lemma int_sum_rows name cols f g D :
  name ∈ cols →
  (∀ x, Spec.field name (f x) = Spec.field name (g x)) →
  Forall (λ x, Spec.numeric_cell (Spec.field name (g x))) D →
  Billing.int_sum_of (mkFrame cols (f <$> D)) name
  = Ok (Series.py_int (Spec.total name (g <$> D))).
Proof.
  intros Hin Hfg Hnum. unfold Billing.int_sum_of.
  rewrite getitem_present by done. cbn [mbind result_bind].
  rewrite sum_total.
  - cbn [fmap result_fmap]. do 2 f_equal. apply total_fmap_ext.
    intros x. unfold Spec.amount. by rewrite Hfg.
  - rewrite Forall_fmap. eapply Forall_impl; [exact Hnum|].
    intros x Hx; simpl. by rewrite Hfg.
Qed.

Lemma filter_True (P : X → Prop) `{!∀ x, Decision (P x)} D :
  (∀ x, P x) → filter P D = D.
Proof.
  intros HP. induction D as [|x D IH]; [done|].
  rewrite filter_cons, IH. by rewrite decide_True.
Qed.

End SelectFacts.

Section DatedFacts.

Context {R : Type}.
Implicit Types (D : list (R * option Timestamp)).

Lemma filter_with_date (Q : option Timestamp → bool) D :
  Q None = false →
  filter (λ p, Q p.2 = true) D
  = (λ q, (q.1, Some q.2))
      <$> filter (λ q, Q (Some q.2) = true) (omap (λ p, pair p.1 <$> p.2) D).
Proof.
  intros HQ. induction D as [|[r [t|]] D IH]; [done|..].
  - rewrite filter_cons. cbn [omap list_omap fmap option_fmap option_map snd fst].
    rewrite filter_cons. simpl. case_decide; rewrite IH; done.
  - rewrite filter_cons. simpl. rewrite decide_False by (by rewrite HQ).
    apply IH.
Qed.

End DatedFacts.

(** ** Fiscal-year labels and the start year read back from them *)

Section Labels.

Lemma four_digit_years :
  forallb Spec.four_digit_check (seqZ 1000 9000) = true.
Proof. vm_compute. reflexivity. Qed.

Lemma chars_app (s1 s2 : string) :
  Text.chars (s1 +:+ s2) = (Text.chars s1 ++ Text.chars s2)%list.
Proof. induction s1 as [|c s1 IH]; [done|]. simpl. by rewrite IH. Qed.

Lemma extract_start_year_label (start : Z) (rest : string) :
  1000 <= start <= 9999 →
  Groupby.extract_start_year ("FY" +:+ Text.py_str start +:+ rest) = Ok start.
Proof.
  intros Hrange.
  pose proof four_digit_years as Hall.
  rewrite forallb_forall in Hall.
  specialize (Hall start). unfold Spec.four_digit_check in Hall.
  unfold Groupby.extract_start_year.
  rewrite chars_app, chars_app.
  destruct (Text.chars (Text.py_str start)) as [|a [|b [|c [|d [|]]]]] eqn:E;
    try (exfalso; assert (false = true) as Hf; [apply Hall|done];
         apply list_elem_of_In, elem_of_seqZ; lia).
  assert (Text.is_digit a && Text.is_digit b && Text.is_digit c && Text.is_digit d
          && (Text.int_of_digits [a; b; c; d] =? start) = true) as Hok.
  { apply Hall. apply list_elem_of_In, elem_of_seqZ. lia. }
  apply andb_prop in Hok as [Hok Heq]. apply Z.eqb_eq in Heq.
  apply andb_prop in Hok as [Hok Hd]. apply andb_prop in Hok as [Hok Hc].
  apply andb_prop in Hok as [Ha Hb].
  cbn [Text.chars list_ascii_of_string app Groupby.re_search_fy Groupby.matches_fy].
  rewrite Ha, Hb, Hc, Hd. simpl. rewrite take_0. by rewrite Heq.
Qed.

Lemma fy_start_range t :
  Time.in_bounds t → 1000 <= fy_start t <= 9999.
Proof.
  intros (Hy & _). unfold fy_start. destruct (4 <=? month t); lia.
Qed.

Lemma fy_label_year t k :
  Time.in_bounds t → fy_label (Some t) = Some k →
  Groupby.extract_start_year k = Ok (fy_start t).
Proof.
  intros Hb [= <-]. apply extract_start_year_label. by apply fy_start_range.
Qed.

End Labels.

Section BillingSpec.

Context {sums : Sums}.
Variable to_datetime : list cell → list (option Timestamp).

Local Abbreviation fyc :=
  (λ d : option Timestamp, from_option Str NA (fy_label d)).
Local Abbreviation cyc :=
  (λ d : option Timestamp,
     match d with Some t => Num (Qc_of_Z (year t)) | None => NA end).
Local Abbreviation W3 :=
  (λ p : gmap string cell * option Timestamp,
     <["CY" := cyc p.2]>
       (<["FY" := fyc p.2]> (<["Inv Date" := Series.date_cell p.2]> p.1))).
Local Abbreviation work_columns df :=
  (Frame.add_column "CY"
     (Frame.add_column "FY" (Frame.add_column "Inv Date" (columns df)))).

Lemma setitem_fmap {X} name cols (f : X → gmap string cell) (h : cell → cell)
    src (D : list X) :
  Frame.setitem name (h <$> (Spec.field src <$> (f <$> D))) (mkFrame cols (f <$> D))
  = mkFrame (Frame.add_column name cols)
            ((λ x, <[name := h (Spec.field src (f x))]> (f x)) <$> D).
Proof.
  unfold Frame.setitem; simpl. f_equal.
  rewrite <- !list_fmap_compose. apply (assign_fmap name f).
Qed.

Lemma cell_date_cell d : Series.cell_date (Series.date_cell d) = d.
Proof. by destruct d. Qed.

Lemma Billing_working_copy df :
  "Inv Date" ∈ columns df →
  Billing.working_copy to_datetime df
  = Ok (mkFrame (work_columns df) (W3 <$> Spec.dated to_datetime df)).
Proof.
  intros Hin. unfold Billing.working_copy.
  destruct df as [cols rs]; simpl in Hin.
  rewrite (getitem_present "Inv Date") by done.
  cbn [mbind result_bind]. cbv zeta.
  assert (Frame.setitem "Inv Date"
            (Series.date_cell <$> to_datetime (Spec.field "Inv Date" <$> rs))
            (mkFrame cols rs)
          = Balance.working_copy to_datetime (mkFrame cols rs)) as ->.
  { unfold Balance.working_copy, Frame.get; simpl.
    by rewrite bool_decide_eq_true_2. }
  rewrite Balance_working_copy.
  rewrite getitem_present by (apply elem_of_add_column; by left).
  cbn [mbind result_bind]. unfold Series.apply_fy_label.
  rewrite setitem_fmap.
  rewrite getitem_present
    by (apply elem_of_add_column; right; apply elem_of_add_column; by left).
  cbn [mbind result_bind]. unfold Series.dt_year.
  rewrite setitem_fmap. do 2 f_equal.
  apply list_fmap_ext. intros _ p _. simpl.
  rewrite (field_insert_ne "FY" "Inv Date") by done.
  rewrite !field_insert_eq, cell_date_cell.
  by destruct (p.2).
Qed.

Lemma add_column_nonempty name cols : Frame.add_column name cols ≠ [].
Proof.
  intros Heq. assert (name ∈ Frame.add_column name cols) as Hin
    by (apply elem_of_add_column; by left).
  rewrite Heq in Hin. by apply elem_of_nil in Hin.
Qed.

Lemma astype_str_labels {X} (f : X → gmap string cell) (lbl : X → option string)
    (l : list X) :
  (∀ x, Spec.field "FY" (f x) = from_option Str NA (lbl x)) →
  Series.astype_str (Spec.field "FY" <$> (f <$> l)) = omap lbl l.
Proof.
  intros Hf. unfold Series.astype_str.
  induction l as [|x l IH]; [done|]. cbn. rewrite Hf.
  destruct (lbl x); cbn; by rewrite <- IH.
Qed.

Ltac solve_column :=
  repeat (apply elem_of_add_column; first [by left | right]); assumption.

Local Abbreviation inj :=
  (λ q : gmap string cell * Timestamp, (q.1, Some q.2)).
Local Abbreviation dated_only D :=
  (omap (λ p : gmap string cell * option Timestamp, pair p.1 <$> p.2) D).

Lemma dropna_dated cols (D : list (gmap string cell * option Timestamp)) :
  "FY" ∈ cols →
  Groupby.dropna_subset "FY" (mkFrame cols (W3 <$> D))
  = Ok (mkFrame cols ((λ q, W3 (inj q)) <$> dated_only D)).
Proof.
  intros Hin. unfold Groupby.dropna_subset.
  rewrite getitem_present by done. cbn [mbind result_bind].
  rewrite select_by. do 2 f_equal.
  rewrite (list_filter_iff _ (λ p, Series.notna (fyc p.2) = true))
    by (intros p; simpl; by rewrite (field_insert_ne "CY" "FY"), field_insert_eq).
  rewrite (filter_with_date (λ d, Series.notna (fyc d))) by done.
  rewrite filter_True by done.
  by rewrite <- list_fmap_compose.
Qed.

Lemma select_year cols (D : list (gmap string cell * option Timestamp)) y :
  Frame.select (Series.eq_int (Spec.field "CY" <$> (W3 <$> D)) y)
    (mkFrame cols (W3 <$> D))
  = mkFrame cols ((λ q, W3 (inj q))
                    <$> filter (λ q, year q.2 = y) (dated_only D)).
Proof.
  unfold Series.eq_int. rewrite select_by. f_equal.
  rewrite (list_filter_iff _
             (λ p, match cyc p.2 with
                   | Num q => bool_decide (q = Qc_of_Z y)
                   | _ => false
                   end = true))
    by (intros p; simpl; by rewrite field_insert_eq).
  rewrite (filter_with_date
             (λ d, match cyc d with
                   | Num q => bool_decide (q = Qc_of_Z y)
                   | _ => false
                   end)) by done.
  rewrite <- list_fmap_compose. f_equal.
  apply list_filter_iff. intros q; simpl.
  rewrite bool_decide_eq_true. apply Z2Qc_inj_iff.
Qed.

Lemma select_undated cols (D : list (gmap string cell * option Timestamp)) :
  Frame.select (Series.isna (Spec.field "FY" <$> (W3 <$> D)))
    (mkFrame cols (W3 <$> D))
  = mkFrame cols (W3 <$> filter (λ p, p.2 = None) D).
Proof.
  unfold Series.isna. rewrite select_by. do 2 f_equal.
  apply list_filter_iff. intros [r [t|]]; simpl;
    rewrite (field_insert_ne "CY" "FY"), field_insert_eq by done; simpl.
  - split; done.
  - done.
Qed.

Lemma agg_groups cols (WD : list (gmap string cell * Timestamp)) :
  "FY" ∈ cols → "Inv Value" ∈ cols → "Inv No" ∈ cols →
  Forall (λ q, Spec.numeric_cell (Spec.field "Inv Value" q.1)) WD →
  Groupby.agg (mkFrame cols ((λ q, W3 (inj q)) <$> WD))
  = Ok ((λ k, let members := filter (λ q, fy_label (Some q.2) = Some k) WD in
              {| FY := k;
                 total_value := Spec.group_total "Inv Value" members.*1;
                 invoice_count := length members |})
          <$> Text.sorted (Series.unique (omap (λ q, fy_label (Some q.2)) WD))).
Proof.
  intros Hfy Hvalue Hinv Hnum. unfold Groupby.agg.
  rewrite !getitem_present by done. cbn [mbind result_bind].
  rewrite (astype_str_labels _ (λ q, fy_label (Some q.2)))
    by (intros q; simpl; by rewrite (field_insert_ne "CY" "FY"), field_insert_eq).
  apply mapM_Ok. intros k _. cbv zeta.
  rewrite select_by.
  rewrite (list_filter_iff _ (λ q, fy_label (Some q.2) = Some k)).
  2:{ intros q; simpl.
      rewrite (field_insert_ne "CY" "FY"), field_insert_eq by done. simpl.
      rewrite bool_decide_eq_true. split; congruence. }
  set (members := filter (λ q, fy_label (Some q.2) = Some k) WD).
  rewrite column_field; simpl rows.
  rewrite numbers_amounts.
  - cbn [fmap result_fmap mbind result_bind]. unfold Frame.shape0; simpl rows.
    rewrite length_fmap. do 2 f_equal. unfold Spec.group_total. f_equal.
    apply amounts_fmap_ext. intros q. by rewrite !amount_insert_ne.
  - rewrite Forall_fmap. rewrite Forall_forall in Hnum |- *.
    intros q Hq; simpl. rewrite !field_insert_ne by done.
    apply Hnum. by apply list_elem_of_filter in Hq as [_ ?].
Qed.

Lemma elem_of_sorted k l : k ∈ Text.sorted l ↔ k ∈ l.
Proof. unfold Text.sorted. by rewrite merge_sort_Permutation. Qed.

Lemma elem_of_unique {X} `{EqDecision X} (x : X) l : x ∈ Series.unique l ↔ x ∈ l.
Proof.
  unfold Series.unique.
  by rewrite elem_of_reverse, elem_of_remove_dups, elem_of_reverse.
Qed.

Lemma start_years (WD : list (gmap string cell * Timestamp))
    (g : string → FYGroup) (keys : list string) :
  (∀ k, FY (g k) = k) →
  Forall (λ q, Time.in_bounds q.2) WD →
  (∀ k, k ∈ keys → ∃ q, q ∈ WD ∧ fy_label (Some q.2) = Some k) →
  mapM Groupby.with_start_year (g <$> keys)
  = Ok ((λ k, {| fy_group := g k; start_year := Spec.label_year k |}) <$> keys).
Proof.
  intros Hg Hb Hkeys. rewrite Forall_forall in Hb.
  rewrite (mapM_Ok _ (λ grp, {| fy_group := grp;
                                start_year := Spec.label_year (FY grp) |})).
  - f_equal. rewrite <- list_fmap_compose. apply list_fmap_ext.
    intros _ k _; simpl. by rewrite Hg.
  - intros grp Hgrp. apply list_elem_of_fmap in Hgrp as (k & -> & Hk).
    destruct (Hkeys k Hk) as (q & Hq & Hlabel).
    unfold Groupby.with_start_year, Spec.label_year. rewrite Hg.
    by rewrite (fy_label_year q.2 k) by auto.
Qed.

Lemma Billing_stats_of_spec df as_of :
  Spec.billing_table to_datetime df →
  Billing.stats_of to_datetime df as_of = Ok (Spec.billing to_datetime df as_of).
Proof.
  intros (Hcols & Hval & Hbal & Hbounds).
  apply Forall_cons in Hcols as [Hdate Hcols].
  apply Forall_cons in Hcols as [Hvalue Hcols].
  apply Forall_cons in Hcols as [Hbalance Hcols].
  apply Forall_cons in Hcols as [Horder Hcols].
  apply Forall_cons in Hcols as [Hinv _].
  apply (dated_numeric to_datetime) in Hval, Hbal.
  unfold Billing.stats_of. rewrite Billing_working_copy by done.
  cbn [mbind result_bind].
  unfold Spec.billing, Spec.without_date, Spec.in_year, Spec.labels.
  rewrite <- (dated_fst to_datetime df).
  rewrite <- (dated_snd to_datetime df).
  unfold Spec.with_date in *.
  set (D := Spec.dated to_datetime df) in *.
  (* first invoice and the totals *)
  rewrite (getitem_present "Inv Date") by solve_column.
  cbn [mbind result_bind fmap result_fmap].
  rewrite (int_sum_rows "Inv Value" _ W3 fst); [|solve_column| |done];
    [|by intros p; simpl; rewrite !field_insert_ne].
  cbn [mbind result_bind fmap result_fmap].
  rewrite (int_sum_rows "Balance" _ W3 fst); [|solve_column| |done];
    [|by intros p; simpl; rewrite !field_insert_ne].
  cbn [mbind result_bind fmap result_fmap].
  rewrite (getitem_present "Order No") by solve_column.
  cbn [mbind result_bind fmap result_fmap].
  rewrite dropna_dated by solve_column.
  cbn [mbind result_bind].
  assert (Forall (λ q, Spec.numeric_cell (Spec.field "Inv Value" q.1))
            (dated_only D)) as Hval'.
  { rewrite Forall_forall in Hval. rewrite Forall_forall. intros [r t] Hq; simpl.
    apply list_elem_of_omap in Hq as ([r' d] & Hin & Heq); simpl in Heq.
    destruct d as [t'|]; [|done]. injection Heq as -> ->.
    by apply (Hval (r, Some t)). }
  rewrite agg_groups; [|solve_column|solve_column|solve_column|done].
  cbn [mbind result_bind].
  rewrite (start_years (dated_only D)); [|done|done|].
  2:{ intros k Hk. rewrite elem_of_sorted, elem_of_unique in Hk.
      apply list_elem_of_omap in Hk as (q & Hq & Hlabel). eauto. }
  cbn [mbind result_bind].
  rewrite (getitem_present "CY") by solve_column.
  cbn [mbind result_bind].
  rewrite select_year.
  rewrite (getitem_present "FY") by solve_column.
  cbn [mbind result_bind].
  rewrite select_undated.
  unfold Frame.empty, Frame.shape0; simpl rows; simpl columns.
  rewrite (bool_decide_eq_false_2 (work_columns df = []))
    by apply add_column_nonempty.
  rewrite orb_false_r, !length_fmap.
  rewrite (int_sum_rows "Inv Value" _ W3 fst
             (filter (λ p, p.2 = None) D)); [|solve_column| |];
    [|by intros p; simpl; rewrite !field_insert_ne|].
  2:{ rewrite Forall_forall in Hval. rewrite Forall_forall. intros p Hp.
      apply Hval. by apply list_elem_of_filter in Hp as [_ ?]. }
  assert (Spec.field "Inv Date" <$> (W3 <$> D) = Series.date_cell <$> D.*2) as ->.
  { rewrite <- !list_fmap_compose. apply list_fmap_ext. intros _ p _; simpl.
    by rewrite (field_insert_ne "CY"), (field_insert_ne "FY"), field_insert_eq. }
  assert (Spec.field "Order No" <$> (W3 <$> D) = Spec.field "Order No" <$> D.*1) as ->.
  { rewrite <- !list_fmap_compose. apply list_fmap_ext. intros _ p _; simpl.
    by rewrite !field_insert_ne. }
  set (CY := filter (λ q, year q.2 = year as_of) (dated_only D)).
  assert (Forall (λ q, Spec.numeric_cell (Spec.field "Inv Value" q.1)) CY) as Hcy.
  { rewrite Forall_forall in Hval'. rewrite Forall_forall. intros q Hq.
    apply Hval'. by apply list_elem_of_filter in Hq as [_ ?]. }
  clearbody CY. destruct CY as [|q rest].
  - unfold Spec.total, Spec.amounts. cbn. by rewrite series_sum_nil.
  - rewrite bool_decide_eq_false_2 by done. cbn [negb].
    rewrite (int_sum_rows "Inv Value" _ (λ q, W3 (inj q)) fst (q :: rest));
      [|solve_column| |done];
      [|by intros p; simpl; rewrite !field_insert_ne].
    done.
Qed.

End BillingSpec.

(** ** Code-point order on strings *)

Section StringOrder.

Lemma str_compare_trans_le (a b c : string) :
  String.compare a b ≠ Gt → String.compare b c ≠ Gt → String.compare a c ≠ Gt.
Proof.
  revert b c. induction a as [|x a IH]; intros [|y b] [|z c]; simpl; try done.
  unfold Ascii.compare.
  destruct (N.compare_spec (N_of_ascii x) (N_of_ascii y)) as [Hxy|Hxy|Hxy];
    destruct (N.compare_spec (N_of_ascii y) (N_of_ascii z)) as [Hyz|Hyz|Hyz];
    try done.
  - rewrite Hxy, Hyz, N.compare_refl. apply IH.
  - rewrite Hxy. by rewrite (proj2 (N.compare_lt_iff _ _) Hyz).
  - rewrite <- Hyz. by rewrite (proj2 (N.compare_lt_iff _ _) Hxy).
  - by rewrite (proj2 (N.compare_lt_iff _ _) (N.lt_trans _ _ _ Hxy Hyz)).
Qed.

Global Instance str_le_trans : Transitive Text.str_le.
Proof.
  intros a b c. unfold Text.str_le, String.leb. intros Hab Hbc.
  pose proof (str_compare_trans_le a b c) as Ht.
  destruct (String.compare a b); destruct (String.compare b c);
    destruct (String.compare a c); try done; exfalso; by apply Ht.
Qed.

Global Instance str_le_total : Total Text.str_le.
Proof. intros a b. apply String.leb_total. Qed.

Global Instance str_le_antisym : AntiSymm eq Text.str_le.
Proof. intros a b. apply String.leb_antisym. Qed.

Lemma StronglySorted_filter {X} (R : relation X) (P : X → Prop)
    `{!∀ x, Decision (P x)} (l : list X) :
  StronglySorted R l → StronglySorted R (filter P l).
Proof.
  induction 1 as [|x l Hl IH Hx]; [constructor|].
  rewrite filter_cons. case_decide; [|done].
  constructor; [done|].
  rewrite Forall_forall in Hx. rewrite Forall_forall. intros y Hy.
  apply Hx. by apply list_elem_of_filter in Hy as [_ ?].
Qed.

Lemma sorted_eq (l1 l2 : list string) :
  l1 ≡ₚ l2 → StronglySorted Text.str_le l2 → Text.sorted l1 = l2.
Proof.
  intros Hperm Hsorted. apply (StronglySorted_unique Text.str_le); [|done|].
  - apply (StronglySorted_merge_sort _).
  - unfold Text.sorted. by rewrite merge_sort_Permutation.
Qed.

End StringOrder.

(** ** The required-column check *)

Section ColumnCheck.

Lemma required_sorted_sorted : StronglySorted Text.str_le Spec.required_sorted.
Proof. repeat constructor. Qed.

Lemma missing_elements (df : DataFrame) :
  elements (Flow.required_columns ∖ list_to_set (columns df))
  ≡ₚ Spec.missing_columns df.
Proof.
  apply NoDup_Permutation.
  - apply NoDup_elements.
  - apply NoDup_filter. apply (bool_decide_unpack _). by vm_compute.
  - intros c. unfold Spec.missing_columns.
    rewrite elem_of_elements, elem_of_difference, list_elem_of_filter,
      elem_of_list_to_set.
    unfold Flow.required_columns, Spec.required_sorted.
    rewrite !elem_of_union, !elem_of_singleton, !elem_of_cons, elem_of_nil.
    tauto.
Qed.

Lemma missing_sorted (df : DataFrame) :
  Text.sorted (elements (Flow.required_columns ∖ list_to_set (columns df)))
  = Spec.missing_columns df.
Proof.
  apply sorted_eq; [apply missing_elements|].
  apply StronglySorted_filter, required_sorted_sorted.
Qed.

Lemma missing_empty (df : DataFrame) :
  Flow.required_columns ∖ list_to_set (columns df) = ∅
  ↔ Spec.missing_columns df = [].
Proof.
  pose proof (missing_elements df) as Hperm. split; intros Heq.
  - rewrite Heq, elements_empty in Hperm. by apply Permutation_nil_l in Hperm.
  - apply leibniz_equiv, elements_empty_iff. rewrite Heq in Hperm.
    by apply Permutation_nil_r in Hperm.
Qed.

Lemma check_columns_missing l df w :
  heap w !! l = Some df →
  Spec.missing_columns df ≠ [] →
  Flow.check_columns l w
  = (Raise (ValueError ("Input missing required columns: "
                          +:+ Text.join ", " (Spec.missing_columns df))), w).
Proof.
  intros Hl Hmiss. unfold Flow.check_columns, Df.columns, Df.read.
  unfold mbind, M_bind, fmap, M_fmap. rewrite Hl.
  rewrite bool_decide_eq_true_2 by (by rewrite missing_empty).
  by rewrite missing_sorted.
Qed.


End ColumnCheck.

(** ** Reports of well-formed tables *)

Section Reports.

Context {sums : Sums}.
Variable to_datetime : list cell → list (option Timestamp).

Lemma Balance_run_spec l df customer as_of w :
  heap w !! l = Some df →
  Spec.balance_table df →
  ∃ w', Balance.stats to_datetime l w = (Ok (Spec.balance to_datetime df), w')
        ∧ Balance.build_balance_report to_datetime l customer as_of w
          = (Ok (Text.join Text.newline
                   (Balance.render customer as_of (Spec.balance to_datetime df))), w')
        ∧ extends w w'.
Proof.
  intros Hl Htable.
  destruct (Balance_stats_run to_datetime l df w Hl) as (w' & Hrun & Hext).
  rewrite Balance_stats_of_spec in Hrun by done.
  exists w'. split_and!; try done.
  unfold Balance.build_balance_report, mbind, M_bind. by rewrite Hrun.
Qed.

Lemma Billing_run_spec l df customer as_of w :
  heap w !! l = Some df →
  Spec.billing_table to_datetime df →
  ∃ w', Billing.stats to_datetime l as_of w
          = (Ok (Spec.billing to_datetime df as_of), w')
        ∧ Billing.build_report to_datetime l customer as_of w
          = (Ok (Text.join Text.newline
                   (Billing.render customer as_of
                      (Spec.billing to_datetime df as_of))), w')
        ∧ extends w w'.
Proof.
  intros Hl Htable.
  destruct (Billing_stats_run to_datetime l df as_of w Hl) as (w' & Hrun & Hext).
  rewrite Billing_stats_of_spec in Hrun by done.
  exists w'. split_and!; try done.
  unfold Billing.build_report, mbind, M_bind. by rewrite Hrun.
Qed.

End Reports.


(** ** The lines of the reports *)

Lemma render_outstanding customer as_of st :
  ∃ before after : list string,
    Billing.render customer as_of st
    = (before
       ++ ["4) Current outstanding balance";
           "   Rs " +:+ Text.fmt_comma (Billing.outstanding_balance st)]
       ++ after)%list.
Proof.
  unfold Billing.render.
  lazymatch goal with
  | |- ∃ _ _, (?A ++ ?B ++ ?C ++ ?D ++ ?E
               ++ (?x1 :: ?x2 :: ?x3 :: ?x4 :: ?rest))%list = _ =>
      exists (A ++ B ++ C ++ D ++ E ++ [x1; x2; x3; x4])%list, (drop 2 rest)
  end.
  by rewrite <- !app_assoc.
Qed.

(** ** The fiscal-year table *)

Global Instance year_le_trans : Transitive Groupby.year_le.
Proof. intros a b c. unfold Groupby.year_le. lia. Qed.

Global Instance year_le_total : Total Groupby.year_le.
Proof. intros a b. unfold Groupby.year_le. lia. Qed.

Lemma StronglySorted_lookup_lt {X} (R : relation X) (l : list X) i j x y :
  StronglySorted R l → l !! i = Some x → l !! j = Some y → (i < j)%nat → R x y.
Proof.
  intros Hs. revert i j. induction Hs as [|z l Hl IH Hz]; intros i j Hi Hj Hlt.
  - done.
  - destruct j as [|j]; [lia|]. destruct i as [|i]; simpl in *.
    + injection Hi as ->. rewrite Forall_forall in Hz. apply Hz.
      by eapply list_elem_of_lookup_2.
    + apply (IH i j); [done|done|lia].
Qed.

Lemma sort_values_ascending (l : list FYRow) i j ri rj :
  Groupby.sort_values l !! i = Some ri →
  Groupby.sort_values l !! j = Some rj →
  start_year ri < start_year rj → (i < j)%nat.
Proof.
  intros Hi Hj Hlt.
  destruct (decide (i < j)%nat) as [|Hge]; [done|].
  assert (StronglySorted Groupby.year_le (Groupby.sort_values l)) as Hs
    by apply (StronglySorted_merge_sort _).
  destruct (decide (i = j)) as [->|Hne]; [rewrite Hi in Hj; injection Hj as ->; lia|].
  assert (Groupby.year_le rj ri) as Hle
    by (apply (StronglySorted_lookup_lt _ _ j i _ _ Hs Hj Hi); lia).
  unfold Groupby.year_le in Hle. lia.
Qed.

Lemma elem_of_sort_values (l : list FYRow) r :
  r ∈ Groupby.sort_values l ↔ r ∈ l.
Proof. unfold Groupby.sort_values. by rewrite merge_sort_Permutation. Qed.

Lemma NoDup_unique {X} `{EqDecision X} (l : list X) : NoDup (Series.unique l).
Proof.
  unfold Series.unique. rewrite reverse_Permutation. apply NoDup_remove_dups.
Qed.

Section Breakdown.

Context {sums : Sums}.
Variable to_datetime : list cell → list (option Timestamp).

Lemma fy_breakdown_row df as_of r :
  Spec.billing_table to_datetime df →
  r ∈ Billing.fy_breakdown (Spec.billing to_datetime df as_of) →
  ∃ p, p ∈ Spec.with_date to_datetime df
       ∧ fy_label (Some p.2) = Some (FY (fy_group r))
       ∧ r = Spec.fy_row to_datetime df (FY (fy_group r))
       ∧ start_year r = fy_start p.2
       ∧ Groupby.extract_start_year (FY (fy_group r)) = Ok (start_year r).
Proof.
  intros (_ & _ & _ & Hb) Hr. simpl in Hr.
  apply elem_of_sort_values, list_elem_of_fmap in Hr as (k & -> & Hk).
  rewrite elem_of_sorted, elem_of_unique in Hk.
  apply list_elem_of_omap in Hk as (p & Hp & Hlabel).
  rewrite Forall_forall in Hb. specialize (Hb p Hp).
  pose proof (fy_label_year p.2 k Hb Hlabel) as Hyear.
  exists p. simpl. unfold Spec.label_year. rewrite Hyear. done.
Qed.

Lemma fy_breakdown_labels_NoDup df as_of :
  NoDup ((λ r, FY (fy_group r))
           <$> Billing.fy_breakdown (Spec.billing to_datetime df as_of)).
Proof.
  simpl. unfold Groupby.sort_values. rewrite merge_sort_Permutation.
  rewrite <- list_fmap_compose.
  assert (∀ keys, (λ r, FY (fy_group r)) ∘ Spec.fy_row to_datetime df <$> keys
                  = keys) as ->.
  { intros keys. induction keys as [|k keys IH]; [done|].
    rewrite fmap_cons, IH. done. }
  unfold Text.sorted. rewrite merge_sort_Permutation.
  apply NoDup_unique.
Qed.

Lemma fy_breakdown_years_NoDup df as_of :
  Spec.billing_table to_datetime df →
  NoDup (start_year <$> Billing.fy_breakdown (Spec.billing to_datetime df as_of)).
Proof.
  intros Htable.
  pose proof (fy_breakdown_labels_NoDup df as_of) as Hnd.
  set (l := Billing.fy_breakdown (Spec.billing to_datetime df as_of)) in *.
  assert (Forall (λ r, FY (fy_group r)
                       = "FY" +:+ Text.py_str (start_year r) +:+ "-"
                           +:+ Text.fmt_0d 2 ((start_year r + 1) mod 100)) l) as Hl.
  { rewrite Forall_forall. intros r Hr.
    destruct (fy_breakdown_row df as_of r Htable Hr) as (p & _ & Hlabel & _ & -> & _).
    by injection Hlabel as <-. }
  clearbody l.
  apply (NoDup_fmap_1 (λ y, "FY" +:+ Text.py_str y +:+ "-"
                              +:+ Text.fmt_0d 2 ((y + 1) mod 100))).
  rewrite <- list_fmap_compose.
  erewrite <- list_fmap_ext; [exact Hnd|].
  intros i r Hr. rewrite Forall_forall in Hl. simpl.
  apply Hl. by eapply list_elem_of_lookup_2.
Qed.

End Breakdown.

(** ** The lines of the billing report *)

Lemma render_sections customer as_of st :
  ∃ after : list string,
    Billing.render customer as_of st
    = (["Customer Billing Summary — " +:+ customer
          +:+ " (as of " +:+ Time.strftime_dbY as_of +:+ ")"; ""]
       ++ (["1) Lifetime billing";
            "   Total invoiced: Rs " +:+ Text.fmt_comma (Billing.lifetime_billing st)]
           ++ Billing.first_invoice_lines (Billing.first_invoice st))
       ++ [""]
       ++ ("2) Billing by financial year (April–March)"
           :: (Billing.fy_line <$> Billing.fy_breakdown st)
           ++ Billing.undated_lines (Billing.undated_value st)
                (Billing.undated_count st))
       ++ [""] ++ after)%list.
Proof.
  unfold Billing.render.
  lazymatch goal with
  | |- ∃ _, (_ ++ _ ++ _ ++ _ ++ _ ++ (_ :: ?rest))%list = _ => exists rest
  end.
  cbn [app]. rewrite <- !app_assoc. reflexivity.
Qed.

(** ** Earliest and latest dates *)

Section Extremes.

Ltac leb_cases :=
  unfold Time.leb in *;
  repeat match goal with
    | H : context [?a =? ?b] |- _ => destruct (Z.eqb_spec a b)
    | |- context [?a =? ?b] => destruct (Z.eqb_spec a b)
    end;
  rewrite ?Z.ltb_lt, ?Z.leb_le in *; lia.

Lemma leb_refl a : Time.leb a a = true.
Proof. leb_cases. Qed.

Lemma leb_total a b : Time.leb a b = true ∨ Time.leb b a = true.
Proof.
  destruct (Time.leb a b) eqn:Hab; [by left|right].
  apply not_true_iff_false in Hab.
  unfold Time.leb in *;
  repeat match goal with
    | H : context [?a =? ?b] |- _ => destruct (Z.eqb_spec a b)
    | |- context [?a =? ?b] => destruct (Z.eqb_spec a b)
    end;
  rewrite ?Z.ltb_lt, ?Z.leb_le in *; lia.
Qed.

Lemma leb_trans a b c :
  Time.leb a b = true → Time.leb b c = true → Time.leb a c = true.
Proof. intros Hab Hbc. leb_cases. Qed.

Lemma foldl_earlier ts t :
  let m := foldl Time.earlier t ts in
  m ∈ t :: ts ∧ Forall (λ t', Time.leb m t' = true) (t :: ts).
Proof.
  revert t. induction ts as [|u ts IH]; intros t; simpl.
  - split; [left|]. repeat constructor. apply leb_refl.
  - destruct (IH (Time.earlier t u)) as [Hin Hall].
    apply Forall_cons in Hall as [Hm Hall].
    unfold Time.earlier in *. destruct (Time.leb t u) eqn:Htu.
    + split.
      * apply elem_of_cons in Hin as [->|Hin]; [left|by do 2 right].
      * repeat constructor; [done| |done]. by eapply leb_trans.
    + destruct (leb_total t u) as [Hc|Hut]; [congruence|]. split.
      * apply elem_of_cons in Hin as [->|Hin]; [right; left|by do 2 right].
      * repeat constructor; [|done|done]. by eapply leb_trans.
Qed.

Lemma foldl_later ts t :
  let m := foldl Time.later t ts in
  m ∈ t :: ts ∧ Forall (λ t', Time.leb t' m = true) (t :: ts).
Proof.
  revert t. induction ts as [|u ts IH]; intros t; simpl.
  - split; [left|]. repeat constructor. apply leb_refl.
  - destruct (IH (Time.later t u)) as [Hin Hall].
    apply Forall_cons in Hall as [Hm Hall].
    unfold Time.later in *. destruct (Time.leb t u) eqn:Htu.
    + split.
      * apply elem_of_cons in Hin as [->|Hin]; [right; left|by do 2 right].
      * repeat constructor; [|done|done]. by eapply leb_trans.
    + destruct (leb_total t u) as [Hc|Hut]; [congruence|]. split.
      * apply elem_of_cons in Hin as [->|Hin]; [left|by do 2 right].
      * repeat constructor; [done| |done]. by eapply leb_trans.
Qed.

Lemma dates_of_cells (ds : list (option Timestamp)) :
  omap Series.cell_date (Series.date_cell <$> ds) = omap id ds.
Proof.
  induction ds as [|[t|] ds IH]; [done|..]; cbn; by rewrite <- IH.
Qed.

Lemma elem_of_dates (ds : list (option Timestamp)) t :
  t ∈ omap id ds ↔ Some t ∈ ds.
Proof.
  rewrite list_elem_of_omap. split.
  - intros (o & Ho & Heq). simpl in Heq. by subst o.
  - intros Ht. by exists (Some t).
Qed.

Lemma earliest_None ds : Spec.earliest ds = None ↔ ∀ t, Some t ∉ ds.
Proof.
  unfold Spec.earliest, Series.min, Series.extreme. rewrite dates_of_cells.
  destruct (omap id ds) as [|t ts] eqn:E.
  - split; [|done]. intros _ t Ht. apply elem_of_dates in Ht.
    rewrite E in Ht. by apply elem_of_nil in Ht.
  - split; [done|]. intros Hnone. exfalso. apply (Hnone t).
    apply elem_of_dates. rewrite E. left.
Qed.

Lemma earliest_Some ds t :
  Spec.earliest ds = Some t →
  Some t ∈ ds ∧ ∀ t', Some t' ∈ ds → Time.leb t t' = true.
Proof.
  unfold Spec.earliest, Series.min, Series.extreme. rewrite dates_of_cells.
  destruct (omap id ds) as [|u ts] eqn:E; [done|]. intros [= <-].
  destruct (foldl_earlier ts u) as [Hin Hall]. rewrite <- E in Hin, Hall.
  split; [by apply elem_of_dates|].
  intros t' Ht'. rewrite Forall_forall in Hall. apply Hall.
  by apply elem_of_dates.
Qed.

Lemma latest_None ds : Spec.latest ds = None ↔ ∀ t, Some t ∉ ds.
Proof.
  unfold Spec.latest, Series.max, Series.extreme. rewrite dates_of_cells.
  destruct (omap id ds) as [|t ts] eqn:E.
  - split; [|done]. intros _ t Ht. apply elem_of_dates in Ht.
    rewrite E in Ht. by apply elem_of_nil in Ht.
  - split; [done|]. intros Hnone. exfalso. apply (Hnone t).
    apply elem_of_dates. rewrite E. left.
Qed.

Lemma latest_Some ds t :
  Spec.latest ds = Some t →
  Some t ∈ ds ∧ ∀ t', Some t' ∈ ds → Time.leb t' t = true.
Proof.
  unfold Spec.latest, Series.max, Series.extreme. rewrite dates_of_cells.
  destruct (omap id ds) as [|u ts] eqn:E; [done|]. intros [= <-].
  destruct (foldl_later ts u) as [Hin Hall]. rewrite <- E in Hin, Hall.
  split; [by apply elem_of_dates|].
  intros t' Ht'. rewrite Forall_forall in Hall. apply Hall.
  by apply elem_of_dates.
Qed.

Lemma earliest_latest ds : is_Some (Spec.earliest ds) ↔ is_Some (Spec.latest ds).
Proof.
  rewrite <- !not_eq_None_Some, earliest_None, latest_None. done.
Qed.

End Extremes.

(** ** Dated and undated rows *)

Section Partition.

Context {R : Type}.
Implicit Types (D : list (R * option Timestamp)).

Lemma filter_fst (P : R → Prop) `{!∀ r, Decision (P r)}
    `{!∀ p : R * option Timestamp, Decision (P p.1)} D :
  (filter (λ p, P p.1) D).*1 = filter P D.*1.
Proof.
  induction D as [|p D IH]; [done|].
  rewrite fmap_cons, !filter_cons.
  repeat case_decide; try done; rewrite ?fmap_cons; by rewrite IH.
Qed.

Lemma dated_partition D :
  length D
  = (length (omap (λ p : R * option Timestamp, pair p.1 <$> p.2) D)
     + length (filter (λ p, p.2 = None) D))%nat.
Proof.
  induction D as [|[r [t|]] D IH]; [done|..]; rewrite filter_cons; cbn.
  - rewrite decide_False by done. by rewrite IH.
  - rewrite decide_True by done. cbn. rewrite IH. lia.
Qed.

Lemma count_by_key {K} `{EqDecision K} {Q} (key : Q → K) (keys : list K)
    (l : list Q) :
  NoDup keys → (∀ q, q ∈ l → key q ∈ keys) →
  sum_list ((λ k, length (filter (λ q, key q = k) l)) <$> keys) = length l.
Proof.
  intros Hnd. induction l as [|q l IH]; intros Hall.
  - clear Hall. induction keys as [|k keys IHk]; [done|].
    apply NoDup_cons in Hnd as [_ Hnd]. rewrite fmap_cons. simpl.
    exact (IHk Hnd).
  - assert (key q ∈ keys) as Hq by (apply Hall; left).
    assert (sum_list ((λ k, length (filter (λ q', key q' = k) (q :: l))) <$> keys)
            = S (sum_list ((λ k, length (filter (λ q', key q' = k) l)) <$> keys)))
      as ->.
    { clear IH Hall. induction keys as [|k keys IHk]; [by apply elem_of_nil in Hq|].
      apply NoDup_cons in Hnd as [Hk Hnd]. rewrite !fmap_cons. simpl sum_list.
      rewrite filter_cons. destruct (decide (key q = k)) as [Heq|Hne].
      - simpl length. rewrite Nat.add_succ_l. do 3 f_equal.
        apply list_fmap_ext. intros i k' Hk'. apply list_elem_of_lookup_2 in Hk'.
        rewrite filter_cons, decide_False; [done|]. congruence.
      - apply elem_of_cons in Hq as [?|Hq]; [done|].
        rewrite IHk by done. lia. }
    simpl length. f_equal. apply IH. intros q' Hq'. apply Hall. by right.
Qed.

Lemma dated_only_snd D :
  (omap (λ p : R * option Timestamp, pair p.1 <$> p.2) D).*2 = omap id D.*2.
Proof.
  induction D as [|[r [t|]] D IH]; [done|..]; cbn; by rewrite <- IH.
Qed.

End Partition.

Section TableFacts.

Context {sums : Sums}.
Variable to_datetime : list cell → list (option Timestamp).

Lemma with_date_dates df t :
  t ∈ (Spec.with_date to_datetime df).*2 ↔ Some t ∈ Spec.row_dates to_datetime df.
Proof.
  unfold Spec.with_date. by rewrite dated_only_snd, dated_snd, elem_of_dates.
Qed.

Lemma with_date_nil df :
  Spec.with_date to_datetime df = []
  ↔ ∀ t, Some t ∉ Spec.row_dates to_datetime df.
Proof.
  split.
  - intros Hnil t Ht. apply with_date_dates in Ht. rewrite Hnil in Ht.
    by apply elem_of_nil in Ht.
  - intros Hnone. destruct (Spec.with_date to_datetime df) as [|p ps] eqn:E; [done|].
    exfalso. apply (Hnone p.2). apply with_date_dates. rewrite E. left.
Qed.

Lemma payable_rows_fst df :
  (Spec.payable_rows to_datetime df).*1
  = filter (λ r, Spec.payable r = true) (rows df).
Proof.
  unfold Spec.payable_rows. rewrite <- (dated_fst to_datetime df).
  apply (filter_fst (λ r, Spec.payable r = true)).
Qed.

Lemma payable_iff (r : gmap string cell) :
  Spec.payable r = true ↔ ∃ q, r !! "Balance" = Some (Num q) ∧ (0 < q)%Qc.
Proof.
  unfold Spec.payable, Spec.field.
  destruct (r !! "Balance") as [[|q| |]|]; simpl; try (split; [done|]; by intros (? & ? & ?)).
  rewrite bool_decide_eq_true. split.
  - intros Hq. by exists q.
  - by intros (q' & [= <-] & Hq).
Qed.

Lemma billing_table_balance df :
  Spec.billing_table to_datetime df → Spec.balance_table df.
Proof.
  intros (Hcols & _ & Hbal & _). split; [|done].
  rewrite Forall_forall in Hcols. apply Hcols. do 2 right. left.
Qed.

End TableFacts.

(** ** Characters of the rendered text *)

Section SlashFree.

Lemma chars_text l : Text.chars (Text.text l) = l.
Proof. apply list_ascii_of_string_of_list_ascii. Qed.

Lemma slash_free_app a b :
  Text.slash_free a → Text.slash_free b → Text.slash_free (a +:+ b).
Proof. unfold Text.slash_free. rewrite chars_app. apply Forall_app_2. Qed.

Lemma slash_free_uint d : Text.slash_free (NilEmpty.string_of_uint d).
Proof.
  unfold Text.slash_free.
  induction d; simpl; try constructor; done.
Qed.

Lemma slash_free_py_str z : Text.slash_free (Text.py_str z).
Proof.
  unfold Text.py_str, NilZero.string_of_int, NilZero.string_of_uint.
  destruct (Z.to_int z) as [d|d].
  - destruct d; try apply slash_free_uint. by repeat constructor.
  - unfold Text.slash_free; simpl. constructor; [done|].
    destruct d; try apply slash_free_uint. by repeat constructor.
Qed.

Lemma slash_free_zero_pad w s :
  Text.slash_free s → Text.slash_free (Text.zero_pad w s).
Proof.
  intros Hs. unfold Text.zero_pad. apply slash_free_app; [|done].
  unfold Text.slash_free. rewrite chars_text. by apply Forall_replicate.
Qed.

Lemma slash_free_fmt_0d w z : Text.slash_free (Text.fmt_0d w z).
Proof.
  unfold Text.fmt_0d. destruct (z <? 0).
  - apply slash_free_app; [by repeat constructor|].
    apply slash_free_zero_pad, slash_free_py_str.
  - apply slash_free_zero_pad, slash_free_py_str.
Qed.

Lemma group3_Forall (P : ascii → Prop) k ds :
  P ","%char → Forall P ds → Forall P (Text.group3 k ds).
Proof.
  intros Hc Hds. revert k.
  induction Hds as [|d rest Hd Hrest IH]; intros k; [constructor|].
  simpl. destruct rest as [|e rest]; [by repeat constructor|].
  destruct k as [|[|[|k]]]; repeat constructor; try done; apply IH.
Qed.

Lemma slash_free_fmt_comma z : Text.slash_free (Text.fmt_comma z).
Proof.
  unfold Text.fmt_comma.
  assert (Text.slash_free
            (Text.text (reverse (Text.group3 0
               (reverse (Text.chars (Text.py_str (Z.abs z))))))))
    as Hbody.
  { unfold Text.slash_free. rewrite chars_text.
    apply Forall_reverse, group3_Forall; [done|].
    apply Forall_reverse, slash_free_py_str. }
  cbv zeta. destruct (z <? 0); [|done].
  apply slash_free_app; [by repeat constructor|done].
Qed.

Lemma slash_free_strftime t : Text.slash_free (Time.strftime_dbY t).
Proof.
  unfold Time.strftime_dbY.
  repeat apply slash_free_app; try apply slash_free_fmt_0d;
    try (by repeat constructor).
  unfold Time.month_abbr.
  destruct (month t) as [|p|p]; try (by repeat constructor).
  do 4 (destruct p as [p|p|]; try (by repeat constructor)).
Qed.

Lemma slash_free_join sep lines :
  Text.slash_free sep → Forall Text.slash_free lines →
  Text.slash_free (Text.join sep lines).
Proof.
  intros Hsep Hlines. induction Hlines as [|line rest Hline Hrest IH].
  - constructor.
  - simpl. destruct rest as [|next rest]; [done|].
    apply slash_free_app; [done|]. apply slash_free_app; [done|]. apply IH.
Qed.

End SlashFree.

(** ** Occurrences of a three-character pattern *)

Section Occurs.

Implicit Types (l pre mid post : list ascii) (a b c : ascii).

Lemma occurs3_lookup a b c l :
  Text.occurs [a; b; c] l = true
  ↔ ∃ i, l !! i = Some a ∧ l !! S i = Some b ∧ l !! S (S i) = Some c.
Proof.
  induction l as [|x l IH].
  - simpl. split; [done|]. by intros (i & Hi & _).
  - cbn [Text.occurs]. rewrite orb_true_iff, IH. split.
    + intros [Hhere|(i & Hi)].
      * exists 0%nat. simpl in Hhere.
        destruct l as [|y [|z l]]; simpl in Hhere;
          rewrite ?andb_true_iff, ?bool_decide_eq_true in Hhere;
          try (destruct Hhere as [_ [_ ?]]; done);
          try (destruct Hhere as [_ ?]; done).
        destruct Hhere as (-> & -> & -> & _). done.
      * exists (S i). simpl. done.
    + intros ([|i] & Hi & Hj & Hk); [left|right; by exists i].
      simpl in *. destruct l as [|y [|z l]]; simpl in *; try done.
      injection Hi as ->. injection Hj as ->. injection Hk as ->.
      by rewrite !bool_decide_eq_true_2.
Qed.

Lemma occurs3_middle a b c pre mid post :
  Forall (λ x, x ≠ b) pre → Forall (λ x, x ≠ b) post →
  last pre ≠ Some a → head post ≠ Some c →
  Text.occurs [a; b; c] (pre ++ mid ++ post) = true →
  Text.occurs [a; b; c] mid = true.
Proof.
  intros HP HS Hlast Hhead. rewrite !occurs3_lookup.
  intros (i & Hi & Hj & Hk).
  rewrite Forall_forall in HP, HS.
  destruct (decide (S i < length pre)%nat) as [Hlt|Hge].
  { rewrite lookup_app_l in Hj by done.
    exfalso. eapply HP; [|done]. by eapply list_elem_of_lookup_2. }
  rewrite lookup_app_r in Hj by lia.
  destruct (decide (S i - length pre < length mid)%nat) as [HltC|HgeC].
  2:{ rewrite lookup_app_r in Hj by lia.
      exfalso. eapply HS; [|done]. by eapply list_elem_of_lookup_2. }
  rewrite lookup_app_l in Hj by done.
  destruct (decide (i < length pre)%nat) as [HiP|HiP].
  { exfalso. apply Hlast. rewrite lookup_app_l in Hi by done.
    rewrite last_lookup. replace (pred (length pre)) with i by lia. done. }
  rewrite lookup_app_r in Hi by lia.
  rewrite lookup_app_l in Hi by lia.
  rewrite lookup_app_r in Hk by lia.
  destruct (decide (S (S i) - length pre < length mid)%nat) as [HkC|HkC].
  2:{ exfalso. apply Hhead. rewrite lookup_app_r in Hk by lia.
      rewrite head_lookup.
      replace (S (S i) - length pre - length mid)%nat with 0%nat in Hk by lia.
      done. }
  rewrite lookup_app_l in Hk by done.
  exists (i - length pre)%nat.
  replace (S (i - length pre)) with (S i - length pre)%nat by lia.
  replace (S (S i - length pre)) with (S (S i) - length pre)%nat by lia.
  done.
Qed.

End Occurs.

(** ** Where "N/A" can occur in a balance report *)

Section BalanceText.

Lemma slash_free_literal (s : string) :
  Text.slash_freeb s = true → Text.slash_free s.
Proof.
  unfold Text.slash_freeb, Text.slash_free. rewrite forallb_forall, Forall_forall.
  intros Hall c Hc. apply list_elem_of_In, Hall, negb_true_iff in Hc.
  by apply Ascii.eqb_neq in Hc.
Qed.

Ltac slash_free_literal :=
  apply slash_free_literal; vm_compute; reflexivity.

Lemma slash_free_date_range (lo hi : option Timestamp) :
  (is_Some lo ↔ is_Some hi) →
  Forall Text.slash_free (Balance.date_range_lines lo hi).
Proof.
  intros Hboth. unfold Balance.date_range_lines.
  destruct lo as [d1|], hi as [d2|];
    cbn [from_option Series.date_cell Series.notna orb].
  - apply Forall_cons_2; [slash_free_literal|].
    apply Forall_cons_2; [|apply Forall_nil_2].
    apply slash_free_app; [slash_free_literal|].
    apply slash_free_app; [apply slash_free_strftime|].
    apply slash_free_app; [slash_free_literal|apply slash_free_strftime].
  - exfalso. destruct Hboth as [H _]. destruct H; eauto. done.
  - exfalso. destruct Hboth as [_ H]. destruct H; eauto. done.
  - apply Forall_cons_2; [slash_free_literal|].
    apply Forall_cons_2; [slash_free_literal|apply Forall_nil_2].
Qed.

Lemma balance_report_NA customer as_of st :
  (is_Some (Balance.min_date st) ↔ is_Some (Balance.max_date st)) →
  Text.contains (Text.join Text.newline (Balance.render customer as_of st)) "N/A"
  = true →
  Text.contains customer "N/A" = true.
Proof.
  intros Hboth. unfold Text.contains, Balance.render.
  cbn [app].
  change (Text.join Text.newline (?p :: ?q :: ?r))
    with (p +:+ Text.newline +:+ Text.join Text.newline (q :: r)).
  rewrite !chars_app, <- !app_assoc.
  apply occurs3_middle.
  - slash_free_literal.
  - repeat apply Forall_app_2; try (slash_free_literal).
    + apply slash_free_strftime.
    + apply slash_free_join; [slash_free_literal|].
      do 5 (apply Forall_cons_2;
            [first [ slash_free_literal
                   | apply slash_free_app;
                     [slash_free_literal
                     |first [apply slash_free_fmt_comma
                            |apply slash_free_py_str]] ]|]).
      apply Forall_app_2; [by apply slash_free_date_range|].
      do 3 (apply Forall_cons_2; [slash_free_literal|]). apply Forall_nil_2.
  - by vm_compute.
  - done.
Qed.

End BalanceText.

(** ** Customer-name inference, one candidate at a time *)

Section Inference.

Lemma unique_singleton {X} `{EqDecision X} (l : list X) (u : X) :
  Series.unique l = [u] ↔ u ∈ l ∧ ∀ x, x ∈ l → x = u.
Proof.
  split.
  - intros Hu. split.
    + apply elem_of_unique. rewrite Hu. left.
    + intros x Hx. apply elem_of_unique in Hx. rewrite Hu in Hx.
      by apply list_elem_of_singleton in Hx.
  - intros [Hin Hall]. pose proof (NoDup_unique l) as Hnd.
    assert (∀ x, x ∈ Series.unique l → x = u) as Hall'
      by (intros x Hx; by apply Hall, elem_of_unique).
    apply elem_of_unique in Hin.
    destruct (Series.unique l) as [|a [|b t]].
    + by apply elem_of_nil in Hin.
    + f_equal. apply Hall'. left.
    + exfalso. apply NoDup_cons in Hnd as [Hnotin _]. apply Hnotin.
      rewrite (Hall' a) by left. rewrite (Hall' b) by (right; left). left.
Qed.

Lemma is_string_dtype_Forall (s : list cell) :
  Series.is_string_dtype s = true ↔ Forall (λ c, ∃ t, c = Str t) s.
Proof.
  unfold Series.is_string_dtype. rewrite forallb_forall, Forall_forall.
  split; intros Hall c Hc.
  - apply list_elem_of_In, Hall in Hc. destruct c; try done. by eexists.
  - apply list_elem_of_In, Hall in Hc as [t ->]. done.
Qed.

Lemma elem_of_names (col : list cell) (w : string) :
  w ∈ filter (λ v, v ≠ "") (Text.strip <$> Series.astype_str (Series.dropna col))
  ↔ w ≠ "" ∧ ∃ s, Str s ∈ col ∧ Text.strip s = w.
Proof.
  rewrite list_elem_of_filter, list_elem_of_fmap.
  unfold Series.astype_str, Series.dropna. split.
  - intros [Hne (s & -> & Hs)]. split; [done|]. exists s. split; [|done].
    apply list_elem_of_omap in Hs as (c & Hc & Hcs).
    apply list_elem_of_filter in Hc as [_ Hc]. destruct c; try done.
    simpl in Hcs. by injection Hcs as ->.
  - intros [Hne (s & Hs & <-)]. split; [done|]. exists s. split; [done|].
    apply list_elem_of_omap. exists (Str s). split; [|done].
    by apply list_elem_of_filter.
Qed.

Lemma infer_found df col rest v :
  Spec.sole_name df col v → infer_from df (col :: rest) = Some v.
Proof.
  intros (Hcol & Htext & (s & Hs & Hv) & Hne & Hall). simpl.
  rewrite bool_decide_eq_true_2 by done. cbn [negb].
  rewrite bool_decide_eq_false_2.
  2:{ intros Hnil. assert (Str s ∈ Series.dropna (Frame.column col df)) as Hin
        by (by apply list_elem_of_filter).
      rewrite Hnil in Hin. by apply elem_of_nil in Hin. }
  rewrite (proj2 (is_string_dtype_Forall _)).
  2:{ rewrite Forall_forall. intros c Hc.
      apply list_elem_of_filter in Hc as [Hna Hc].
      by destruct (Htext c Hc). }
  cbn [negb].
  rewrite (proj2 (unique_singleton _ v)); [done|].
  split.
  - apply elem_of_names. split; [done|]. by exists s.
  - intros x Hx. apply elem_of_names in Hx as [Hx (s' & Hs' & <-)].
    by destruct (Hall s' Hs').
Qed.

Lemma infer_skip df col rest :
  (∀ u, ¬ Spec.sole_name df col u) →
  infer_from df (col :: rest) = infer_from df rest.
Proof.
  intros Hnone. simpl.
  case_bool_decide as Hcol; cbn [negb]; [|done].
  case_bool_decide as Hnil; [done|].
  destruct (Series.is_string_dtype _) eqn:Htext; cbn [negb]; [|done].
  destruct (Series.unique _) as [|u [|u' t]] eqn:Hu; try done.
  exfalso. apply (Hnone u).
  apply unique_singleton in Hu as [Hin Hall].
  apply elem_of_names in Hin as [Hne (s & Hs & Hv)].
  apply is_string_dtype_Forall in Htext. rewrite Forall_forall in Htext.
  split_and!; try done.
  - intros c Hc. destruct (decide (c = NA)) as [|Hna]; [by left|right].
    apply Htext. by apply list_elem_of_filter.
  - by exists s.
  - intros s' Hs'. destruct (decide (Text.strip s' = "")) as [|Hne']; [by left|].
    right. apply Hall. apply elem_of_names. split; [done|]. by exists s'.
Qed.

Lemma infer_from_first df pre col post v :
  (∀ c u, c ∈ pre → ¬ Spec.sole_name df c u) →
  Spec.sole_name df col v →
  infer_from df (pre ++ col :: post) = Some v.
Proof.
  intros Hpre Hsole. induction pre as [|c pre IH].
  - by apply infer_found.
  - rewrite <- app_comm_cons, infer_skip.
    + apply IH. intros c' u Hc'. apply Hpre. by right.
    + intros u. apply Hpre. left.
Qed.

Lemma infer_from_none df cols :
  (∀ c u, c ∈ cols → ¬ Spec.sole_name df c u) → infer_from df cols = None.
Proof.
  intros Hnone. induction cols as [|c cols IH]; [done|].
  rewrite infer_skip.
  - apply IH. intros c' u Hc'. apply Hnone. by right.
  - intros u. apply Hnone. left.
Qed.

End Inference.

(** ** The numbers that are added up *)

Section Summands.

Implicit Types (rs : list (gmap string cell)) (r : gmap string cell).

Lemma elem_of_amounts name rs q :
  q ∈ Spec.amounts name rs ↔ ∃ r, r ∈ rs ∧ r !! name = Some (Num q).
Proof.
  unfold Spec.amounts. rewrite list_elem_of_omap. split.
  - intros (r & Hr & Hq). exists r. split; [done|].
    unfold Spec.amount, Spec.field in Hq.
    destruct (r !! name) as [[]|]; simpl in Hq; congruence.
  - intros (r & Hr & Hq). exists r. split; [done|].
    unfold Spec.amount, Spec.field. by rewrite Hq.
Qed.

Lemma amounts_cons name r rs :
  Spec.amounts name (r :: rs)
  = match Spec.amount name r with
    | Some q => q :: Spec.amounts name rs
    | None => Spec.amounts name rs
    end.
Proof. done. Qed.

Lemma payable_amount r :
  Spec.payable r
  = match Spec.amount "Balance" r with
    | Some q => bool_decide (0 < q)%Qc
    | None => false
    end.
Proof. unfold Spec.payable, Spec.amount. by destruct (Spec.field "Balance" r). Qed.

Lemma amounts_payable rs :
  Spec.amounts "Balance" (filter (λ r, Spec.payable r = true) rs)
  = filter (λ q, (0 < q)%Qc) (Spec.amounts "Balance" rs).
Proof.
  induction rs as [|r rs IH]; [done|].
  rewrite filter_cons, amounts_cons.
  pose proof (payable_amount r) as Hpay.
  destruct (Spec.amount "Balance" r) as [q|] eqn:Hq.
  - rewrite filter_cons. destruct (decide (0 < q)%Qc) as [Hpos|Hpos].
    + rewrite decide_True by (rewrite Hpay; by apply bool_decide_eq_true).
      by rewrite amounts_cons, Hq, IH.
    + rewrite decide_False; [done|].
      rewrite Hpay. by rewrite bool_decide_eq_true.
  - rewrite decide_False; [done|]. by rewrite Hpay.
Qed.

End Summands.

(** ** The claims *)

(** C3. For a date, the fiscal-year label is [FY<start>-<(start+1) mod 100,
    two digits>], where [start] is the calendar year from April on and the
    calendar year minus one before April; the start year read back from the
    label of a [pd.Timestamp] is that [start]; 2025-03-31 is in FY2024-25
    and 2025-04-01 in FY2025-26; for an absent date there is no label. *)
Theorem fy_label_classifies :
  fy_label None = None
  ∧ (∀ d, let start := if 4 <=? month d then year d else year d - 1 in
          fy_label (Some d)
          = Some ("FY" +:+ Text.py_str start +:+ "-"
                    +:+ Text.fmt_0d 2 ((start + 1) mod 100)))
  ∧ (∀ d k, Time.in_bounds d → fy_label (Some d) = Some k →
            Groupby.extract_start_year k
            = Ok (if 4 <=? month d then year d else year d - 1))
  ∧ fy_label (Some (mkTimestamp 2025 3 31 0)) = Some "FY2024-25"
  ∧ fy_label (Some (mkTimestamp 2025 4 1 0)) = Some "FY2025-26".
Proof.
  split_and!; try done.
  intros d k Hb Hk. by apply (fy_label_year d k).
Qed.

Lemma fy_label_classifies_witness :
  Groupby.extract_start_year "FY2024-25" = Ok 2024.
Proof.
  apply (proj1 (proj2 (proj2 fy_label_classifies)) (mkTimestamp 2025 3 31 0)).
  - unfold Time.in_bounds; simpl; lia.
  - reflexivity.
Defined.

(** C6. Customer-name inference looks at Billing Name, Customer Name and
    Customer in that order.  It returns the value of the first candidate
    column that is present, holds only text besides missing values, and
    whose trimmed non-empty values are all one and the same value; a
    candidate that is absent, not textual, or has no or several distinct
    such values is passed over; when no candidate qualifies the result is
    [None]. *)
Theorem customer_name_inference df :
  candidate_columns = ["Billing Name"; "Customer Name"; "Customer"]
  ∧ (∀ pre col post v,
       candidate_columns = (pre ++ col :: post)%list →
       (∀ c u, c ∈ pre → ¬ Spec.sole_name df c u) →
       Spec.sole_name df col v →
       infer_customer_name df = Some v)
  ∧ ((∀ c u, c ∈ candidate_columns → ¬ Spec.sole_name df c u) →
     infer_customer_name df = None).
Proof.
  split_and!; [done|..].
  - intros pre col post v Hsplit Hpre Hsole. unfold infer_customer_name.
    rewrite Hsplit. by apply infer_from_first.
  - apply infer_from_none.
Qed.

Lemma customer_name_inference_witness :
  infer_customer_name Example.named = Some "Acme".
Proof.
  apply (proj1 (proj2 (customer_name_inference Example.named))
           ["Billing Name"] "Customer Name" ["Customer"] "Acme").
  - reflexivity.
  - intros c u Hc (_ & _ & _ & _ & Hall).
    apply list_elem_of_singleton in Hc as ->.
    assert (Text.strip "Acme North" = "" ∨ Text.strip "Acme North" = u) as H1
      by (apply Hall; vm_compute; left).
    assert (Text.strip "Acme South" = "" ∨ Text.strip "Acme South" = u) as H2
      by (apply Hall; vm_compute; right; left).
    vm_compute in H1, H2.
    destruct H1 as [H1|H1]; [discriminate H1|].
    destruct H2 as [H2|H2]; [discriminate H2|].
    rewrite <- H1 in H2. discriminate H2.
  - split_and!.
    + vm_compute. right. left.
    + intros c Hc. vm_compute in Hc.
      repeat (apply elem_of_cons in Hc as [->|Hc]; [eauto|]).
      by apply elem_of_nil in Hc.
    + exists "Acme". split; [vm_compute; do 2 right; left|reflexivity].
    + discriminate.
    + intros s Hs. vm_compute in Hs.
      repeat (apply elem_of_cons in Hs as [Hs|Hs];
              [first [discriminate Hs | injection Hs as ->; right; reflexivity]|]).
      by apply elem_of_nil in Hs.
Defined.

Section Claims.

Context {sums : Sums}.
Variable to_datetime : list cell → list (option Timestamp).

(** C8. Neither builder changes the caller's dataset: whatever the table,
    the customer name and the as-of date, and whether the builder returns
    or raises, every frame of the heap it was called on, the caller's
    included, is afterwards as it was; nothing is written or printed. *)
Theorem builders_leave_dataset_unchanged l df customer as_of w :
  heap w !! l = Some df →
  let after_balance :=
    (Balance.build_balance_report to_datetime l customer as_of w).2 in
  let after_billing :=
    (Billing.build_report to_datetime l customer as_of w).2 in
  (heap after_balance !! l = Some df ∧ extends w after_balance)
  ∧ (heap after_billing !! l = Some df ∧ extends w after_billing).
Proof.
  intros Hl.
  destruct (Balance_report_run to_datetime l df customer as_of w Hl)
    as (w1 & -> & Hext1).
  destruct (Billing_report_run to_datetime l df customer as_of w Hl)
    as (w2 & -> & Hext2).
  simpl. split; (split; [|done]).
  - destruct Hext1 as [Hsub _]. by eapply lookup_weaken.
  - destruct Hext2 as [Hsub _]. by eapply lookup_weaken.
Qed.

(** C2. For a table with the five required columns, the billing report's
    outstanding balance is [sum] of the [Balance] column over all rows,
    truncated to an integer: every number in the column is among the
    numbers added up, whatever its sign, and the truncated sum is the line
    printed under "4) Current outstanding balance". *)
Theorem billing_outstanding_sums_all_rows l df customer as_of w :
  heap w !! l = Some df →
  Spec.billing_table to_datetime df →
  ∃ st w',
    Billing.stats to_datetime l as_of w = (Ok st, w')
    ∧ Billing.build_report to_datetime l customer as_of w
      = (Ok (Text.join Text.newline (Billing.render customer as_of st)), w')
    ∧ Billing.outstanding_balance st
      = Series.py_int (Spec.total "Balance" (rows df))
    ∧ (∃ before after : list string,
         Billing.render customer as_of st
         = (before
            ++ ["4) Current outstanding balance";
                "   Rs " +:+ Text.fmt_comma
                               (Series.py_int (Spec.total "Balance" (rows df)))]
            ++ after)%list)
    ∧ Spec.total "Balance" (rows df)
      = series_sum (Spec.amounts "Balance" (rows df))
    ∧ (∀ q, q ∈ Spec.amounts "Balance" (rows df)
            ↔ ∃ r, r ∈ rows df ∧ r !! "Balance" = Some (Num q)).
Proof.
  intros Hl Htable.
  destruct (Billing_run_spec to_datetime l df customer as_of w Hl Htable)
    as (w' & Hstats & Hreport & _).
  eexists _, w'. split_and!; [exact Hstats|exact Hreport|reflexivity| |done|].
  - apply render_outstanding.
  - intros q. apply elem_of_amounts.
Qed.

(** C4. When the table lacks some of the five required columns, both
    billing flows raise an error whose message lists exactly the missing
    columns, in alphabetical order and separated by ", "; no file has been
    written and nothing printed at that point. *)
Theorem billing_flow_missing_columns input_path table entered args_customer
    as_of args_output w :
  Spec.missing_columns table ≠ [] →
  let message := "Input missing required columns: "
                   +:+ Text.join ", " (Spec.missing_columns table) in
  (∃ w', Flow.run_billing_summary to_datetime input_path table entered as_of w
         = (Raise (ValueError message), w')
         ∧ files w' = files w ∧ console w' = console w)
  ∧ (∃ w', Flow.main to_datetime input_path table args_customer as_of
             args_output w
           = (Raise (ValueError message), w')
           ∧ files w' = files w ∧ console w' = console w)
  ∧ (∀ c, c ∈ Spec.missing_columns table
          ↔ c ∈ Flow.required_columns ∧ c ∉ columns table)
  ∧ StronglySorted Text.str_le (Spec.missing_columns table)
  ∧ NoDup (Spec.missing_columns table).
Proof.
  intros Hmiss message.
  set (w1 := set_heap (<[fresh (dom (heap w)) := table]> (heap w)) w).
  assert (Flow.check_columns (fresh (dom (heap w))) w1
          = (Raise (ValueError message), w1)) as Hcheck.
  { apply check_columns_missing; [|done]. apply lookup_insert_eq. }
  split_and!.
  - exists w1. split; [|done].
    unfold Flow.run_billing_summary, mbind, M_bind, Df.new. fold w1.
    by rewrite Hcheck.
  - exists w1. split; [|done].
    unfold Flow.main, mbind, M_bind, Df.new. fold w1.
    by rewrite Hcheck.
  - intros c. unfold Spec.missing_columns, Spec.required_sorted,
      Flow.required_columns.
    rewrite list_elem_of_filter, !elem_of_union, !elem_of_singleton,
      !elem_of_cons, elem_of_nil. tauto.
  - apply StronglySorted_filter, required_sorted_sorted.
  - apply NoDup_filter. apply (bool_decide_unpack _). by vm_compute.
Qed.

(** C5. The fiscal-year lines of section 2 are the rows of the fiscal-year
    table in order, and that table is in ascending order of the start year
    read from the label as a number: of two groups, the one with the
    smaller start year comes first.  Each start year is the four-digit
    number in the label, it is the fiscal start year of the dates of the
    group, and no two groups share it. *)
Theorem fy_lines_ascending l df customer as_of w :
  heap w !! l = Some df →
  Spec.billing_table to_datetime df →
  ∃ st w',
    Billing.stats to_datetime l as_of w = (Ok st, w')
    ∧ Billing.build_report to_datetime l customer as_of w
      = (Ok (Text.join Text.newline (Billing.render customer as_of st)), w')
    ∧ (∃ before after : list string,
         Billing.render customer as_of st
         = (before
            ++ ("2) Billing by financial year (April–March)"
                :: (Billing.fy_line <$> Billing.fy_breakdown st)
                ++ Billing.undated_lines (Billing.undated_value st)
                     (Billing.undated_count st))
            ++ after)%list)
    ∧ (∀ i j ri rj,
         Billing.fy_breakdown st !! i = Some ri →
         Billing.fy_breakdown st !! j = Some rj →
         start_year ri < start_year rj → (i < j)%nat)
    ∧ Forall (λ r,
                Groupby.extract_start_year (FY (fy_group r)) = Ok (start_year r)
                ∧ ∃ p, p ∈ Spec.with_date to_datetime df
                       ∧ fy_label (Some p.2) = Some (FY (fy_group r))
                       ∧ start_year r
                         = (if 4 <=? month p.2 then year p.2 else year p.2 - 1))
        (Billing.fy_breakdown st)
    ∧ NoDup (start_year <$> Billing.fy_breakdown st).
Proof.
  intros Hl Htable.
  destruct (Billing_run_spec to_datetime l df customer as_of w Hl Htable)
    as (w' & Hstats & Hreport & _).
  eexists _, w'. split_and!; [exact Hstats|exact Hreport|..].
  - destruct (render_sections customer as_of (Spec.billing to_datetime df as_of))
      as (after & Hrender).
    rewrite Hrender.
    lazymatch goal with
    | |- ∃ _ _, (?A ++ ?B ++ ?C ++ ?D ++ ?E)%list = _ =>
        exists (A ++ B ++ C)%list, E
    end.
    by rewrite <- !app_assoc.
  - intros i j ri rj. apply sort_values_ascending.
  - rewrite Forall_forall. intros r Hr.
    destruct (fy_breakdown_row to_datetime df as_of r Htable Hr)
      as (p & Hp & Hlabel & _ & Hyear & Hread).
    split; [done|]. by exists p.
  - by apply fy_breakdown_years_NoDup.
Qed.

(** C9 (as amended). For a table with the five required columns, section 1
    of the billing report is the heading, the "Total invoiced" line and,
    exactly when at least one invoice date could be read, the "First
    invoice date" line with the earliest such date; when no date could be
    read, section 1 has no "First invoice date" line. *)
Theorem first_invoice_line_when_dated l df customer as_of w :
  heap w !! l = Some df →
  Spec.billing_table to_datetime df →
  ∃ st w',
    Billing.stats to_datetime l as_of w = (Ok st, w')
    ∧ Billing.build_report to_datetime l customer as_of w
      = (Ok (Text.join Text.newline (Billing.render customer as_of st)), w')
    ∧ (∃ heading after : list string,
         Billing.render customer as_of st
         = (heading
            ++ (["1) Lifetime billing";
                 "   Total invoiced: Rs "
                   +:+ Text.fmt_comma
                         (Series.py_int (Spec.total "Inv Value" (rows df)))]
                ++ match Billing.first_invoice st with
                   | Some d => ["   First invoice date: " +:+ Time.strftime_dbY d]
                   | None => []
                   end)
            ++ [""]
            ++ "2) Billing by financial year (April–March)" :: after)%list)
    ∧ (Billing.first_invoice st = None
       ↔ ∀ t, Some t ∉ Spec.row_dates to_datetime df)
    ∧ (∀ d, Billing.first_invoice st = Some d →
            Some d ∈ Spec.row_dates to_datetime df
            ∧ ∀ t, Some t ∈ Spec.row_dates to_datetime df → Time.leb d t = true).
Proof.
  intros Hl Htable.
  destruct (Billing_run_spec to_datetime l df customer as_of w Hl Htable)
    as (w' & Hstats & Hreport & _).
  eexists _, w'. split_and!; [exact Hstats|exact Hreport|..].
  - destruct (render_sections customer as_of (Spec.billing to_datetime df as_of))
      as (after & Hrender).
    rewrite Hrender.
    lazymatch goal with
    | |- ∃ _ _, (?A ++ ?B ++ ?C ++ (_ :: ?D) ++ ?E)%list = _ =>
        exists A, (D ++ E)%list
    end.
    reflexivity.
  - apply earliest_None.
  - apply earliest_Some.
Qed.

(** C1. For a table with a numeric Balance column, the balance report's
    total payable, order count and unpaid date range are computed over the
    payable rows only, the rows whose Balance is a number strictly greater
    than 0: a row whose Balance is missing, zero or negative is not among
    them.  The total payable is [sum] of the Balance column of exactly
    those rows: the numbers added up are the strictly positive balances,
    in row order, and no others; the total printed is that sum truncated
    to an integer. *)
Theorem balance_report_counts_payable_rows l df customer as_of w :
  heap w !! l = Some df →
  Spec.balance_table df →
  let payable := filter (λ r, Spec.payable r = true) (rows df) in
  (∀ r, r ∈ payable
        ↔ r ∈ rows df ∧ ∃ q, r !! "Balance" = Some (Num q) ∧ (0 < q)%Qc)
  ∧ (Spec.payable_rows to_datetime df).*1 = payable
  ∧ ∃ st w',
      Balance.stats to_datetime l w = (Ok st, w')
      ∧ Balance.build_balance_report to_datetime l customer as_of w
        = (Ok (Text.join Text.newline (Balance.render customer as_of st)), w')
      ∧ Balance.balance_total st = Spec.total "Balance" payable
      ∧ Spec.total "Balance" payable
        = series_sum
            (filter (λ q, (0 < q)%Qc) (Spec.amounts "Balance" (rows df)))
      ∧ Balance.order_count st
        = (if bool_decide ("Order No" ∈ columns df)
           then Series.nunique (Spec.field "Order No" <$> payable)
           else length payable)
      ∧ Balance.min_date st
        = Spec.earliest (Spec.payable_rows to_datetime df).*2
      ∧ Balance.max_date st
        = Spec.latest (Spec.payable_rows to_datetime df).*2
      ∧ "1) Total balance payable as of today: Rs "
          +:+ Text.fmt_comma (Series.py_int (Spec.total "Balance" payable))
        ∈ Balance.render customer as_of st.
Proof.
  intros Hl Htable payable.
  destruct (Balance_run_spec to_datetime l df customer as_of w Hl Htable)
    as (w' & Hstats & Hreport & _).
  pose proof (payable_rows_fst to_datetime df) as Hfst. fold payable in Hfst.
  split_and!.
  - intros r. unfold payable. rewrite list_elem_of_filter, payable_iff. tauto.
  - done.
  - eexists _, w'.
    split_and!; [exact Hstats|exact Hreport|..]; unfold Spec.balance;
      cbn [Balance.balance_total Balance.order_count Balance.min_date
             Balance.max_date].
    + by rewrite Hfst.
    + unfold Spec.total, payable. by rewrite amounts_payable.
    + case_bool_decide; [by rewrite Hfst|by rewrite <- Hfst, length_fmap].
    + done.
    + done.
    + unfold Balance.render. cbn [Balance.balance_total].
      rewrite Hfst. do 2 right. left.
Qed.

(** C7. A row whose invoice date cannot be read stays in the table with an
    absent date.  In the billing report it is left out of the fiscal-year
    groups, of the current-calendar-year slice and of the first invoice
    date, and is counted in the "Not dated" bucket; its Inv Value and
    Balance are still among the numbers that [sum] adds up for the
    lifetime total and the outstanding balance, which are sums over all
    rows.  In the balance report the payable total and the order count do
    not depend on the dates; only the date range does. *)
Theorem unparseable_dates_degrade l df customer as_of w :
  heap w !! l = Some df →
  Spec.billing_table to_datetime df →
  let dated := Spec.with_date to_datetime df in
  let undated := Spec.without_date to_datetime df in
  let payable := filter (λ r, Spec.payable r = true) (rows df) in
  length (rows df) = (length dated + length undated)%nat
  ∧ (∃ st w',
       Billing.stats to_datetime l as_of w = (Ok st, w')
       ∧ Billing.build_report to_datetime l customer as_of w
         = (Ok (Text.join Text.newline (Billing.render customer as_of st)), w')
       ∧ Billing.lifetime_billing st
         = Series.py_int (Spec.total "Inv Value" (rows df))
       ∧ Billing.outstanding_balance st
         = Series.py_int (Spec.total "Balance" (rows df))
       ∧ (∀ name r q, r ∈ undated → r !! name = Some (Num q) →
                      q ∈ Spec.amounts name (rows df))
       ∧ (Billing.first_invoice st = None ↔ dated = [])
       ∧ (∀ t, Billing.first_invoice st = Some t →
               t ∈ dated.*2 ∧ ∀ t', t' ∈ dated.*2 → Time.leb t t' = true)
       ∧ Forall (λ r,
                   let members :=
                     filter (λ p, fy_label (Some p.2) = Some (FY (fy_group r)))
                       dated in
                   total_value (fy_group r)
                   = Spec.group_total "Inv Value" members.*1
                   ∧ invoice_count (fy_group r) = length members)
           (Billing.fy_breakdown st)
       ∧ sum_list ((λ r, invoice_count (fy_group r)) <$> Billing.fy_breakdown st)
         = length dated
       ∧ Billing.cy_count st
         = length (filter (λ p, year p.2 = year as_of) dated)
       ∧ Billing.cy_value st
         = Series.py_int
             (Spec.total "Inv Value"
                (filter (λ p, year p.2 = year as_of) dated).*1)
       ∧ Billing.undated_count st = length undated
       ∧ Billing.undated_value st
         = Series.py_int (Spec.total "Inv Value" undated)
       ∧ Billing.undated_lines (Billing.undated_value st)
           (Billing.undated_count st)
         = match undated with
           | [] => []
           | _ :: _ =>
               ["   Not dated: Rs "
                  +:+ Text.fmt_comma
                        (Series.py_int (Spec.total "Inv Value" undated))
                  +:+ " across " +:+ Text.py_str (Z.of_nat (length undated))
                  +:+ " entry"]
           end)
  ∧ (∃ st w',
       Balance.stats to_datetime l w = (Ok st, w')
       ∧ Balance.balance_total st = Spec.total "Balance" payable
       ∧ Balance.order_count st
         = (if bool_decide ("Order No" ∈ columns df)
            then Series.nunique (Spec.field "Order No" <$> payable)
            else length payable)
       ∧ Balance.min_date st
         = Spec.earliest (Spec.payable_rows to_datetime df).*2
       ∧ Balance.max_date st
         = Spec.latest (Spec.payable_rows to_datetime df).*2).
Proof.
  intros Hl Htable dated undated payable.
  destruct (Billing_run_spec to_datetime l df customer as_of w Hl Htable)
    as (w1 & Hstats1 & Hreport1 & _).
  destruct (Balance_run_spec to_datetime l df customer as_of w Hl
              (billing_table_balance to_datetime df Htable))
    as (w2 & Hstats2 & _).
  pose proof (payable_rows_fst to_datetime df) as Hfst. fold payable in Hfst.
  split_and!.
  - unfold dated, undated, Spec.with_date, Spec.without_date.
    rewrite length_fmap, <- dated_partition.
    by rewrite <- (dated_fst to_datetime df), length_fmap.
  - eexists _, w1. split_and!; [exact Hstats1|exact Hreport1|..]; simpl.
    + done.
    + done.
    + intros name r q Hr Hq. apply elem_of_amounts. exists r. split; [|done].
      unfold undated, Spec.without_date in Hr.
      apply list_elem_of_fmap in Hr as (p & -> & Hp).
      apply list_elem_of_filter in Hp as [_ Hp].
      rewrite <- (dated_fst to_datetime df). by apply list_elem_of_fmap_2.
    + rewrite earliest_None. symmetry. apply with_date_nil.
    + intros t Ht. apply earliest_Some in Ht as [Hin Hmin].
      split; [by apply with_date_dates|].
      intros t' Ht'. apply Hmin. by apply with_date_dates.
    + rewrite Forall_forall. intros r Hr.
      destruct (fy_breakdown_row to_datetime df as_of r Htable Hr)
        as (_ & _ & _ & -> & _). done.
    + unfold Groupby.sort_values. rewrite merge_sort_Permutation.
      rewrite <- list_fmap_compose. unfold Text.sorted.
      rewrite merge_sort_Permutation.
      transitivity
        (sum_list
           ((λ k, length (filter (λ q, fy_label (Some q.2) = k) dated))
              <$> (Some <$> Series.unique (Spec.labels to_datetime df)))).
      { f_equal. by rewrite <- list_fmap_compose. }
      apply count_by_key.
      * apply (NoDup_fmap_2 Some), NoDup_unique.
      * intros q Hq. destruct (fy_label (Some q.2)) as [k|] eqn:Hk; [|done].
        apply list_elem_of_fmap_2, elem_of_unique, list_elem_of_omap.
        by exists q.
    + done.
    + done.
    + done.
    + done.
    + unfold Billing.undated_lines.
      fold undated. destruct undated; [done|].
      by rewrite bool_decide_eq_true_2.
  - eexists _, w2. split; [exact Hstats2|]. unfold Spec.balance;
      cbn [Balance.balance_total Balance.order_count Balance.min_date
             Balance.max_date].
    split_and!; try done.
    + by rewrite Hfst.
    + case_bool_decide; [by rewrite Hfst|by rewrite <- Hfst, length_fmap].
Qed.

(** C10 (as amended). In the balance report of a table with a numeric
    Balance column, the earliest and the latest invoice date of the payable
    rows are both present or both absent, so the date range is either
    "From <date> to <date>" with two dates or "No unpaid invoices found.",
    never with the "N/A" placeholder; the text "N/A" occurs in the report
    only if it occurs in the customer name. *)
Theorem balance_date_range_endpoints l df customer as_of w :
  heap w !! l = Some df →
  Spec.balance_table df →
  ∃ st w',
    Balance.stats to_datetime l w = (Ok st, w')
    ∧ Balance.build_balance_report to_datetime l customer as_of w
      = (Ok (Text.join Text.newline (Balance.render customer as_of st)), w')
    ∧ (is_Some (Balance.min_date st) ↔ is_Some (Balance.max_date st))
    ∧ ((Balance.min_date st = None ∧ Balance.max_date st = None
        ∧ Balance.date_range_lines (Balance.min_date st) (Balance.max_date st)
          = ["3) Unpaid invoice date range"; "   No unpaid invoices found."])
       ∨ (∃ d1 d2,
            Balance.min_date st = Some d1 ∧ Balance.max_date st = Some d2
            ∧ Balance.date_range_lines (Balance.min_date st) (Balance.max_date st)
              = ["3) Unpaid invoice date range";
                 "   From " +:+ Time.strftime_dbY d1 +:+ " to "
                   +:+ Time.strftime_dbY d2]))
    ∧ (Text.contains
         (Text.join Text.newline (Balance.render customer as_of st)) "N/A" = true →
       Text.contains customer "N/A" = true).
Proof.
  intros Hl Htable.
  destruct (Balance_run_spec to_datetime l df customer as_of w Hl Htable)
    as (w' & Hstats & Hreport & _).
  assert (is_Some (Balance.min_date (Spec.balance to_datetime df))
          ↔ is_Some (Balance.max_date (Spec.balance to_datetime df))) as Hboth
    by apply earliest_latest.
  eexists _, w'. split_and!; [exact Hstats|exact Hreport|exact Hboth| |].
  - destruct (Balance.min_date _) as [d1|] eqn:Hmin,
             (Balance.max_date _) as [d2|] eqn:Hmax.
    + right. by exists d1, d2.
    + exfalso. destruct Hboth as [H _]. destruct H; eauto. done.
    + exfalso. destruct Hboth as [_ H]. destruct H; eauto. done.
    + by left.
  - by apply balance_report_NA.
Qed.

End Claims.

(** ** The claims on the sample tables

    The sample tables hold whole numbers, so the sums are the exact ones. *)

Section ClaimsOnSamples.

#[local] Existing Instance whole_sums.

Lemma sample_tables_whole :
  Forall (λ df, Example.whole_numbers df = true)
    [Example.balances; Example.invoices; Example.credit; Example.undated;
     Example.incomplete; Example.named].
Proof. repeat constructor; by vm_compute. Qed.

Lemma billing_flow_missing_columns_witness :
  ∃ w', Flow.run_billing_summary iso_to_datetime Example.input_path
          Example.incomplete "" Example.as_of (mkWorld ∅ [] [])
        = (Raise (ValueError
                    "Input missing required columns: Inv Value, Order No"), w')
        ∧ files w' = [] ∧ console w' = [].
Proof.
  refine (proj1 (billing_flow_missing_columns iso_to_datetime Example.input_path
                   Example.incomplete "" "Customer" Example.as_of None
                   (mkWorld ∅ [] []) _)).
  by vm_compute.
Defined.

Lemma builders_leave_dataset_unchanged_witness :
  heap (Balance.build_balance_report iso_to_datetime 1 "Acme" Example.as_of
          (Example.world Example.balances)).2 !! 1%positive
  = Some Example.balances
  ∧ heap (Billing.build_report iso_to_datetime 1 "Acme" Example.as_of
            (Example.world Example.balances)).2 !! 1%positive
    = Some Example.balances.
Proof.
  pose proof (builders_leave_dataset_unchanged iso_to_datetime 1
                Example.balances "Acme" Example.as_of
                (Example.world Example.balances) eq_refl) as [[H1 _] [H2 _]].
  exact (conj H1 H2).
Defined.

Lemma billing_outstanding_sums_all_rows_witness :
  ∃ st w',
    Billing.stats iso_to_datetime 1 Example.as_of (Example.world Example.credit)
    = (Ok st, w')
    ∧ Billing.outstanding_balance st = 60.
Proof.
  destruct (billing_outstanding_sums_all_rows iso_to_datetime 1 Example.credit
              "Acme" Example.as_of (Example.world Example.credit) eq_refl)
    as (st & w' & Hstats & _ & Hout & _).
  { apply (bool_decide_unpack _). by vm_compute. }
  exists st, w'. split; [exact Hstats|]. rewrite Hout. reflexivity.
Defined.

Lemma fy_lines_ascending_witness :
  ∃ st w',
    Billing.stats iso_to_datetime 1 Example.as_of (Example.world Example.invoices)
    = (Ok st, w')
    ∧ (λ r, FY (fy_group r)) <$> Billing.fy_breakdown st
      = ["FY2009-10"; "FY2024-25"; "FY2025-26"].
Proof.
  destruct (fy_lines_ascending iso_to_datetime 1 Example.invoices "Acme"
              Example.as_of (Example.world Example.invoices) eq_refl)
    as (st & w' & Hstats & _).
  { apply (bool_decide_unpack _). by vm_compute. }
  exists st, w'. split; [exact Hstats|].
  apply (f_equal fst) in Hstats. vm_compute in Hstats.
  injection Hstats as <-. reflexivity.
Defined.

Lemma first_invoice_line_when_dated_witness :
  ∃ st w',
    Billing.stats iso_to_datetime 1 Example.as_of (Example.world Example.invoices)
    = (Ok st, w')
    ∧ Billing.first_invoice st = Some (mkTimestamp 2010 1 5 0).
Proof.
  destruct (first_invoice_line_when_dated iso_to_datetime 1 Example.invoices
              "Acme" Example.as_of (Example.world Example.invoices) eq_refl)
    as (st & w' & Hstats & _).
  { apply (bool_decide_unpack _). by vm_compute. }
  exists st, w'. split; [exact Hstats|].
  apply (f_equal fst) in Hstats. vm_compute in Hstats.
  injection Hstats as <-. reflexivity.
Defined.

(** C9 as stated fails: a table with the five required columns whose only
    invoice date cannot be read gets a report without any "First invoice
    date" line. *)
Lemma first_invoice_line_may_be_absent :
  Spec.billing_table iso_to_datetime Example.undated
  ∧ ∃ st w',
      Billing.stats iso_to_datetime 1 Example.as_of (Example.world Example.undated)
      = (Ok st, w')
      ∧ Billing.build_report iso_to_datetime 1 "Acme" Example.as_of
          (Example.world Example.undated)
        = (Ok (Text.join Text.newline (Billing.render "Acme" Example.as_of st)), w')
      ∧ ¬ ∃ d, "   First invoice date: " +:+ d
               ∈ Billing.render "Acme" Example.as_of st.
Proof.
  split; [apply (bool_decide_unpack _); by vm_compute|].
  eexists _, _. split_and!.
  - vm_compute. reflexivity.
  - vm_compute. reflexivity.
  - intros [d Hd]. vm_compute in Hd.
    repeat (apply elem_of_cons in Hd as [Hd|Hd]; [discriminate Hd|]).
    by apply elem_of_nil in Hd.
Qed.

Lemma balance_report_counts_payable_rows_witness :
  ∃ st w',
    Balance.stats iso_to_datetime 1 (Example.world Example.balances) = (Ok st, w')
    ∧ Series.py_int (Balance.balance_total st) = 500
    ∧ Balance.order_count st = 1%nat
    ∧ Balance.min_date st = Some (mkTimestamp 2025 1 10 0)
    ∧ Balance.max_date st = Some (mkTimestamp 2025 1 10 0).
Proof.
  destruct (balance_report_counts_payable_rows iso_to_datetime 1 Example.balances
              "Acme" Example.as_of (Example.world Example.balances) eq_refl)
    as (_ & _ & st & w' & Hstats & _).
  { apply (bool_decide_unpack _). by vm_compute. }
  exists st, w'. split; [exact Hstats|].
  apply (f_equal fst) in Hstats. vm_compute in Hstats.
  injection Hstats as <-. by vm_compute.
Defined.

Lemma unparseable_dates_degrade_witness :
  ∃ st w',
    Billing.stats iso_to_datetime 1 Example.as_of (Example.world Example.invoices)
    = (Ok st, w')
    ∧ Billing.undated_count st = 1%nat
    ∧ Billing.undated_value st = 70000
    ∧ Billing.lifetime_billing st = 73501.
Proof.
  destruct (unparseable_dates_degrade iso_to_datetime 1 Example.invoices
              "Acme" Example.as_of (Example.world Example.invoices) eq_refl)
    as (_ & (st & w' & Hstats & _) & _).
  { apply (bool_decide_unpack _). by vm_compute. }
  exists st, w'. split; [exact Hstats|].
  apply (f_equal fst) in Hstats. vm_compute in Hstats.
  injection Hstats as <-. by vm_compute.
Defined.

Lemma balance_date_range_endpoints_witness :
  ∃ st w',
    Balance.stats iso_to_datetime 1 (Example.world Example.balances) = (Ok st, w')
    ∧ Text.contains
        (Text.join Text.newline (Balance.render "Acme" Example.as_of st)) "N/A"
      = false.
Proof.
  destruct (balance_date_range_endpoints iso_to_datetime 1 Example.balances
              "Acme" Example.as_of (Example.world Example.balances) eq_refl)
    as (st & w' & Hstats & _ & _ & _ & Hna).
  { apply (bool_decide_unpack _). by vm_compute. }
  exists st, w'. split; [exact Hstats|].
  destruct (Text.contains _ "N/A") eqn:Hc; [|done].
  specialize (Hna eq_refl). vm_compute in Hna. discriminate Hna.
Defined.

(** C10 as stated fails: for the customer name "N/A" the report contains
    "N/A", in its title line. *)
Lemma balance_report_may_contain_NA :
  Spec.balance_table Example.balances
  ∧ ∃ report w',
      Balance.build_balance_report iso_to_datetime 1 "N/A" Example.as_of
        (Example.world Example.balances)
      = (Ok report, w')
      ∧ Text.contains report "N/A" = true.
Proof.
  split; [apply (bool_decide_unpack _); by vm_compute|].
  eexists _, _. split.
  - vm_compute. reflexivity.
  - vm_compute. reflexivity.
Qed.

End ClaimsOnSamples.

(** ** Output paths *)

Section Paths.













End Paths.

(** ** Further properties of the flows and the builders *)

Section FlowRuns.

Context {sums : Sums}.
Variable to_datetime : list cell → list (option Timestamp).



Lemma check_balance_missing l df w :
  heap w !! l = Some df → "Balance" ∉ columns df →
  Cli.check_balance l w
  = (Raise (ValueError "Input missing required column: Balance"), w).
Proof.
  intros Hl Hin. unfold Cli.check_balance, Df.columns, Df.read.
  unfold mbind, M_bind, fmap, M_fmap. rewrite Hl.
  by rewrite bool_decide_eq_false_2.
Qed.


Lemma billing_flow_missing_columns_aux input_path table entered as_of w :
  Spec.missing_columns table ≠ [] →
  ∃ w', Flow.run_billing_summary to_datetime input_path table entered as_of w
        = (Raise (ValueError ("Input missing required columns: "
                                +:+ Text.join ", " (Spec.missing_columns table))),
           w')
        ∧ files w' = files w ∧ console w' = console w.
Proof.
  intros Hmiss.
  set (w1 := set_heap (<[fresh (dom (heap w)) := table]> (heap w)) w).
  exists w1. split; [|done].
  unfold Flow.run_billing_summary, mbind, M_bind, Df.new. fold w1.
  rewrite (check_columns_missing _ table); [done| |done].
  apply lookup_insert_eq.
Qed.







Lemma run_balance_summary_missing input_path table entered as_of w :
  "Balance" ∉ columns table →
  ∃ w', Cli.run_balance_summary to_datetime input_path table entered as_of w
        = (Raise (ValueError "Input missing required column: Balance"), w')
        ∧ files w' = files w ∧ console w' = console w.
Proof.
  intros Hmiss.
  set (l := fresh (dom (heap w))).
  set (w1 := set_heap (<[l := table]> (heap w)) w).
  assert (heap w1 !! l = Some table) as Hl by apply lookup_insert_eq.
  exists w1. split; [|done].
  unfold Cli.run_balance_summary, mbind, M_bind, Df.new. fold l w1.
  by rewrite (check_balance_missing l table w1 Hl Hmiss).
Qed.

(** X3. When the table has no Balance column, [run_balance_summary] and
    [main] of balance_sum_report.py raise
    ValueError "Input missing required column: Balance" before anything is
    written or printed. *)
Theorem balance_flows_missing_balance input_path table entered args_customer
    as_of args_output w :
  "Balance" ∉ columns table →
  (∃ w', Cli.run_balance_summary to_datetime input_path table entered as_of w
         = (Raise (ValueError "Input missing required column: Balance"), w')
         ∧ files w' = files w ∧ console w' = console w)
  ∧ (∃ w', Cli.balance_main to_datetime input_path table args_customer as_of
             args_output w
           = (Raise (ValueError "Input missing required column: Balance"), w')
           ∧ files w' = files w ∧ console w' = console w).
Proof.
  intros Hmiss. split; [by apply run_balance_summary_missing|].
  set (l := fresh (dom (heap w))).
  set (w1 := set_heap (<[l := table]> (heap w)) w).
  assert (heap w1 !! l = Some table) as Hl by apply lookup_insert_eq.
  exists w1. split; [|done].
  unfold Cli.balance_main, mbind, M_bind, Df.new. fold l w1.
  by rewrite (check_balance_missing l table w1 Hl Hmiss).
Qed.




(** X12. [main] of generate_reports.py, from the check of the menu choice
    on, catches whatever the selected flow raises: it always ends in an
    outcome, which is a return, a complaint, or exit status 1 with the
    error.  A choice other than "1" or "2" is answered with "Invalid
    choice. Exiting." and changes nothing; with choice "1" and a table
    lacking required columns the outcome is exit status 1 with the
    ValueError that lists them, and no file has been written. *)
Theorem dispatch_reports_errors choice_raw input_path found table entered as_of w :
  (∃ o w', Cli.dispatch to_datetime choice_raw input_path found table entered
             as_of w = (Ok o, w'))
  ∧ (choice_raw ≠ "1" → choice_raw ≠ "2" →
     Cli.dispatch to_datetime choice_raw input_path found table entered as_of w
     = (Ok (Cli.Complained "Invalid choice. Exiting."), w))
  ∧ (∀ p, choice_raw = "1" → input_path = Some p → found = true →
          Spec.missing_columns table ≠ [] →
          ∃ w', Cli.dispatch to_datetime choice_raw input_path found table
                  entered as_of w
                = (Ok (Cli.Exited
                         (ValueError
                            ("Input missing required columns: "
                               +:+ Text.join ", " (Spec.missing_columns table)))),
                   w')
                ∧ files w' = files w ∧ console w' = console w).
Proof.
  split_and!.
  - unfold Cli.dispatch.
    destruct (negb _); [by eexists _, _|].
    destruct input_path as [p|]; [|by eexists _, _].
    destruct (negb found); [by eexists _, _|].
    unfold Cli.guarded.
    destruct (if bool_decide (choice_raw = "1") then _ else _) as [[[]|e] w'];
      by eexists _, _.
  - intros H1 H2. unfold Cli.dispatch.
    rewrite bool_decide_eq_false_2; [done|].
    rewrite !elem_of_cons, elem_of_nil. tauto.
  - intros p -> -> -> Hmiss. unfold Cli.dispatch.
    rewrite bool_decide_eq_true_2 by left. cbn [negb].
    rewrite bool_decide_eq_true_2 by done. unfold Cli.guarded.
    destruct (billing_flow_missing_columns_aux p table entered as_of w Hmiss)
      as (w' & -> & Hfiles & Hconsole).
    by exists w'.
Qed.



End FlowRuns.

Section BuilderFacts.

Context {sums : Sums}.
Variable to_datetime : list cell → list (option Timestamp).

(** X7. Calling a builder a second time on the same dataset, customer and
    as-of date, in the heap the first call left behind, returns the same
    result as the first call (the same text, or the same exception). *)
Theorem builders_repeatable l df customer as_of w :
  heap w !! l = Some df →
  let first_balance := Balance.build_balance_report to_datetime l customer as_of w in
  let first_billing := Billing.build_report to_datetime l customer as_of w in
  (Balance.build_balance_report to_datetime l customer as_of first_balance.2).1
  = first_balance.1
  ∧ (Billing.build_report to_datetime l customer as_of first_billing.2).1
    = first_billing.1.
Proof.
  intros Hl. cbv zeta.
  destruct (Balance_report_run to_datetime l df customer as_of w Hl)
    as (w1 & -> & Hsub1 & _).
  destruct (Billing_report_run to_datetime l df customer as_of w Hl)
    as (w2 & -> & Hsub2 & _).
  simpl.
  assert (heap w1 !! l = Some df) as Hl1
    by exact (lookup_weaken _ _ _ _ Hl Hsub1).
  assert (heap w2 !! l = Some df) as Hl2
    by exact (lookup_weaken _ _ _ _ Hl Hsub2).
  destruct (Balance_report_run to_datetime l df customer as_of w1 Hl1)
    as (w3 & -> & _).
  destruct (Billing_report_run to_datetime l df customer as_of w2 Hl2)
    as (w4 & -> & _).
  done.
Qed.

Lemma getitem_absent name cols rs :
  name ∉ cols → Frame.getitem (mkFrame cols rs) name = Raise (KeyError name).
Proof. intros Hin. unfold Frame.getitem; simpl. by rewrite bool_decide_eq_false_2. Qed.

(** X9. A builder called on a dataset without the column it reads first
    raises KeyError for that column: [build_balance_report] for "Balance",
    [build_report] for "Inv Date"; the caller's heap is left as it was. *)
Theorem builders_raise_KeyError l df customer as_of w :
  heap w !! l = Some df →
  ("Balance" ∉ columns df →
   ∃ w', Balance.build_balance_report to_datetime l customer as_of w
         = (Raise (KeyError "Balance"), w') ∧ extends w w')
  ∧ ("Inv Date" ∉ columns df →
     ∃ w', Billing.build_report to_datetime l customer as_of w
           = (Raise (KeyError "Inv Date"), w') ∧ extends w w').
Proof.
  intros Hl. split; intros Hmiss.
  - destruct (Balance_report_run to_datetime l df customer as_of w Hl)
      as (w' & -> & Hext).
    exists w'. split; [|done]. f_equal.
    unfold Balance.report_of, Balance.stats_of. cbv zeta.
    rewrite Balance_working_copy.
    rewrite (getitem_absent "Balance"); [reflexivity|].
    rewrite elem_of_add_column. by intros [|].
  - destruct (Billing_report_run to_datetime l df customer as_of w Hl)
      as (w' & -> & Hext).
    exists w'. split; [|done]. f_equal.
    unfold Billing.report_of, Billing.stats_of, Billing.working_copy.
    destruct df as [cols rs]. by rewrite (getitem_absent "Inv Date").
Qed.

Lemma length_unique {X} `{EqDecision X} (l : list X) :
  (length (Series.unique l) ≤ length l)%nat.
Proof.
  unfold Series.unique. rewrite length_reverse, <- (length_reverse l).
  induction (reverse l) as [|x k IH]; [done|]. simpl.
  case_decide; simpl; lia.
Qed.

Lemma nunique_le (s : list cell) : (Series.nunique s ≤ length s)%nat.
Proof.
  unfold Series.nunique. etrans; [apply length_unique|].
  unfold Series.dropna. apply length_filter.
Qed.

(** X10. In the balance report of a table with a numeric Balance column
    the order count is at most the number of payable rows, which is at
    most the number of rows; a table without payable rows has total 0 and
    order count 0. *)
Theorem balance_order_count_bounds l df w :
  heap w !! l = Some df →
  Spec.balance_table df →
  let payable := filter (λ r, Spec.payable r = true) (rows df) in
  ∃ st w',
    Balance.stats to_datetime l w = (Ok st, w')
    ∧ (Balance.order_count st ≤ length payable ≤ length (rows df))%nat
    ∧ (payable = [] →
       Balance.order_count st = 0%nat ∧ Balance.balance_total st = 0%Qc
       ∧ Balance.min_date st = None ∧ Balance.max_date st = None).
Proof.
  intros Hl Htable payable.
  destruct (Balance_run_spec to_datetime l df "" (mkTimestamp 0 0 0 0) w Hl Htable)
    as (w' & Hstats & _).
  pose proof (payable_rows_fst to_datetime df) as Hfst. fold payable in Hfst.
  eexists _, w'. split; [exact Hstats|].
  unfold Spec.balance;
    cbn [Balance.balance_total Balance.order_count Balance.min_date
           Balance.max_date].
  rewrite Hfst. split.
  - split; [|apply length_filter].
    case_bool_decide.
    + etrans; [apply nunique_le|]. by rewrite length_fmap.
    + by rewrite <- Hfst, length_fmap.
  - intros Hnil. rewrite Hnil in Hfst |- *.
    apply fmap_nil_inv in Hfst. rewrite Hfst.
    assert (Spec.total "Balance" [] = 0%Qc) as -> by apply series_sum_nil.
    by case_bool_decide.
Qed.

Lemma nunique_distinct (s : list cell) :
  ∃ values, NoDup values
            ∧ (∀ c, c ∈ values ↔ c ≠ NA ∧ c ∈ s)
            ∧ Series.nunique s = length values.
Proof.
  exists (Series.unique (Series.dropna s)). split_and!; [apply NoDup_unique| |done].
  intros c. rewrite elem_of_unique. unfold Series.dropna.
  by rewrite list_elem_of_filter.
Qed.

(** X17. The order count of the billing report is the number of distinct
    values in the Order No column, missing values left aside: rows that
    repeat an order number count once, and the count is at most the
    number of rows. *)
Theorem billing_order_count_distinct l df as_of w :
  heap w !! l = Some df →
  Spec.billing_table to_datetime df →
  ∃ st w' orders,
    Billing.stats to_datetime l as_of w = (Ok st, w')
    ∧ NoDup orders
    ∧ (∀ c, c ∈ orders ↔ c ≠ NA ∧ ∃ r, r ∈ rows df ∧ Spec.field "Order No" r = c)
    ∧ Billing.order_count st = length orders
    ∧ (Billing.order_count st ≤ length (rows df))%nat.
Proof.
  intros Hl Htable.
  destruct (Billing_run_spec to_datetime l df "" as_of w Hl Htable)
    as (w' & Hstats & _).
  destruct (nunique_distinct (Spec.field "Order No" <$> rows df))
    as (orders & Hnodup & Hin & Hlen).
  eexists _, w', orders. split; [exact Hstats|].
  cbn [Spec.billing Billing.order_count]. split_and!; [done| |done|].
  - intros c. rewrite Hin, list_elem_of_fmap. split.
    + intros [Hna (r & -> & Hr)]. split; [done|]. by exists r.
    + intros [Hna (r & Hr & <-)]. split; [done|]. by exists r.
  - etrans; [apply nunique_le|]. by rewrite length_fmap.
Qed.

(** X8. In the balance report of a table with a numeric Balance column,
    the date range reads "No unpaid invoices found." exactly when no
    payable row has a readable invoice date; this is so in particular
    when the table has no Inv Date column. *)
Theorem balance_report_without_dates l df w :
  heap w !! l = Some df →
  Spec.balance_table df →
  ∃ st w',
    Balance.stats to_datetime l w = (Ok st, w')
    ∧ (Balance.date_range_lines (Balance.min_date st) (Balance.max_date st)
       = ["3) Unpaid invoice date range"; "   No unpaid invoices found."]
       ↔ ∀ t, Some t ∉ (Spec.payable_rows to_datetime df).*2)
    ∧ ("Inv Date" ∉ columns df →
       Balance.date_range_lines (Balance.min_date st) (Balance.max_date st)
       = ["3) Unpaid invoice date range"; "   No unpaid invoices found."]).
Proof.
  intros Hl Htable.
  destruct (Balance_run_spec to_datetime l df "" (mkTimestamp 0 0 0 0) w Hl Htable)
    as (w' & Hstats & _).
  eexists _, w'. split; [exact Hstats|].
  unfold Spec.balance; cbn [Balance.min_date Balance.max_date].
  set (ds := (Spec.payable_rows to_datetime df).*2).
  assert (Balance.date_range_lines (Spec.earliest ds) (Spec.latest ds)
          = ["3) Unpaid invoice date range"; "   No unpaid invoices found."]
          ↔ ∀ t, Some t ∉ ds) as Hiff.
  { rewrite <- earliest_None. pose proof (earliest_latest ds) as Hboth.
    unfold Balance.date_range_lines.
    destruct (Spec.earliest ds) as [d1|], (Spec.latest ds) as [d2|]; simpl.
    - split; [by intros [=]|done].
    - exfalso. destruct Hboth as [H _]. destruct H; eauto. done.
    - exfalso. destruct Hboth as [_ H]. destruct H; eauto. done.
    - done. }
  split; [exact Hiff|].
  intros Hmiss. apply Hiff. intros t Ht.
  apply list_elem_of_fmap in Ht as ([r d] & Hd & Hin). simpl in Hd. subst d.
  apply list_elem_of_filter in Hin as [_ Hin].
  apply elem_of_zip_r in Hin. unfold Spec.row_dates, Frame.get in Hin.
  rewrite bool_decide_eq_false_2 in Hin by done.
  by apply elem_of_replicate in Hin as [? _].
Qed.

(** X11. Two dates within the [pd.Timestamp] range get the same
    fiscal-year label exactly when they have the same fiscal start year:
    the label tells fiscal years apart. *)
Theorem fy_label_same_year d1 d2 :
  Time.in_bounds d1 → Time.in_bounds d2 →
  (fy_label (Some d1) = fy_label (Some d2)
   ↔ (if 4 <=? month d1 then year d1 else year d1 - 1)
     = (if 4 <=? month d2 then year d2 else year d2 - 1)).
Proof.
  intros H1 H2. split.
  - intros Heq.
    destruct (fy_label (Some d1)) as [k|] eqn:Hk; [|done].
    pose proof (fy_label_year d1 k H1 Hk) as Hy1.
    pose proof (fy_label_year d2 k H2 (eq_sym Heq)) as Hy2.
    rewrite Hy1 in Hy2. by injection Hy2.
  - intros Heq. simpl. unfold fy_start. by rewrite Heq.
Qed.

End BuilderFacts.

Section InferenceFacts.

Lemma infer_cons df col rest :
  infer_from df (col :: rest)
  = match infer_from df [col] with
    | Some v => Some v
    | None => infer_from df rest
    end.
Proof.
  simpl. case_bool_decide; cbn [negb]; [|done].
  case_bool_decide; [done|].
  destruct (Series.is_string_dtype _); cbn [negb]; [|done].
  by destruct (Series.unique _) as [|u [|u' t]].
Qed.

Lemma infer_single_sound df col v :
  infer_from df [col] = Some v → Spec.sole_name df col v.
Proof.
  simpl. case_bool_decide as Hcol; cbn [negb]; [|done].
  case_bool_decide as Hnil; [done|].
  destruct (Series.is_string_dtype _) eqn:Htext; cbn [negb]; [|done].
  destruct (Series.unique _) as [|u [|u' t]] eqn:Hu; try done.
  intros [= ->].
  apply unique_singleton in Hu as [Hin Hall].
  apply elem_of_names in Hin as [Hne (s & Hs & Hv)].
  apply is_string_dtype_Forall in Htext. rewrite Forall_forall in Htext.
  split_and!; try done.
  - intros c Hc. destruct (decide (c = NA)) as [|Hna]; [by left|right].
    apply Htext. by apply list_elem_of_filter.
  - by exists s.
  - intros s' Hs'. destruct (decide (Text.strip s' = "")) as [|Hne']; [by left|].
    right. apply Hall. apply elem_of_names. split; [done|]. by exists s'.
Qed.

Lemma infer_single_none df col u :
  infer_from df [col] = None → ¬ Spec.sole_name df col u.
Proof.
  intros Hnone Hsole. by rewrite (infer_found df col [] u Hsole) in Hnone.
Qed.

Lemma infer_from_sound df cols v :
  infer_from df cols = Some v →
  ∃ pre col post,
    cols = (pre ++ col :: post)%list
    ∧ Spec.sole_name df col v
    ∧ ∀ c u, c ∈ pre → ¬ Spec.sole_name df c u.
Proof.
  induction cols as [|col cols IH]; [done|].
  rewrite infer_cons. destruct (infer_from df [col]) as [v'|] eqn:Hcol.
  - intros [= ->]. exists [], col, cols. split_and!; [done| |].
    + by apply infer_single_sound.
    + intros c u Hc. by apply elem_of_nil in Hc.
  - intros Hrest. destruct (IH Hrest) as (pre & col' & post & -> & Hsole & Hpre).
    exists (col :: pre), col', post. split_and!; [done|done|].
    intros c u Hc. apply elem_of_cons in Hc as [->|Hc].
    + by apply infer_single_none.
    + by apply Hpre.
Qed.

Lemma infer_from_none_inv df cols :
  infer_from df cols = None → ∀ c u, c ∈ cols → ¬ Spec.sole_name df c u.
Proof.
  induction cols as [|col cols IH]; intros Hnone c u Hc.
  - by apply elem_of_nil in Hc.
  - rewrite infer_cons in Hnone.
    destruct (infer_from df [col]) as [v'|] eqn:Hcol; [done|].
    apply elem_of_cons in Hc as [->|Hc].
    + by apply infer_single_none.
    + by apply IH.
Qed.

(** Whitespace at the ends of a stripped string *)

Lemma lstrip_head l c : head (Text.lstrip l) = Some c → Text.is_space c = false.
Proof.
  induction l as [|x l IH]; [done|]. simpl.
  destruct (Text.is_space x) eqn:Hx; [done|]. simpl. by intros [= <-].
Qed.

Lemma lstrip_last l c :
  last (Text.lstrip l) = Some c → last l = Some c.
Proof.
  induction l as [|x l IH]; [done|]. simpl.
  destruct (Text.is_space x) eqn:Hx; [|done].
  intros Hc. rewrite last_cons. by rewrite (IH Hc).
Qed.

Lemma strip_ends s c :
  head (Text.chars (Text.strip s)) = Some c ∨ last (Text.chars (Text.strip s)) = Some c →
  Text.is_space c = false.
Proof.
  unfold Text.strip. rewrite chars_text.
  set (m := Text.lstrip (Text.chars s)).
  intros [Hhead|Hlast].
  - rewrite head_reverse in Hhead. apply lstrip_last in Hhead.
    rewrite last_reverse in Hhead. by apply lstrip_head in Hhead.
  - rewrite last_reverse in Hlast. by apply lstrip_head in Hlast.
Qed.

(** X6. Whatever [infer_customer_name] returns is warranted by the table:
    a returned name is the one trimmed non-empty value of a candidate
    column, no earlier candidate column has such a value, and the name is
    not empty and neither starts nor ends with whitespace; [None] is
    returned only when no candidate column has such a value. *)
Theorem inferred_name_is_warranted df :
  (∀ v, infer_customer_name df = Some v →
        (∃ pre col post,
           candidate_columns = (pre ++ col :: post)%list
           ∧ Spec.sole_name df col v
           ∧ ∀ c u, c ∈ pre → ¬ Spec.sole_name df c u)
        ∧ v ≠ ""
        ∧ ∀ c, head (Text.chars v) = Some c ∨ last (Text.chars v) = Some c →
               Text.is_space c = false)
  ∧ (infer_customer_name df = None →
     ∀ c u, c ∈ candidate_columns → ¬ Spec.sole_name df c u).
Proof.
  split.
  - intros v Hv. apply infer_from_sound in Hv as (pre & col & post & Hsplit & Hsole & Hpre).
    split; [by exists pre, col, post|].
    destruct Hsole as (_ & _ & (s & _ & <-) & Hne & _).
    split; [done|]. apply strip_ends.
  - apply infer_from_none_inv.
Qed.

(** X5. [prompt_customer] never yields an empty name: what the user typed
    wins when it is not empty, otherwise a non-empty inferred name, and
    otherwise "Customer". *)
Theorem prompt_customer_never_blank inferred entered :
  Flow.prompt_customer inferred entered ≠ ""
  ∧ (entered ≠ "" → Flow.prompt_customer inferred entered = entered)
  ∧ (entered = "" → ∀ v, inferred = Some v → v ≠ "" →
     Flow.prompt_customer inferred entered = v)
  ∧ (entered = "" → (inferred = None ∨ inferred = Some "") →
     Flow.prompt_customer inferred entered = "Customer").
Proof.
  unfold Flow.prompt_customer, Flow.str_or. split_and!.
  - destruct inferred as [v|]; repeat case_bool_decide; done.
  - intros Hne. by rewrite bool_decide_eq_false_2.
  - intros -> v -> Hv. rewrite bool_decide_eq_true_2 by done.
    by rewrite bool_decide_eq_false_2.
  - intros -> [->| ->]; by rewrite ?bool_decide_eq_true_2.
Qed.

End InferenceFacts.

Section Separators.

Lemma comma_free_uint d :
  Forall (λ c : ascii, c ≠ ","%char) (Text.chars (NilEmpty.string_of_uint d)).
Proof. induction d; simpl; try constructor; done. Qed.

Lemma comma_free_py_str z :
  Forall (λ c : ascii, c ≠ ","%char) (Text.chars (Text.py_str z)).
Proof.
  unfold Text.py_str, NilZero.string_of_int, NilZero.string_of_uint.
  destruct (Z.to_int z) as [d|d].
  - destruct d; try apply comma_free_uint. by repeat constructor.
  - simpl. constructor; [done|].
    destruct d; try apply comma_free_uint. by repeat constructor.
Qed.

Lemma group3_digits k ds :
  Forall (λ c : ascii, c ≠ ","%char) ds →
  filter (λ c : ascii, c ≠ ","%char) (Text.group3 k ds) = ds.
Proof.
  intros Hds. revert k.
  induction Hds as [|d rest Hd Hrest IH]; intros k; [done|].
  simpl. destruct rest as [|e rest].
  { by rewrite filter_cons, decide_True. }
  destruct k as [|[|[|k]]];
    rewrite filter_cons, decide_True by done; f_equal;
    apply IH.
Qed.

Lemma py_str_negative z :
  z < 0 → Text.py_str z = "-" +:+ Text.py_str (Z.abs z).
Proof. destruct z; try lia. intros _. reflexivity. Qed.

Lemma small_amounts :
  Forall (λ z, Text.fmt_comma z = Text.py_str z) (seqZ (-999) 1999).
Proof. apply (bool_decide_unpack _). by vm_compute. Qed.

(** X18. An amount printed with thousands separators is the plain decimal
    numeral of the same integer with commas put in: dropping the commas
    gives [str] of the amount back, and an amount of fewer than four
    digits is printed without any comma. *)
Theorem amounts_read_back z :
  filter (λ c : ascii, c ≠ ","%char) (Text.chars (Text.fmt_comma z))
  = Text.chars (Text.py_str z)
  ∧ (-1000 < z < 1000 → Text.fmt_comma z = Text.py_str z).
Proof.
  split.
  - assert (filter (λ c : ascii, c ≠ ","%char)
              (Text.chars
                 (Text.text (reverse (Text.group3 0
                    (reverse (Text.chars (Text.py_str (Z.abs z))))))))
            = Text.chars (Text.py_str (Z.abs z))) as Hbody.
    { rewrite chars_text, filter_reverse, group3_digits.
      - apply reverse_involutive.
      - apply Forall_reverse, comma_free_py_str. }
    unfold Text.fmt_comma. cbv zeta. destruct (Z.ltb_spec z 0) as [Hneg|Hpos].
    + rewrite (py_str_negative z) by done. rewrite !chars_app, filter_app.
      rewrite Hbody. done.
    + rewrite Hbody. by rewrite Z.abs_eq.
  - intros Hz. pose proof small_amounts as Hall. rewrite Forall_forall in Hall.
    apply Hall, elem_of_seqZ. lia.
Qed.

End Separators.

Section MenuFacts.

Implicit Types (x y : Cli.Entry) (l : list Cli.Entry).

Lemma insert_newest_perm x l : Cli.insert_newest x l ≡ₚ x :: l.
Proof.
  induction l as [|y l IH]; [done|]. simpl.
  case_bool_decide; [done|]. rewrite IH. apply Permutation_swap.
Qed.

Lemma newest_first_perm l : Cli.newest_first l ≡ₚ l.
Proof.
  induction l as [|x l IH]; [done|]. unfold Cli.newest_first in *. simpl.
  rewrite insert_newest_perm. by rewrite IH.
Qed.

Lemma insert_newest_sorted x l :
  StronglySorted (λ x y : Cli.Entry, (Cli.mtime y ≤ Cli.mtime x)%Qc) l →
  StronglySorted (λ x y : Cli.Entry, (Cli.mtime y ≤ Cli.mtime x)%Qc) (Cli.insert_newest x l).
Proof.
  induction 1 as [|y l Hl IH Hy]; simpl.
  - repeat constructor.
  - case_bool_decide as Hle.
    + constructor; [by constructor|]. constructor; [done|].
      eapply Forall_impl; [exact Hy|]. intros z Hz. simpl in *.
      by etrans.
    + constructor; [done|]. rewrite insert_newest_perm. constructor; [|done].
      apply Qclt_le_weak. by apply Qcnot_le_lt.
Qed.

Lemma newest_first_sorted l : StronglySorted (λ x y : Cli.Entry, (Cli.mtime y ≤ Cli.mtime x)%Qc) (Cli.newest_first l).
Proof.
  induction l as [|x l IH]; [constructor|]. by apply insert_newest_sorted.
Qed.

Lemma insert_newest_same_age (t : Qc) x l :
  filter (λ p, Cli.mtime p = t) (Cli.insert_newest x l)
  = filter (λ p, Cli.mtime p = t) (x :: l).
Proof.
  induction l as [|y l IH]; [done|]. simpl.
  case_bool_decide as Hle; [done|].
  rewrite filter_cons, IH, !filter_cons.
  destruct (decide (Cli.mtime y = t)) as [Hy|Hy];
    destruct (decide (Cli.mtime x = t)) as [Hx|Hx]; try done.
  exfalso. apply Hle. by rewrite Hy, Hx.
Qed.

Lemma newest_first_same_age (t : Qc) l :
  filter (λ p, Cli.mtime p = t) (Cli.newest_first l)
  = filter (λ p, Cli.mtime p = t) l.
Proof.
  induction l as [|x l IH]; [done|]. unfold Cli.newest_first in *. simpl.
  rewrite insert_newest_same_age, !filter_cons. by rewrite IH.
Qed.

(** X14. [list_candidate_files] returns exactly the entries that are
    files with a supported suffix (compared in lower case), each as often
    as the folder lists it, newest first, entries of the same age in the
    order of the folder listing. *)
Theorem list_candidate_files_newest_first entries :
  let found := Cli.list_candidate_files entries in
  found ≡ₚ filter (λ p, Cli.candidate p = true) entries
  ∧ (∀ p, p ∈ found ↔
          p ∈ entries ∧ Cli.is_file p = true
          ∧ Cli.lower (Cli.suffix p) ∈ Cli.SUPPORTED_SUFFIXES)
  ∧ StronglySorted (λ p q, (Cli.mtime q ≤ Cli.mtime p)%Qc) found
  ∧ ∀ t : Qc, filter (λ p, Cli.mtime p = t) found
              = filter (λ p, Cli.mtime p = t ∧ Cli.candidate p = true) entries.
Proof.
  cbn zeta. unfold Cli.list_candidate_files. split_and!.
  - apply newest_first_perm.
  - intros p. rewrite newest_first_perm, list_elem_of_filter.
    unfold Cli.candidate. rewrite andb_true_iff, bool_decide_eq_true. tauto.
  - apply newest_first_sorted.
  - intros t. rewrite newest_first_same_age, list_filter_filter. done.
Qed.

(** X13. The choice made in [prompt_file]: a number from 1 to the number
    of files listed picks the file at that place of the menu (the index
    is always in range); any other number but 0 is refused as out of
    range; 0 picks the path typed next unless it is empty; and whatever
    is picked is one of the files listed or the path typed. *)
Theorem prompt_file_choice {P} (of_string : string → P) (files : list P)
    (typed : option (option Z)) (custom : string) :
  (∀ choice, typed = Some (Some choice) →
     1 ≤ choice ≤ Z.of_nat (length files) →
     ∃ p, files !! Z.to_nat (choice - 1) = Some p
          ∧ Cli.prompt_file of_string files typed custom = Cli.Picked p)
  ∧ (∀ choice, typed = Some (Some choice) → files ≠ [] →
       choice < 0 ∨ Z.of_nat (length files) < choice →
       Cli.prompt_file of_string files typed custom
       = Cli.Nothing (Some "Selection out of range."))
  ∧ (typed = Some (Some 0) → files ≠ [] →
       Cli.prompt_file of_string files typed custom
       = if bool_decide (custom = "") then Cli.Nothing None
         else Cli.Picked (of_string custom))
  ∧ (∀ p, Cli.prompt_file of_string files typed custom = Cli.Picked p →
       p ∈ files ∨ (typed = Some (Some 0) ∧ custom ≠ "" ∧ p = of_string custom)).
Proof.
  split_and!.
  - intros choice -> Hrange.
    destruct (lookup_lt_is_Some_2 files (Z.to_nat (choice - 1))) as [p Hp]; [lia|].
    exists p. split; [done|]. unfold Cli.prompt_file.
    destruct files as [|f files]; [simpl in Hrange; lia|].
    destruct (Z.eqb_spec choice 0) as [|_]; [lia|].
    rewrite (proj2 (Z.leb_le 1 choice)), (proj2 (Z.leb_le choice _)) by lia.
    cbn [andb]. by rewrite Hp.
  - intros choice -> Hfiles Hout. unfold Cli.prompt_file.
    destruct files as [|f files]; [done|].
    destruct (Z.eqb_spec choice 0) as [|_]; [lia|].
    destruct Hout as [Hneg|Hbig].
    + by rewrite (proj2 (Z.leb_gt 1 choice)) by lia.
    + rewrite (proj2 (Z.leb_gt choice _)) by lia. by rewrite andb_false_r.
  - intros -> Hfiles. unfold Cli.prompt_file. by destruct files.
  - intros p. unfold Cli.prompt_file.
    destruct files as [|f files]; [done|].
    destruct typed as [[choice|]|]; try done.
    destruct (Z.eqb_spec choice 0) as [->|Hne].
    + case_bool_decide; [done|]. intros [= <-]. by right.
    + destruct (_ && _); [|done].
      destruct (_ !! _) as [q|] eqn:Hq; [|done].
      intros [= <-]. left. by eapply list_elem_of_lookup_2.
Qed.

End MenuFacts.

(** ** The properties above on the sample tables *)

Section OnSamples.

#[local] Existing Instance whole_sums.



Lemma balance_flows_missing_balance_witness :
  ∃ w', Cli.run_balance_summary iso_to_datetime Example.input_path unbalanced
          "" Example.as_of (mkWorld ∅ [] [])
        = (Raise (ValueError "Input missing required column: Balance"), w')
        ∧ files w' = [] ∧ console w' = [].
Proof.
  refine (proj1 (balance_flows_missing_balance iso_to_datetime Example.input_path
                   unbalanced "" "Customer" Example.as_of None
                   (mkWorld ∅ [] []) _)).
  apply (bool_decide_unpack _). by vm_compute.
Defined.


Lemma prompt_customer_never_blank_witness :
  Flow.prompt_customer (Some "Acme") "" = "Acme".
Proof.
  apply (proj1 (proj2 (proj2 (prompt_customer_never_blank (Some "Acme") "")))
           eq_refl "Acme" eq_refl).
  discriminate.
Defined.

Lemma inferred_name_is_warranted_witness :
  ∃ pre col post,
    candidate_columns = (pre ++ col :: post)%list
    ∧ Spec.sole_name Example.named col "Acme"
    ∧ ∀ c u, c ∈ pre → ¬ Spec.sole_name Example.named c u.
Proof.
  apply (proj1 (inferred_name_is_warranted Example.named) "Acme").
  reflexivity.
Defined.

Lemma builders_repeatable_witness :
  (Balance.build_balance_report iso_to_datetime 1 "Acme" Example.as_of
     (Balance.build_balance_report iso_to_datetime 1 "Acme" Example.as_of
        (Example.world Example.balances)).2).1
  = (Balance.build_balance_report iso_to_datetime 1 "Acme" Example.as_of
       (Example.world Example.balances)).1.
Proof.
  apply (builders_repeatable iso_to_datetime 1 Example.balances "Acme"
           Example.as_of (Example.world Example.balances)).
  reflexivity.
Defined.

Lemma balance_report_without_dates_witness :
  ∃ st w',
    Balance.stats iso_to_datetime 1 (Example.world Example.named) = (Ok st, w')
    ∧ Balance.date_range_lines (Balance.min_date st) (Balance.max_date st)
      = ["3) Unpaid invoice date range"; "   No unpaid invoices found."].
Proof.
  destruct (balance_report_without_dates iso_to_datetime 1 Example.named
              (Example.world Example.named) eq_refl)
    as (st & w' & Hstats & _ & Hnone).
  { apply (bool_decide_unpack _). by vm_compute. }
  exists st, w'. split; [exact Hstats|]. apply Hnone.
  apply (bool_decide_unpack _). by vm_compute.
Defined.

Lemma builders_raise_KeyError_witness :
  ∃ w', Balance.build_balance_report iso_to_datetime 1 "Acme" Example.as_of
          (Example.world unbalanced)
        = (Raise (KeyError "Balance"), w')
        ∧ extends (Example.world unbalanced) w'.
Proof.
  apply (proj1 (builders_raise_KeyError iso_to_datetime 1 unbalanced "Acme"
                  Example.as_of (Example.world unbalanced) eq_refl)).
  apply (bool_decide_unpack _). by vm_compute.
Defined.

Lemma balance_order_count_bounds_witness :
  ∃ st w',
    Balance.stats iso_to_datetime 1 (Example.world Example.balances) = (Ok st, w')
    ∧ (Balance.order_count st ≤ length (rows Example.balances))%nat.
Proof.
  destruct (balance_order_count_bounds iso_to_datetime 1 Example.balances
              (Example.world Example.balances) eq_refl)
    as (st & w' & Hstats & [Hle1 Hle2] & _).
  { apply (bool_decide_unpack _). by vm_compute. }
  exists st, w'. split; [exact Hstats|]. exact (Nat.le_trans _ _ _ Hle1 Hle2).
Defined.

Lemma billing_order_count_distinct_witness :
  ∃ st w',
    Billing.stats iso_to_datetime 1 Example.as_of (Example.world Example.invoices)
    = (Ok st, w')
    ∧ (Billing.order_count st ≤ length (rows Example.invoices))%nat.
Proof.
  destruct (billing_order_count_distinct iso_to_datetime 1 Example.invoices
              Example.as_of (Example.world Example.invoices) eq_refl)
    as (st & w' & orders & Hstats & _ & _ & _ & Hle).
  { apply (bool_decide_unpack _). by vm_compute. }
  exists st, w'. split; [exact Hstats|exact Hle].
Defined.

Lemma fy_label_same_year_witness :
  fy_label (Some (mkTimestamp 2025 4 1 0))
  = fy_label (Some (mkTimestamp 2026 3 31 0)).
Proof.
  apply (proj2 (fy_label_same_year (mkTimestamp 2025 4 1 0)
                  (mkTimestamp 2026 3 31 0) ltac:(by vm_compute)
                  ltac:(by vm_compute))).
  reflexivity.
Defined.

Lemma dispatch_reports_errors_witness :
  Cli.dispatch iso_to_datetime "3" None false unbalanced "" Example.as_of
    (mkWorld ∅ [] [])
  = (Ok (Cli.Complained "Invalid choice. Exiting."), mkWorld ∅ [] []).
Proof.
  apply (proj1 (proj2 (dispatch_reports_errors iso_to_datetime "3" None false
                         unbalanced "" Example.as_of (mkWorld ∅ [] []))));
    discriminate.
Defined.



Lemma amounts_read_back_witness : Text.fmt_comma 999 = Text.py_str 999.
Proof. apply (proj2 (amounts_read_back 999)). lia. Defined.

Lemma prompt_file_choice_witness :
  ∃ p, ["a.csv"; "b.csv"] !! Z.to_nat (2 - 1) = Some p
       ∧ Cli.prompt_file id ["a.csv"; "b.csv"] (Some (Some 2)) "" = Cli.Picked p.
Proof.
  apply (proj1 (prompt_file_choice id ["a.csv"; "b.csv"] (Some (Some 2)) "")
           2 eq_refl).
  simpl. lia.
Defined.

End OnSamples.
